(** * pb: a client for the pandorabots API

    A shallow embedding of package [pb] (the single Go file of the
    library) and the properties of its request path: client
    construction, URL building, parameter assembly for the talk
    endpoint, and the one function [do] every operation goes through.

    Go strings are byte strings and are modelled by [string]; Go [int]
    by [Z]; Go maps by [gmap]; response payloads by [list byte].
    Functions with side effects (loggers, the HTTP client, writers, the
    response body) are state transformers over a [World]. *)

From Stdlib Require Import ZArith String Ascii List Lia DecimalString.
From Stdlib.Strings Require Import Byte.
From stdpp Require Import base gmap strings list fin_maps.

Open Scope string_scope.
Open Scope list_scope.

(** ** The pieces of the Go standard library the package calls *)

Module Go.

(** [len(s) >= len(suffix) && s[len(s)-len(suffix):] == suffix] *)
Definition strings_HasSuffix (s suffix : string) : bool :=
  (String.length suffix <=? String.length s)%nat &&
  bool_decide (substring (String.length s - String.length suffix)
                         (String.length suffix) s = suffix).

(** [s[i:j]] for [i <= j <= len(s)], the only way the package slices. *)
Definition slice (s : string) (i j : nat) : string := substring i (j - i) s.

(** [strconv.Itoa]: base 10, a leading minus sign for negatives. *)
Definition strconv_Itoa (i : Z) : string := NilZero.string_of_int (Z.to_int i).

(** [filepath.Ext]: scan backwards from the last byte, stop at a path
    separator, return the suffix that starts at the first dot met. *)
Fixpoint Ext_loop (path : string) (n : nat) : string :=
  match n with
  | O => ""
  | S i =>
      match String.get i path with
      | Some ch =>
          if bool_decide (ch = "/"%char) then ""
          else if bool_decide (ch = "."%char)
               then slice path i (String.length path)
               else Ext_loop path i
      | None => ""
      end
  end.

Definition filepath_Ext (path : string) : string :=
  Ext_loop path (String.length path).

(** *** [net/url]: query values *)

Definition between (lo hi ch : ascii) : bool :=
  (N_of_ascii lo <=? N_of_ascii ch)%N && (N_of_ascii ch <=? N_of_ascii hi)%N.

(** [shouldEscape(c, encodeQueryComponent)]: letters, digits and
    [-_.~] pass, everything else (the reserved set included) is escaped. *)
Definition shouldEscape (ch : ascii) : bool :=
  if between "A" "Z" ch || between "a" "z" ch || between "0" "9" ch then false
  else if bool_decide (ch ∈ ["-"; "_"; "."; "~"]%char) then false
  else true.

Definition hexdigit (n : N) : ascii :=
  default "0"%char (String.get (N.to_nat n) "0123456789ABCDEF").

Definition escape_byte (ch : ascii) : string :=
  if shouldEscape ch then
    if bool_decide (ch = " "%char) then "+"
    else String "%" (String (hexdigit (N_of_ascii ch / 16))
                    (String (hexdigit (N_of_ascii ch mod 16)) ""))
  else String ch "".

Fixpoint url_QueryEscape (s : string) : string :=
  match s with
  | EmptyString => ""
  | String ch rest => escape_byte ch +:+ url_QueryEscape rest
  end.

(** [url.Values] is [map[string][]string]. *)
Abbreviation Values := (gmap string (list string)).

Definition Values_Set (key value : string) (v : Values) : Values :=
  <[key := [value]]> v.

Definition Values_Add (key value : string) (v : Values) : Values :=
  <[key := (default [] (v !! key) ++ [value])%list]> v.

(** [sort.Strings]: ascending in byte order. *)
Fixpoint insert_sorted (k : string) (l : list string) : list string :=
  match l with
  | [] => [k]
  | x :: r => if String.leb k x then k :: l else x :: insert_sorted k r
  end.

Definition sort_Strings (l : list string) : list string :=
  foldr insert_sorted [] l.

(** One iteration of the inner loop of [Encode]: an ampersand unless
    the buffer is still empty, then [prefix] and the escaped value. *)
Definition Encode_value (prefix : string) (buf value : string) : string :=
  (if bool_decide (buf = "") then buf else buf +:+ "&")
    +:+ prefix +:+ url_QueryEscape value.

Definition Encode_key (v : Values) (buf key : string) : string :=
  foldl (Encode_value (url_QueryEscape key +:+ "=")) buf (default [] (v !! key)).

Definition Values_Encode (v : Values) : string :=
  foldl (Encode_key v) "" (sort_Strings (map fst (map_to_list v))).

End Go.

(** ** Errors, requests, responses *)

(** The library an error value was handed back by. *)
Inductive lib := net_url | net_http | io_pkg | encoding_json.

Inductive error :=
| ErrNoCred                              (* the package variable *)
| errors_New (msg : string)              (* errors.New and fmt.Errorf of this package *)
| foreign (from : lib) (msg : string).   (* returned by a library call *)

Definition Error_ (e : error) : string :=
  match e with
  | ErrNoCred => "Missing application ID or user key"
  | errors_New msg => msg
  | foreign _ msg => msg
  end.

(** Of [url.URL] the package reads the scheme only. *)
Record URL := { Scheme : string }.

Record Request := {
  Method : string;
  RequestURL : string;               (* target and query string, as given to NewRequest *)
  RequestBody : option (list byte)
}.

(** A response as the HTTP client delivers it: the status code and the
    bytes its body stream will yield. [http.Client.Do] gives every
    response a body that is not nil, so the test [resp.Body != nil] in
    [do] holds whenever it is reached. *)
Record Response := { StatusCode : Z; Payload : list byte }.

(** [*http.Client], through its one method [Do]. *)
Definition HttpClient := Request → error + Response.

Inductive Logger := logger (name : string).

(** An [io.Writer]: [room = Some n] is a sink that takes [n] bytes
    and then reports an error, [None] one that takes everything. *)
Record Writer := { sink : string; room : option nat }.

(** ** The world the client acts on *)

(** The body stream of the response being handled. *)
Record Stream := { unread : list byte; closed : bool }.

Inductive event :=
| Printf (l : Logger) (format : string) (args : list string)
| Do (req : Request)                       (* a request handed to the HTTP client *)
| Copy (w : Writer) (data : list byte)     (* io.Copy moved [data] into [w] *)
| Decode (data : list byte).               (* a JSON decoder ran over [data] *)

Record World := {
  history : list event;        (* calls made on collaborators, oldest first *)
  stream : option Stream       (* the open response body, if a response came *)
}.

Definition M (A : Type) : Type := World → A * World.

#[global] Instance M_ret : MRet M := λ A a w, (a, w).
#[global] Instance M_bind : MBind M := λ A B f m w, let '(a, w') := m w in f a w'.
#[global] Instance M_fmap : FMap M := λ A B f m w, let '(a, w') := m w in (f a, w').

Definition emit (ev : event) : M unit :=
  λ w, (tt, {| history := history w ++ [ev]; stream := stream w |}).

(** The result of decoding into a destination: the value left there,
    the message of the decoder's error if it reports one, and how many
    bytes of the reader were consumed. *)
Record Decoded (T : Type) := { dec_val : T; dec_err : option string; dec_read : nat }.
Arguments dec_val {T}.
Arguments dec_err {T}.
Arguments dec_read {T}.

Definition Decoder (T : Type) : Type := list byte → T → Decoded T.

(** ** Data returned by the service *)

Record BotEntry := {
  BotEntry_Name : string; BotEntry_Description : string; BotEntry_Language : string;
  BotEntry_Compiled : string; BotEntry_Open : string
}.

Record BotFile := {
  BotFile_Name : string; BotFile_Size : Z; BotFile_Modified : string;
  BotFile_LoadOrder : Z; BotFile_Items : Z
}.

Record BotFiles := {
  Username : string; Appname : string; Botname : string; Description : string;
  Language : string; Created : string; Open : string;
  Files : list BotFile; Sets : list BotFile; Maps : list BotFile;
  Substitutions : list BotFile; Properties : list BotFile; Pdefaults : list BotFile
}.

Record Reply := { SessionId : Z; Responses : list string }.

(** Go zero values: [var result BotFiles], [var reply Reply]. *)
Definition zero_BotFiles : BotFiles :=
  {| Username := ""; Appname := ""; Botname := ""; Description := ""; Language := "";
     Created := ""; Open := ""; Files := []; Sets := []; Maps := [];
     Substitutions := []; Properties := []; Pdefaults := [] |}.

Definition zero_Reply : Reply := {| SessionId := 0; Responses := [] |}.

(** ** Library functions left open

    What [net/url], [net/http], [net/http/httputil] and [encoding/json]
    compute is not part of the package; the development is parametric
    in it. [url_Parse] gives the message of the error where parsing
    fails; [DumpRequestOut] and [DumpResponse] give [None] where the Go
    functions return an error. *)
Record GoLib := {
  url_Parse : string → string + URL;
  http_StatusText : Z → string;
  http_DefaultClient : HttpClient;
  httputil_DumpRequestOut : Request → option string;
  httputil_DumpResponse : Z → list byte → option string;
  json_BotEntries : Decoder (list BotEntry);
  json_BotFiles : Decoder BotFiles;
  json_Reply : Decoder Reply
}.

(** ** The client *)

Definition DefaultURL : string := "https://aiaas.pandorabots.com".
Definition bot : string := "bot".
Definition talk : string := "talk".

Record Client := {
  appId : string;
  userKey : string;
  url : string;
  errorlog : option Logger;
  tracelog : option Logger;
  c : HttpClient
}.

Definition OptionFunc : Type := Client → M (Client * option error).

(** Where [do] puts a result: [nil], an [io.Writer], or a pointer to a
    value the JSON decoder fills in. *)
Inductive Dest (T : Type) :=
| Nil
| ToWriter (w : Writer)
| ToValue (decode : Decoder T) (v : T).
Arguments Nil {T}.
Arguments ToWriter {T}.
Arguments ToValue {T}.

(** The variable behind a destination after the call. *)
Definition value_of {T} (d : Dest T) (untouched : T) : T :=
  match d with ToValue _ v => v | _ => untouched end.

(** [resp.Body]: the transport's stream, or the buffer [DumpResponse]
    leaves in its place. *)
Inductive Reader := FromStream | InMemory (buf : list byte).

Definition LF : string := String "010"%char "".

Definition with_credentials (a k : string) (cl : Client) : Client :=
  {| appId := a; userKey := k; url := url cl; errorlog := errorlog cl;
     tracelog := tracelog cl; c := c cl |}.
Definition with_url (u : string) (cl : Client) : Client :=
  {| appId := appId cl; userKey := userKey cl; url := u; errorlog := errorlog cl;
     tracelog := tracelog cl; c := c cl |}.
Definition with_errorlog (l : option Logger) (cl : Client) : Client :=
  {| appId := appId cl; userKey := userKey cl; url := url cl; errorlog := l;
     tracelog := tracelog cl; c := c cl |}.
Definition with_tracelog (l : option Logger) (cl : Client) : Client :=
  {| appId := appId cl; userKey := userKey cl; url := url cl; errorlog := errorlog cl;
     tracelog := l; c := c cl |}.
Definition with_c (h : HttpClient) (cl : Client) : Client :=
  {| appId := appId cl; userKey := userKey cl; url := url cl; errorlog := errorlog cl;
     tracelog := tracelog cl; c := h |}.

(** *** Reading and closing a response body *)

Definition available (body : Reader) : M (list byte) := λ w,
  (match body with
   | FromStream => from_option unread [] (stream w)
   | InMemory buf => buf
   end, w).

Definition advance (n : nat) (body : Reader) : M Reader := λ w,
  match body with
  | FromStream =>
      (FromStream,
       {| history := history w;
          stream := (λ s, {| unread := drop n (unread s); closed := closed s |}) <$> stream w |})
  | InMemory buf => (InMemory (drop n buf), w)
  end.

Definition close_stream : M unit := λ w,
  (tt, {| history := history w;
          stream := (λ s, {| unread := unread s; closed := true |}) <$> stream w |}).

Definition Close (body : Reader) : M unit :=
  match body with FromStream => close_stream | InMemory _ => mret tt end.

(** What a writer takes of [data]. *)
Definition taken (wr : Writer) (data : list byte) : list byte :=
  match room wr with Some n => take n data | None => data end.

(** [io.Copy(w, body)]: everything the reader holds goes to [w], up to
    the room it has; the reader is left at the first byte not taken. *)
Definition io_Copy (w : Writer) (body : Reader) : M (option error * Reader) :=
  data ← available body;
  body' ← advance (length (taken w data)) body;
  emit (Copy w (taken w data));;
  mret (if (length data <=? length (taken w data))%nat then None
        else Some (foreign io_pkg "short write"), body').

(** [json.NewDecoder(body).Decode(&v)] *)
Definition json_Decode {T} (decode : Decoder T) (v : T) (body : Reader)
  : M (T * option error * Reader) :=
  data ← available body;
  let r := decode data v in
  body' ← advance (dec_read r) body;
  emit (Decode data);;
  mret (dec_val r, foreign encoding_json <$> dec_err r, body').

Section Package.

Context (go : GoLib).

Import Go.

Definition errorf (cl : Client) (format : string) (args : list string) : M unit :=
  match errorlog cl with
  | Some l => emit (Printf l format args)
  | None => mret tt
  end.

Definition tracef (cl : Client) (format : string) (args : list string) : M unit :=
  match tracelog cl with
  | Some l => emit (Printf l format args)
  | None => mret tt
  end.

(** The loop of [New] over its options, stopping at the first error. *)
Fixpoint run_options (options : list OptionFunc) (cl : Client)
  : M (Client * option error) :=
  match options with
  | [] => mret (cl, None)
  | option :: rest =>
      '(cl', err) ← option cl;
      match err with
      | Some e => mret (cl', Some e)
      | None => run_options rest cl'
      end
  end.

Definition New (options : list OptionFunc) : M (error + Client) :=
  '(cl, err) ← run_options options
                 {| appId := ""; userKey := ""; url := ""; errorlog := None;
                    tracelog := None; c := http_DefaultClient go |};
  match err with
  | Some e => mret (inl e)
  | None =>
      if bool_decide (appId cl = "") || bool_decide (userKey cl = "") then
        errorf cl (Error_ ErrNoCred) [];;
        mret (inl ErrNoCred)
      else
        let cl := if bool_decide (url cl = "") then with_url DefaultURL cl else cl in
        let cl := if strings_HasSuffix (url cl) "/"
                  then with_url (slice (url cl) 0 (String.length (url cl) - 1)) cl
                  else cl in
        tracef cl ("Using URL [%s]" +:+ LF) [url cl];;
        mret (inr cl)
  end.

(** *** Initialization functions *)

Definition SetCredentials (appId userKey : string) : OptionFunc := λ cl,
  mret (with_credentials appId userKey cl, None).

Definition SetHttpClient (httpClient : option HttpClient) : OptionFunc := λ cl,
  match httpClient with
  | Some h => mret (with_c h cl, None)
  | None => mret (with_c (http_DefaultClient go) cl, None)
  end.

Definition SetUrl (rawurl : string) : OptionFunc := λ cl,
  let rawurl := if bool_decide (rawurl = "") then DefaultURL else rawurl in
  match url_Parse go rawurl with
  | inl msg =>
      let err := foreign net_url msg in
      errorf cl ("Invalid URL [%s] - %v" +:+ LF) [rawurl; Error_ err];;
      mret (cl, Some err)
  | inr u =>
      if bool_decide (Scheme u ≠ "http") && bool_decide (Scheme u ≠ "https") then
        let msg := "Invalid schema specified [" +:+ rawurl +:+ "]" in
        errorf cl msg [];;
        mret (cl, Some (errors_New msg))
      else mret (with_url rawurl cl, None)
  end.

Definition SetErrorLog (l : option Logger) : OptionFunc := λ cl,
  mret (with_errorlog l cl, None).

Definition SetTraceLog (l : option Logger) : OptionFunc := λ cl,
  mret (with_tracelog l cl, None).

(** [httputil.DumpResponse(resp, true)]: the body is read to the end
    and closed, and [resp.Body] becomes a buffer holding the same bytes. *)
Definition DumpResponse (resp : Response) (body : Reader)
  : M (option string * Reader) :=
  data ← available body;
  advance (length data) body;;
  Close body;;
  mret (httputil_DumpResponse go (StatusCode resp) data, InMemory data).

(** dumpRequest dumps a request to the debug logger if it was defined *)
Definition dumpRequest (cl : Client) (req : Request) : M unit :=
  match tracelog cl with
  | Some _ =>
      match httputil_DumpRequestOut go req with
      | Some out => tracef cl ("%s" +:+ LF) [out]
      | None => mret tt
      end
  | None => mret tt
  end.

(** dumpResponse dumps a response to the debug logger if it was defined *)
Definition dumpResponse (cl : Client) (resp : Response) (body : Reader) : M Reader :=
  match tracelog cl with
  | Some _ =>
      '(out, body') ← DumpResponse resp body;
      match out with
      | Some s => tracef cl ("%s" +:+ LF) [s]
      | None => mret tt
      end;;
      mret body'
  | None => mret body
  end.

(** *** Request handling functions *)

Definition status_message (code : Z) : string :=
  "Unexpected status code: " +:+ strconv_Itoa code
    +:+ " (" +:+ http_StatusText go code +:+ ")".

(** handleError will handle responses with status code different from success *)
Definition handleError (cl : Client) (resp : Response) (body : Reader)
  : M (option error * Reader) :=
  if (StatusCode resp <? 200)%Z || (300 <=? StatusCode resp)%Z then
    body' ← match errorlog cl with
            | Some _ =>
                '(out, body') ← DumpResponse resp body;
                match out with
                | Some s => errorf cl ("%s" +:+ LF) [s]
                | None => mret tt
                end;;
                mret body'
            | None => mret body
            end;
    let msg := status_message (StatusCode resp) in
    errorf cl msg [];;
    mret (Some (errors_New msg), body')
  else mret (None, body).

Definition appUrl (cl : Client) (action : string) : string :=
  url cl +:+ "/" +:+ action +:+ "/" +:+ appId cl.

Definition botUrl (cl : Client) (action botName : string) : string :=
  appUrl cl action +:+ "/" +:+ botName.

(** [http.NewRequest]: the URL must parse; the methods the package
    passes are the constants GET, PUT, POST and DELETE. *)
Definition http_NewRequest (method urlStr : string) (body : option (list byte))
  : error + Request :=
  match url_Parse go urlStr with
  | inl msg => inl (foreign net_url msg)
  | inr _ => inr {| Method := method; RequestURL := urlStr; RequestBody := body |}
  end.

(** [c.c.Do(req)]: the call is recorded and, when a response comes,
    its body is the open stream. *)
Definition client_Do (h : HttpClient) (req : Request) : M (error + Response) := λ w,
  (h req,
   {| history := history w ++ [Do req];
      stream := match h req with
                | inr resp => Some {| unread := Payload resp; closed := false |}
                | inl _ => None
                end |}).

(** The query values [do] builds: [user_key] first, then one [Add]
    per entry of [params]. *)
Definition query_values (cl : Client) (params : gmap string string) : Values :=
  map_fold Values_Add (Values_Set "user_key" (userKey cl) ∅) params.

(** do executes the API request. The deferred [resp.Body.Close()]
    runs on every return after the response has arrived. *)
Definition do {T} (cl : Client) (method rawurl : string) (params : gmap string string)
    (body : option (list byte)) (result : Dest T) : M (option error * Dest T) :=
  let values := query_values cl params in
  match http_NewRequest method (rawurl +:+ "?" +:+ Values_Encode values) body with
  | inl err => mret (Some err, result)
  | inr req =>
      dumpRequest cl req;;
      r ← client_Do (c cl) req;
      match r with
      | inl err => mret (Some err, result)
      | inr resp =>
          out ← ('(err, rbody) ← handleError cl resp FromStream;
                 match err with
                 | Some e => mret (Some e, result)
                 | None =>
                     rbody ← dumpResponse cl resp rbody;
                     match result with
                     | Nil => mret (None, result)
                     | ToWriter w =>
                         '(err, _) ← io_Copy w rbody;
                         mret (err, result)
                     | ToValue decode v =>
                         '(v', err, _) ← json_Decode decode v rbody;
                         mret (err, ToValue decode v')
                     end
                 end);
          Close FromStream;;
          mret out
      end
  end.

(** *** Operations *)

Definition List (cl : Client) : M (list BotEntry * option error) :=
  '(err, result) ← do cl "GET" (appUrl cl bot) ∅ None (ToValue (json_BotEntries go) []);
  mret (value_of result [], err).

Definition CreateBot (cl : Client) (name : string) : M (option error) :=
  '(err, _) ← do (T := unit) cl "PUT" (botUrl cl bot name) ∅ None Nil;
  mret err.

Definition DeleteBot (cl : Client) (name : string) : M (option error) :=
  '(err, _) ← do (T := unit) cl "DELETE" (botUrl cl bot name) ∅ None Nil;
  mret err.

Definition ListFiles (cl : Client) (name : string) : M (BotFiles * option error) :=
  '(err, result) ← do cl "GET" (botUrl cl bot name) ∅ None
                      (ToValue (json_BotFiles go) zero_BotFiles);
  mret (value_of result zero_BotFiles, err).

(** An [io.Writer] argument may be the nil interface. *)
Definition writer_dest (w : option Writer) : Dest unit :=
  match w with Some w => ToWriter w | None => Nil end.

Definition DownloadFiles (cl : Client) (name : string) (zip : option Writer)
  : M (option error) :=
  '(err, _) ← do cl "GET" (botUrl cl bot name) {["return" := "zip"]} None (writer_dest zip);
  mret err.

Definition fileToUrl (cl : Client) (name filename : string) : string * option error :=
  let rawurl := botUrl cl bot name in
  let ext := filepath_Ext filename in
  if bool_decide (ext = ".aiml") then
    (rawurl +:+ "/file/" +:+ filename, None)
  else if bool_decide (ext ∈ [".set"; ".map"; ".substitution"]) then
    (rawurl +:+ "/" +:+ slice ext 1 (String.length ext) +:+ "/"
       +:+ slice filename 0 (String.length filename - String.length ext), None)
  else if bool_decide (ext ∈ [".properties"; ".pdefaults"]) then
    (rawurl +:+ "/" +:+ slice ext 1 (String.length ext), None)
  else ("", Some (errors_New ("Extension is not recognized [" +:+ ext +:+ "]"))).

Definition UploadFile (cl : Client) (name filename : string) (data : option (list byte))
  : M (option error) :=
  let '(rawurl, err) := fileToUrl cl name filename in
  match err with
  | Some e => mret (Some e)
  | None =>
      '(err, _) ← do (T := unit) cl "PUT" rawurl ∅ data Nil;
      mret err
  end.

Definition DeleteFile (cl : Client) (name filename : string) : M (option error) :=
  let '(rawurl, err) := fileToUrl cl name filename in
  match err with
  | Some e => mret (Some e)
  | None =>
      '(err, _) ← do (T := unit) cl "DELETE" rawurl ∅ None Nil;
      mret err
  end.

Definition GetFile (cl : Client) (name filename : string) (out : option Writer)
  : M (option error) :=
  let '(rawurl, err) := fileToUrl cl name filename in
  match err with
  | Some e => mret (Some e)
  | None =>
      '(err, _) ← do cl "GET" rawurl ∅ None (writer_dest out);
      mret err
  end.

Definition Verify (cl : Client) (name : string) : M (option error) :=
  '(err, _) ← do (T := unit) cl "GET" (botUrl cl bot name +:+ "/verify") ∅ None Nil;
  mret err.

(** The parameter map [TalkDebug] fills in before it calls [do]. *)
Definition talk_params (input clientName : string) (sessionId : Z) (recent : bool)
    (that topic : string) (extra reset trace reload : bool) : gmap string string :=
  let params : gmap string string := ∅ in
  let params := <["input" := input]> params in
  let params := if bool_decide (clientName ≠ "")
                then <["client_name" := clientName]> params else params in
  let params := if bool_decide (sessionId ≠ 0%Z)
                then <["sessionid" := strconv_Itoa sessionId]> params else params in
  let params := if recent then <["recent" := "true"]> params else params in
  let params := if bool_decide (that ≠ "") then <["that" := that]> params else params in
  let params := if bool_decide (topic ≠ "") then <["topic" := topic]> params else params in
  let params := if extra then <["extra" := "true"]> params else params in
  let params := if reset then <["reset" := "true"]> params else params in
  let params := if trace then <["trace" := "true"]> params else params in
  let params := if reload then <["reload" := "true"]> params else params in
  params.

(** The first component is the returned [*Reply]; [None] would be nil. *)
Definition TalkDebug (cl : Client) (name input clientName : string) (sessionId : Z)
    (recent : bool) (that topic : string) (extra reset trace reload : bool)
  : M (option Reply * option error) :=
  let params := talk_params input clientName sessionId recent that topic
                  extra reset trace reload in
  '(err, reply) ← do cl "POST" (botUrl cl talk name) params None
                     (ToValue (json_Reply go) zero_Reply);
  mret (Some (value_of reply zero_Reply), err).

Definition Talk (cl : Client) (name input clientName : string) (sessionId : Z)
    (recent : bool) : M (option Reply * option error) :=
  TalkDebug cl name input clientName sessionId recent "" "" false false false false.

End Package.

(** ** A reference instance of the library functions

    Used to run the package on concrete inputs. [url.Parse] is followed
    through its first phase (fragment cut off, scheme split off and
    lower-cased), which decides what [SetUrl] looks at; the checks of
    authority and path that come after it are not reproduced, so this
    instance accepts every string that passes the scheme phase. *)

Module Std.

Import Go.

Definition is_letter (ch : ascii) : bool := between "a" "z" ch || between "A" "Z" ch.

Definition is_scheme_mark (ch : ascii) : bool :=
  between "0" "9" ch || bool_decide (ch ∈ ["+"; "-"; "."]%char).

(** [getscheme]: [rest] is [rawurl[i:]]. *)
Fixpoint getscheme_loop (rawurl rest : string) (i : nat) : string * string * option string :=
  match rest with
  | EmptyString => ("", rawurl, None)
  | String ch rest' =>
      if is_letter ch then getscheme_loop rawurl rest' (S i)
      else if is_scheme_mark ch then
        match i with
        | O => ("", rawurl, None)
        | _ => getscheme_loop rawurl rest' (S i)
        end
      else if bool_decide (ch = ":"%char) then
        match i with
        | O => ("", "", Some "missing protocol scheme")
        | _ => (slice rawurl 0 i, rest', None)
        end
      else ("", rawurl, None)
  end.

Definition getscheme (rawurl : string) : string * string * option string :=
  getscheme_loop rawurl rawurl 0.

Fixpoint before_hash (s : string) : string :=
  match s with
  | EmptyString => ""
  | String ch rest => if bool_decide (ch = "#"%char) then "" else String ch (before_hash rest)
  end.

Definition lower (ch : ascii) : ascii :=
  if between "A" "Z" ch then ascii_of_N (N_of_ascii ch + 32) else ch.

Fixpoint strings_ToLower (s : string) : string :=
  match s with
  | EmptyString => ""
  | String ch rest => String (lower ch) (strings_ToLower rest)
  end.

Definition url_Parse (rawurl : string) : string + URL :=
  let u := before_hash rawurl in
  if bool_decide (u = "*") then inr {| Scheme := "" |}
  else
    match getscheme u with
    | (_, _, Some msg) => inl ("parse " +:+ rawurl +:+ ": " +:+ msg)
    | (scheme, _, None) => inr {| Scheme := strings_ToLower scheme |}
    end.

Definition http_StatusText (code : Z) : string :=
  match code with
  | 200 => "OK" | 201 => "Created" | 202 => "Accepted" | 204 => "No Content"
  | 301 => "Moved Permanently" | 302 => "Found" | 304 => "Not Modified"
  | 400 => "Bad Request" | 401 => "Unauthorized" | 403 => "Forbidden"
  | 404 => "Not Found" | 405 => "Method Not Allowed" | 409 => "Conflict"
  | 500 => "Internal Server Error" | 502 => "Bad Gateway"
  | 503 => "Service Unavailable"
  | _ => ""
  end%Z.

(** Without a network every request of the default client fails. *)
Definition http_DefaultClient : HttpClient :=
  λ _, inl (foreign net_http "dial tcp: no route to host").

Definition DumpRequestOut (req : Request) : option string :=
  Some (Method req +:+ " " +:+ RequestURL req +:+ " HTTP/1.1").

Definition DumpResponse (code : Z) (body : list byte) : option string :=
  Some ("HTTP/1.1 " +:+ strconv_Itoa code +:+ " " +:+ http_StatusText code
          +:+ LF +:+ LF +:+ string_of_list_byte body).

Definition quote : string := String "034"%char "".

(** The reply of the talk endpoint used in the examples:
    an object with [sessionid] 7 and the one response [hi]. *)
Definition reply_json : string :=
  "{" +:+ quote +:+ "sessionid" +:+ quote +:+ ": 7, "
      +:+ quote +:+ "responses" +:+ quote +:+ ": [" +:+ quote +:+ "hi" +:+ quote +:+ "]}".

(** Decoders that know one document each and reject the rest at its
    first byte; an empty body is [io.EOF]. *)
Definition decode_one {T} (doc : string) (val : T) : Decoder T := λ data v,
  if bool_decide (string_of_list_byte data = doc) then
    {| dec_val := val; dec_err := None; dec_read := length data |}
  else if bool_decide (string_of_list_byte data = "") then
    {| dec_val := v; dec_err := Some "EOF"; dec_read := 0 |}
  else
    {| dec_val := v;
       dec_err := Some "invalid character looking for beginning of value";
       dec_read := 1 |}.

Definition std : GoLib :=
  Build_GoLib url_Parse http_StatusText http_DefaultClient DumpRequestOut DumpResponse
    (decode_one "[]" [])
    (decode_one "{}" zero_BotFiles)
    (decode_one reply_json {| SessionId := 7; Responses := ["hi"] |}).

(** A world in which nothing has happened yet. *)
Definition quiet : World := {| history := []; stream := None |}.

(** A server that answers every request with the same response. *)
Definition always (code : Z) (body : string) : HttpClient :=
  λ _, inr {| StatusCode := code; Payload := list_byte_of_string body |}.

(** A client for the examples: nothing is logged and every request is
    answered by [code] and [body]. *)
Definition client (code : Z) (body : string) : Client :=
  {| appId := "app"; userKey := "key"; url := "http://host";
     errorlog := None; tracelog := None; c := always code body |}.

(** The request [CreateBot] issues for the bot [b1] of [client]. *)
Definition create_b1 : Request :=
  {| Method := "PUT"; RequestURL := "http://host/bot/app/b1?user_key=key";
     RequestBody := None |}.

(** The request of a talk turn of [client] with the bot [b1] and the input [hi]. *)
Definition talk_hi : Request :=
  {| Method := "POST"; RequestURL := "http://host/talk/app/b1?input=hi&user_key=key";
     RequestBody := None |}.

End Std.

(** ** Operations as data

    The operations of the client with their arguments, so that
    statements can range over all of them. The three variants that take
    a path on the local file system are left out: they open the file and
    then do what [UploadFile], [GetFile] and [DownloadFiles] do. *)

Inductive Operation :=
| OpList
| OpCreateBot (name : string)
| OpDeleteBot (name : string)
| OpListFiles (name : string)
| OpDownloadFiles (name : string) (zip : option Writer)
| OpUploadFile (name filename : string) (data : option (list byte))
| OpDeleteFile (name filename : string)
| OpGetFile (name filename : string) (out : option Writer)
| OpVerify (name : string)
| OpTalk (name input clientName : string) (sessionId : Z) (recent : bool)
| OpTalkDebug (name input clientName : string) (sessionId : Z) (recent : bool)
    (that topic : string) (extra reset trace reload : bool).

(** Run an operation and keep the error it returns. *)
Definition perform (go : GoLib) (op : Operation) (cl : Client) : M (option error) :=
  match op with
  | OpList => snd <$> List go cl
  | OpCreateBot name => CreateBot go cl name
  | OpDeleteBot name => DeleteBot go cl name
  | OpListFiles name => snd <$> ListFiles go cl name
  | OpDownloadFiles name zip => DownloadFiles go cl name zip
  | OpUploadFile name filename data => UploadFile go cl name filename data
  | OpDeleteFile name filename => DeleteFile go cl name filename
  | OpGetFile name filename out => GetFile go cl name filename out
  | OpVerify name => Verify go cl name
  | OpTalk name input clientName sessionId recent =>
      snd <$> Talk go cl name input clientName sessionId recent
  | OpTalkDebug name input clientName sessionId recent that topic extra reset trace reload =>
      snd <$> TalkDebug go cl name input clientName sessionId recent
                that topic extra reset trace reload
  end.

(** The table of operations: what each one hands to [do]. *)

Definition op_method (op : Operation) : string :=
  match op with
  | OpList | OpListFiles _ | OpDownloadFiles _ _ | OpGetFile _ _ _ | OpVerify _ => "GET"
  | OpCreateBot _ | OpUploadFile _ _ _ => "PUT"
  | OpDeleteBot _ | OpDeleteFile _ _ => "DELETE"
  | OpTalk _ _ _ _ _ | OpTalkDebug _ _ _ _ _ _ _ _ _ _ _ => "POST"
  end.

(** The URL and, for a file operation, the error of [fileToUrl]. *)
Definition op_target (cl : Client) (op : Operation) : string * option error :=
  match op with
  | OpList => (appUrl cl bot, None)
  | OpCreateBot name | OpDeleteBot name | OpListFiles name | OpDownloadFiles name _ =>
      (botUrl cl bot name, None)
  | OpUploadFile name filename _ | OpDeleteFile name filename | OpGetFile name filename _ =>
      fileToUrl cl name filename
  | OpVerify name => (botUrl cl bot name +:+ "/verify", None)
  | OpTalk name _ _ _ _ | OpTalkDebug name _ _ _ _ _ _ _ _ _ _ => (botUrl cl talk name, None)
  end.

Definition op_params (op : Operation) : gmap string string :=
  match op with
  | OpDownloadFiles _ _ => {["return" := "zip"]}
  | OpTalk _ input clientName sessionId recent =>
      talk_params input clientName sessionId recent "" "" false false false false
  | OpTalkDebug _ input clientName sessionId recent that topic extra reset trace reload =>
      talk_params input clientName sessionId recent that topic extra reset trace reload
  | _ => ∅
  end.

Definition op_body (op : Operation) : option (list byte) :=
  match op with OpUploadFile _ _ data => data | _ => None end.

(** ** Observing a run *)

(** The events in which a result is written: a copy into a writer or a
    run of the JSON decoder. *)
Definition is_decoding (ev : event) : bool :=
  match ev with Copy _ _ | Decode _ => true | _ => false end.

Definition decodings (w : World) : list event := filter is_decoding (history w).

(** The requests handed to the HTTP client so far. *)
Definition requests (w : World) : list Request :=
  omap (λ ev, match ev with Do req => Some req | _ => None end) (history w).

(** The line a dump leaves on a log, if there is a log and the dump
    succeeded. *)
Definition logged (l : option Logger) (out : option string) : list event :=
  match l, out with
  | Some l, Some s => [Printf l ("%s" +:+ LF) [s]]
  | _, _ => []
  end.

(** The history once the request has been handed to the HTTP client. *)
Definition sent (go : GoLib) (cl : Client) (req : Request) (w : World) : list event :=
  history w ++ logged (tracelog cl) (httputil_DumpRequestOut go req) ++ [Do req].

(** A string with no dot and no slash in it. *)
Fixpoint plain (e : string) : bool :=
  match e with
  | EmptyString => true
  | String ch rest =>
      negb (bool_decide (ch = "/"%char)) && negb (bool_decide (ch = "."%char)) && plain rest
  end.

(** The extensions [fileToUrl] has a URL for. *)
Definition known_extensions : list string :=
  [".aiml"; ".set"; ".map"; ".substitution"; ".properties"; ".pdefaults"].

(** The keys [TalkDebug] may set. *)
Definition talk_keys : list string :=
  ["input"; "client_name"; "sessionid"; "recent"; "that"; "topic";
   "extra"; "reset"; "trace"; "reload"].

(** The escaped pair [key=value] stands in a query string between
    ampersands, or at an end of it. *)
Definition has_pair (query key value : string) : Prop :=
  ∃ pre post,
    query = pre +:+ (Go.url_QueryEscape key +:+ "=" +:+ Go.url_QueryEscape value) +:+ post
    ∧ (pre = "" ∨ ∃ pre', pre = pre' +:+ "&")
    ∧ (post = "" ∨ ∃ post', post = "&" +:+ post').

(** ** Configurations as data

    The five options the package offers, as values, so that statements
    can range over every list of them. *)

Inductive Setting :=
| Credentials (appId userKey : string)
| Transport (httpClient : option HttpClient)
| BaseUrl (rawurl : string)
| ErrorLog (l : option Logger)
| TraceLog (l : option Logger).

Definition option_of (go : GoLib) (s : Setting) : OptionFunc :=
  match s with
  | Credentials a k => SetCredentials a k
  | Transport h => SetHttpClient go h
  | BaseUrl rawurl => SetUrl go rawurl
  | ErrorLog l => SetErrorLog l
  | TraceLog l => SetTraceLog l
  end.

(** The string [SetUrl] parses and stores. *)
Definition effective (rawurl : string) : string :=
  if bool_decide (rawurl = "") then DefaultURL else rawurl.

(** [rawurl] passes [SetUrl]: it parses and its scheme is http or https. *)
Definition acceptable (go : GoLib) (rawurl : string) : bool :=
  match url_Parse go (effective rawurl) with
  | inl _ => false
  | inr u => bool_decide (Scheme u = "http") || bool_decide (Scheme u = "https")
  end.

Definition urls_acceptable (go : GoLib) (settings : list Setting) : bool :=
  forallb (λ s, match s with BaseUrl rawurl => acceptable go rawurl | _ => true end) settings.

(** The last credentials given, empty when none were. *)
Definition final_credentials (settings : list Setting) : string * string :=
  foldl (λ acc s, match s with Credentials a k => (a, k) | _ => acc end) ("", "") settings.

(** The last base URL given, as stored; empty when none was. *)
Definition final_url (settings : list Setting) : string :=
  foldl (λ acc s, match s with BaseUrl rawurl => effective rawurl | _ => acc end) "" settings.

Definition sets_url (s : Setting) : bool :=
  match s with BaseUrl _ => true | _ => false end.

(** What a setting does to the client when it is accepted. *)
Definition apply_setting (go : GoLib) (cl : Client) (s : Setting) : Client :=
  match s with
  | Credentials a k => with_credentials a k cl
  | Transport h => with_c (default (http_DefaultClient go) h) cl
  | BaseUrl rawurl => with_url (effective rawurl) cl
  | ErrorLog l => with_errorlog l cl
  | TraceLog l => with_tracelog l cl
  end.

Definition blank (go : GoLib) : Client :=
  {| appId := ""; userKey := ""; url := ""; errorlog := None; tracelog := None;
     c := http_DefaultClient go |}.

(** ** Tactics *)

Ltac run := unfold mbind, mret, M_bind, M_ret in *; simpl in *.

Ltac run_do :=
  unfold do, handleError, dumpResponse, dumpRequest, DumpResponse, io_Copy, json_Decode,
    tracef, errorf, client_Do, emit, available, advance, Close, close_stream; run.

(** ** The query string of a request

    [http.NewRequest] parses the string it is given with [url.Parse],
    which cuts the fragment off at the first hash and then the query
    off at the first question mark ([split] in [net/url]). What goes
    out as the query string of the request is that part. *)

(** [s[:i]] for the first index [i] of [ch] in [s], all of [s] when
    there is none. *)
Fixpoint before_first (ch : ascii) (s : string) : string :=
  match s with
  | EmptyString => ""
  | String b rest => if bool_decide (b = ch) then "" else String b (before_first ch rest)
  end.

(** [s[i+1:]] for the first index [i] of [ch] in [s], empty when there
    is none. *)
Fixpoint after_first (ch : ascii) (s : string) : string :=
  match s with
  | EmptyString => ""
  | String b rest => if bool_decide (b = ch) then rest else after_first ch rest
  end.

(** [u.RawQuery] of the URL that [url.Parse(rawurl)] returns. *)
Definition url_RawQuery (rawurl : string) : string :=
  after_first "?" (before_first "#" rawurl).

(** [ch] does not occur in [s]. *)
Fixpoint lacks (ch : ascii) (s : string) : bool :=
  match s with
  | EmptyString => true
  | String b rest => negb (bool_decide (b = ch)) && lacks ch rest
  end.

(** A string that can stand in front of a query string and leave it
    alone: it has no question mark and no hash. *)
Definition query_free (s : string) : bool := lacks "?" s && lacks "#" s.


(** ** More about configurations *)

(** The last error log given, none when none was. *)
Definition final_errorlog (settings : list Setting) : option Logger :=
  foldl (λ acc s, match s with ErrorLog l => l | _ => acc end) None settings.

(** The last trace log given, none when none was. *)
Definition final_tracelog (settings : list Setting) : option Logger :=
  foldl (λ acc s, match s with TraceLog l => l | _ => acc end) None settings.

(** The HTTP client of the last [SetHttpClient], the default client
    when there is none or when it was given nil. *)
Definition final_transport (go : GoLib) (settings : list Setting) : HttpClient :=
  foldl (λ acc s, match s with Transport h => default (http_DefaultClient go) h | _ => acc end)
        (http_DefaultClient go) settings.

(** The URL [New] leaves in the client for the URL its options left. *)
Definition normal_url (u : string) : string :=
  let u := if bool_decide (u = "") then DefaultURL else u in
  if Go.strings_HasSuffix u "/" then Go.slice u 0 (String.length u - 1) else u.

(** The lines a logger receives, none when there is no logger. *)
Definition lines (l : option Logger) (format : string) (args : list string) : list event :=
  match l with Some l => [Printf l format args] | None => [] end.

(** ** More about observing a run *)

(** The lines written to loggers so far. *)
Definition is_line (ev : event) : bool :=
  match ev with Printf _ _ _ => true | _ => false end.

Definition log_lines (w : World) : list event := filter is_line (history w).

(** What an operation has [do] do with the body of a response: nothing,
    a copy into a writer, or a run of the JSON decoder. *)
Inductive Delivery := Discarded | Copied (wr : Writer) | Unmarshalled.

Definition op_delivery (op : Operation) : Delivery :=
  match op with
  | OpList | OpListFiles _ | OpTalk _ _ _ _ _ | OpTalkDebug _ _ _ _ _ _ _ _ _ _ _ =>
      Unmarshalled
  | OpDownloadFiles _ (Some wr) | OpGetFile _ _ (Some wr) => Copied wr
  | _ => Discarded
  end.

Definition delivers {T} (d : Delivery) (result : Dest T) : Prop :=
  match d, result with
  | Discarded, Nil => True
  | Copied wr, ToWriter wr' => wr = wr'
  | Unmarshalled, ToValue _ _ => True
  | _, _ => False
  end.

(** ** More about file names *)

(** A string with no dot in it. *)
Fixpoint dotless (s : string) : bool :=
  match s with
  | EmptyString => true
  | String ch rest => negb (bool_decide (ch = "."%char)) && dotless rest
  end.

(** ** The local file system

    The three operations that take a path open or create a file before
    they call [do]. A disk holds the files by path, the paths at which
    no file can be created, for the paths where writing fails the
    number of bytes that get through before it does (the disk is full,
    a quota is reached), and the handles that are open. *)

Record Disk := {
  files : gmap string (list byte);
  sealed : gset string;          (* [os.Create] fails at these paths *)
  limits : gmap string nat;      (* a write at the path fails after so many bytes *)
  handles : list string          (* the paths of the open files *)
}.

Record Machine := { net : World; disk : Disk }.

(** An error of a path operation: one [os] gave, or one of the package. *)
Inductive failure :=
| os_error (msg : string)
| pb_error (e : error).

Module GoOs.

(** [filepath.Base]: the last element of the path, trailing slashes
    dropped first; a dot for the empty path, a slash for a path of
    slashes only. *)
Fixpoint strip_slashes (path : string) (n : nat) : string :=
  match n with
  | O => ""
  | S i =>
      match String.get i path with
      | Some ch => if bool_decide (ch = "/"%char) then strip_slashes path i
                   else Go.slice path 0 (S i)
      | None => ""
      end
  end.

Fixpoint last_element (path : string) (n : nat) : string :=
  match n with
  | O => path
  | S i =>
      match String.get i path with
      | Some ch => if bool_decide (ch = "/"%char)
                   then Go.slice path (S i) (String.length path)
                   else last_element path i
      | None => path
      end
  end.

Definition filepath_Base (path : string) : string :=
  if bool_decide (path = "") then "."
  else
    let path := strip_slashes path (String.length path) in
    let path := last_element path (String.length path) in
    if bool_decide (path = "") then "/" else path.

(** [os.Open]: the file must be there; its content is what a reader of
    the handle yields. *)
Definition os_Open (path : string) (d : Disk) : string + list byte * Disk :=
  match files d !! path with
  | Some data =>
      inr (data, {| files := files d; sealed := sealed d; limits := limits d;
                    handles := path :: handles d |})
  | None => inl ("open " +:+ path +:+ ": no such file or directory")
  end.

(** [os.Create]: the file is created, or truncated if it is there. *)
Definition os_Create (path : string) (d : Disk) : string + Disk :=
  if bool_decide (path ∈ sealed d) then inl ("open " +:+ path +:+ ": permission denied")
  else inr {| files := <[path := []]> (files d); sealed := sealed d; limits := limits d;
              handles := path :: handles d |}.

Fixpoint remove_handle (path : string) (hs : list string) : list string :=
  match hs with
  | [] => []
  | h :: rest => if bool_decide (h = path) then rest else h :: remove_handle path rest
  end.

(** [f.Close()] *)
Definition File_Close (path : string) (d : Disk) : Disk :=
  {| files := files d; sealed := sealed d; limits := limits d;
     handles := remove_handle path (handles d) |}.

(** [f.Write(data)]: the bytes go to the end of the file. *)
Definition File_Write (path : string) (data : list byte) (d : Disk) : Disk :=
  {| files := alter (λ old, old ++ data) path (files d); sealed := sealed d;
     limits := limits d; handles := handles d |}.

(** The file at [path] as an [io.Writer]: it takes what the disk lets
    through at that path. *)
Definition file_writer (d : Disk) (path : string) : Writer :=
  {| sink := path; room := limits d !! path |}.

(** The bytes an event puts into the writer named [path]. *)
Definition copy_to (path : string) (ev : event) : list byte :=
  match ev with
  | Copy wr data => if bool_decide (sink wr = path) then data else []
  | _ => []
  end.

(** The bytes [io.Copy] moved into the writer named [path] between two
    states of the world. *)
Definition copied_into (path : string) (before after : World) : list byte :=
  flat_map (copy_to path) (drop (length (history before)) (history after)).

End GoOs.

Section PathOperations.

Context (go : GoLib).

Import GoOs.

(** The deferred [f.Close()] after a call of [do] that wrote into [f]. *)
Definition settle (path : string) (before after : World) (d : Disk) : Disk :=
  File_Close path (File_Write path (copied_into path before after) d).

Definition DownloadFilesToPath (cl : Client) (name path : string)
  : Machine → option failure * Machine := λ m,
  match os_Create path (disk m) with
  | inl msg => (Some (os_error msg), m)
  | inr d =>
      let '(err, _, net') :=
        do go cl "GET" (botUrl cl bot name) {["return" := "zip"]} None
           (ToWriter (T := unit) (file_writer d path)) (net m) in
      (pb_error <$> err, {| net := net'; disk := settle path (net m) net' d |})
  end.

Definition UploadFileFromPath (cl : Client) (name path : string)
  : Machine → option failure * Machine := λ m,
  match os_Open path (disk m) with
  | inl msg => (Some (os_error msg), m)
  | inr (data, d) =>
      let '(rawurl, err) := fileToUrl cl name (filepath_Base path) in
      match err with
      | Some e => (Some (pb_error e), {| net := net m; disk := File_Close path d |})
      | None =>
          let '(err, _, net') := do (T := unit) go cl "PUT" rawurl ∅ (Some data) Nil (net m) in
          (pb_error <$> err, {| net := net'; disk := File_Close path d |})
      end
  end.

Definition GetFileToPath (cl : Client) (name path : string)
  : Machine → option failure * Machine := λ m,
  match os_Create path (disk m) with
  | inl msg => (Some (os_error msg), m)
  | inr d =>
      let '(rawurl, err) := fileToUrl cl name (filepath_Base path) in
      match err with
      | Some e => (Some (pb_error e), {| net := net m; disk := File_Close path d |})
      | None =>
          let '(err, _, net') :=
            do go cl "GET" rawurl ∅ None (ToWriter (T := unit) (file_writer d path)) (net m) in
          (pb_error <$> err, {| net := net'; disk := settle path (net m) net' d |})
      end
  end.

End PathOperations.

(** A string with no slash in it. *)
Fixpoint slashless (s : string) : bool :=
  match s with
  | EmptyString => true
  | String ch rest => negb (bool_decide (ch = "/"%char)) && slashless rest
  end.

(** ** The command line client

    Package [main] of [cli/pbcli.go]. The standard input is the lines
    that [ReadString] yields before its first error, each with its line
    feed; the standard output is the sequence of the pieces handed to
    it, and a copy to it gets as far as the disk lets a write at
    [/dev/stdout] get. What [flag.Parse] makes of the command line, how
    [%v] shows a value other than an error or a string, and
    [strings.ToLower], are left to the library. *)

Module Cli.

Record Flags := {
  appId : string; userKey : string; name : string; out : string; file : string;
  input : string; cmd : string; debug : bool
}.

Record CliLib := {
  (* [flag.Parse] over the eight flags of [init], with the error
     handling [flag.ExitOnError] of the command line: the exit status
     and what is written to the standard error when the command line is
     rejected, the flags otherwise *)
  flag_Parse : list string → Z * string + Flags;
  strings_ToLower : string → string;
  fmt_BotEntry : BotEntry → string;      (* [%v] of a [BotEntry] *)
  fmt_BotFiles : BotFiles → string;      (* [%v] of a [BotFiles] *)
  fmt_Reply : Reply → string             (* [%v] of a [*Reply] that is not nil *)
}.

(** A piece of output: text that was printed, or bytes that were copied. *)
Inductive output :=
| Text (s : string)
| Raw (data : list byte).

(** A process: the machine it runs on, what it handed to the standard
    output, and what [flag.Parse] wrote to the standard error (the
    lines of the loggers are in the history of the world). *)
Record Process := { machine : Machine; stdout : list output; stderr : list string }.

(** How [main] ends: it returns, it calls [os.Exit], or it panics. *)
Inductive Ending :=
| Returned
| Exit (code : Z)
| Panic.

(** [log.New(os.Stderr, prefix, log.Lshortfile)] *)
Definition log_New (prefix : string) : Logger := logger prefix.

Definition stdout_path : string := "/dev/stdout".

(** [os.Stdout] as an [io.Writer]. *)
Definition os_Stdout (d : Disk) : Writer := GoOs.file_writer d stdout_path.

Definition fmt_Print (s : string) : Process → Process := λ p,
  {| machine := machine p; stdout := stdout p ++ [Text s]; stderr := stderr p |}.

Definition fmt_Println (s : string) : Process → Process := fmt_Print (s +:+ LF).

(** The message of the error a path operation returned. *)
Definition failure_Error (f : failure) : string :=
  match f with
  | os_error msg => msg
  | pb_error e => Error_ e
  end.

(** A call of the package that uses the network only. *)
Definition call {A} (f : M A) : Process → A * Process := λ p,
  let '(a, w) := f (net (machine p)) in
  (a, {| machine := {| net := w; disk := disk (machine p) |}; stdout := stdout p;
         stderr := stderr p |}).

(** The output that copying [data] to the standard output makes. *)
Definition copied (data : list byte) : list output :=
  match data with
  | [] => []
  | _ => [Raw data]
  end.

(** A call that was given [os.Stdout] to write to: what it copied there
    is output. *)
Definition call_Stdout {A} (f : M A) : Process → A * Process := λ p,
  let '(a, w) := f (net (machine p)) in
  (a, {| machine := {| net := w; disk := disk (machine p) |};
         stdout := stdout p ++ copied (GoOs.copied_into stdout_path (net (machine p)) w);
         stderr := stderr p |}).

(** A call of one of the operations that take a path. *)
Definition call_path {A} (f : Machine → A * Machine) : Process → A * Process := λ p,
  let '(a, m) := f (machine p) in
  (a, {| machine := m; stdout := stdout p; stderr := stderr p |}).

Section Main.

Context (lib : CliLib) (go : GoLib).

(** The report after an operation that returns an error only. *)
Definition report (err : option string) (success : option string) (p : Process)
  : Ending * Process :=
  match err, success with
  | Some msg, _ => (Returned, fmt_Print (msg +:+ LF) p)
  | None, Some s => (Returned, fmt_Println s p)
  | None, None => (Returned, p)
  end.

(** The loop of the interactive talk: a line that reads [exit] whatever
    the case of its letters, or the end of the input, ends it. *)
Fixpoint talk_loop (cl : Client) (bot : string) (lines : list string) (sessionId : Z)
    (p : Process) : Ending * Process :=
  match lines with
  | [] => (Returned, p)
  | line :: rest =>
      if bool_decide (strings_ToLower lib line = "exit" +:+ LF) then (Returned, p)
      else
        let '((res, err), p) := call (Talk go cl bot line "" sessionId false) p in
        match err with
        | Some e => (Exit 2, fmt_Print (Error_ e +:+ LF) p)
        | None =>
            match res with
            | None => (Panic, p)          (* [res.SessionId] of a nil reply *)
            | Some r =>
                talk_loop cl bot rest (SessionId r)
                  (foldl (λ p s, fmt_Println s p) p (Responses r))
            end
        end
  end.

(** [main] from the return of [flag.Parse] on, with the flags it left. *)
Definition run (fl : Flags) (stdin : list string) (p : Process) : Ending * Process :=
  let '(made, p) :=
    call (New go [SetErrorLog (Some (log_New "")); SetCredentials (appId fl) (userKey fl)]) p in
  match made with
  | inl err => (Exit 1, fmt_Print (Error_ err +:+ LF) p)
  | inr cl =>
      let '(cl, p) :=
        if debug fl
        then let '((cl, _), p) := call (SetTraceLog (Some (log_New "TRACE: ")) cl) p in (cl, p)
        else (cl, p) in
      let command := strings_ToLower lib (cmd fl) in
      if bool_decide (command ≠ "list") && bool_decide (name fl = "") then
        (Exit 1, fmt_Println "You must specify the bot name" p)
      else if bool_decide (command = "list") then
        let '((res, err), p) := call (List go cl) p in
        match err with
        | Some e => (Exit 2, fmt_Print (Error_ e +:+ LF) p)
        | None => (Returned, foldl (λ p s, fmt_Println (fmt_BotEntry lib s) p) p res)
        end
      else if bool_decide (command = "createbot") then
        let '(err, p) := call (CreateBot go cl (name fl)) p in
        report (Error_ <$> err) (Some "Bot successfully created.") p
      else if bool_decide (command = "deletebot") then
        let '(err, p) := call (DeleteBot go cl (name fl)) p in
        report (Error_ <$> err) (Some "Bot successfully deleted.") p
      else if bool_decide (command = "upload") then
        if bool_decide (file fl = "") then
          (Exit 1, fmt_Println "You must specify the file name to upload" p)
        else
          let '(err, p) := call_path (UploadFileFromPath go cl (name fl) (file fl)) p in
          report (failure_Error <$> err) (Some "File successfully uploaded.") p
      else if bool_decide (command = "download") then
        if bool_decide (out fl = "") then
          if bool_decide (file fl = "") then
            (Exit 1, fmt_Println "You must specify the file name to download" p)
          else
            let '(err, p) :=
              call_Stdout (GetFile go cl (name fl) (file fl)
                             (Some (os_Stdout (disk (machine p))))) p in
            report (Error_ <$> err) None p
        else
          let '(err, p) := call_path (GetFileToPath go cl (name fl) (out fl)) p in
          report (failure_Error <$> err) (Some "File successfully downloaded.") p
      else if bool_decide (command = "deletefile") then
        if bool_decide (file fl = "") then
          (Exit 1, fmt_Println "You must specify the file name to delete" p)
        else
          let '(err, p) := call (DeleteFile go cl (name fl) (file fl)) p in
          report (Error_ <$> err) (Some "File successfully deleted.") p
      else if bool_decide (command = "listfiles") then
        let '((res, err), p) := call (ListFiles go cl (name fl)) p in
        match err with
        | Some e => (Returned, fmt_Print (Error_ e +:+ LF) p)
        | None => (Returned, fmt_Print (fmt_BotFiles lib res +:+ LF) p)
        end
      else if bool_decide (command = "downloadbot") then
        if bool_decide (out fl = "") then
          let '(err, p) :=
            call_Stdout (DownloadFiles go cl (name fl)
                           (Some (os_Stdout (disk (machine p))))) p in
          report (Error_ <$> err) None p
        else
          let '(err, p) := call_path (DownloadFilesToPath go cl (name fl) (out fl)) p in
          report (failure_Error <$> err) (Some "Bot files successfully downloaded.") p
      else if bool_decide (command = "verify") then
        let '(err, p) := call (Verify go cl (name fl)) p in
        report (Error_ <$> err) (Some "Bot verified.") p
      else if bool_decide (command = "talk") then
        if bool_decide (input fl = "") then talk_loop cl (name fl) stdin 0 p
        else
          let '((res, err), p) := call (Talk go cl (name fl) (input fl) "" 0 false) p in
          match err with
          | Some e => (Returned, fmt_Print (Error_ e +:+ LF) p)
          | None =>
              (Returned, fmt_Print (match res with
                                    | Some r => fmt_Reply lib r
                                    | None => "<nil>"
                                    end) p)
          end
      else
        (Returned, fmt_Print ("Command [" +:+ cmd fl +:+ "] was not recognized" +:+ LF) p)
  end.

(** [main]: [flag.Parse] comes first, and ends the program itself when
    it rejects the command line. *)
Definition main (args : list string) (stdin : list string) (p : Process)
  : Ending * Process :=
  match flag_Parse lib args with
  | inl (code, message) =>
      (Exit code,
       {| machine := machine p; stdout := stdout p; stderr := stderr p ++ [message] |})
  | inr fl => run fl stdin p
  end.

End Main.

(** The client [main] works with: the credentials of the flags, the
    default URL and HTTP client, errors logged to the standard error,
    and the trace there as well when [-debug] is given. *)
Definition client (go : GoLib) (fl : Flags) : Client :=
  Build_Client (appId fl) (userKey fl) DefaultURL (Some (log_New ""))
    (if debug fl then Some (log_New "TRACE: ") else None) (http_DefaultClient go).

(** The flags with [-debug] given or not given. *)
Definition with_debug (b : bool) (fl : Flags) : Flags :=
  {| appId := appId fl; userKey := userKey fl; name := name fl; out := out fl;
     file := file fl; input := input fl; cmd := cmd fl; debug := b |}.

(** The uses of the command line that end with exit status 1. *)
Definition usage_error (lib : CliLib) (fl : Flags) : bool :=
  let command := strings_ToLower lib (cmd fl) in
  bool_decide (appId fl = "") || bool_decide (userKey fl = "")
  || bool_decide (command ≠ "list") && bool_decide (name fl = "")
  || (bool_decide (command = "upload") || bool_decide (command = "deletefile"))
     && bool_decide (file fl = "")
  || bool_decide (command = "download") && bool_decide (out fl = "")
     && bool_decide (file fl = "").

(** A stand-in for [flag.Parse] in the examples. It knows [-debug]
    and the form [-flag value] of the seven string flags, stops at the
    first argument that does not start with a dash, and rejects every
    other argument with the exit status 2. *)
Definition no_flags : Flags :=
  {| appId := ""; userKey := ""; name := ""; out := ""; file := ""; input := "";
     cmd := ""; debug := false |}.

Definition set_flag (flag value : string) (fl : Flags) : option Flags :=
  if bool_decide (flag = "-appId") then
    Some {| appId := value; userKey := userKey fl; name := name fl; out := out fl;
            file := file fl; input := input fl; cmd := cmd fl; debug := debug fl |}
  else if bool_decide (flag = "-userKey") then
    Some {| appId := appId fl; userKey := value; name := name fl; out := out fl;
            file := file fl; input := input fl; cmd := cmd fl; debug := debug fl |}
  else if bool_decide (flag = "-name") then
    Some {| appId := appId fl; userKey := userKey fl; name := value; out := out fl;
            file := file fl; input := input fl; cmd := cmd fl; debug := debug fl |}
  else if bool_decide (flag = "-out") then
    Some {| appId := appId fl; userKey := userKey fl; name := name fl; out := value;
            file := file fl; input := input fl; cmd := cmd fl; debug := debug fl |}
  else if bool_decide (flag = "-file") then
    Some {| appId := appId fl; userKey := userKey fl; name := name fl; out := out fl;
            file := value; input := input fl; cmd := cmd fl; debug := debug fl |}
  else if bool_decide (flag = "-input") then
    Some {| appId := appId fl; userKey := userKey fl; name := name fl; out := out fl;
            file := file fl; input := value; cmd := cmd fl; debug := debug fl |}
  else if bool_decide (flag = "-cmd") then
    Some {| appId := appId fl; userKey := userKey fl; name := name fl; out := out fl;
            file := file fl; input := input fl; cmd := value; debug := debug fl |}
  else None.

Fixpoint parse_flags (args : list string) (fl : Flags) : Z * string + Flags :=
  match args with
  | [] => inr fl
  | arg :: rest =>
      if bool_decide (arg = "-debug") then parse_flags rest (with_debug true fl)
      else if negb (bool_decide (String.get 0 arg = Some "-"%char)) then inr fl
      else
        match rest with
        | [] =>
            match set_flag arg "" fl with
            | Some _ => inl (2%Z, "flag needs an argument: " +:+ arg)
            | None => inl (2%Z, "flag provided but not defined: " +:+ arg)
            end
        | value :: rest =>
            match set_flag arg value fl with
            | Some fl => parse_flags rest fl
            | None => inl (2%Z, "flag provided but not defined: " +:+ arg)
            end
        end
  end.

(** A library for the examples: letters of the ASCII range are
    lowered, and a value is shown by its name. *)
Definition std : CliLib :=
  {| flag_Parse := λ args, parse_flags args no_flags;
     strings_ToLower := Std.strings_ToLower;
     fmt_BotEntry := BotEntry_Name;
     fmt_BotFiles := Botname;
     fmt_Reply := λ r, Go.strconv_Itoa (SessionId r) |}.

(** For the examples: a Go library whose default HTTP client answers
    every request with [code] and [body], the flags of a command on the
    bot [b1], and a process that has done nothing yet on an empty
    disk. *)
Definition online (code : Z) (body : string) : GoLib :=
  Build_GoLib Std.url_Parse Std.http_StatusText (Std.always code body)
    Std.DumpRequestOut Std.DumpResponse
    (Std.decode_one "[]" [])
    (Std.decode_one "{}" zero_BotFiles)
    (Std.decode_one Std.reply_json {| SessionId := 7; Responses := ["hi"] |}).

Definition flags (command out file : string) : Flags :=
  {| appId := "app"; userKey := "key"; name := "b1"; out := out; file := file;
     input := ""; cmd := command; debug := false |}.

Definition fresh : Process :=
  {| machine := {| net := Std.quiet;
                   disk := {| files := ∅; sealed := ∅; limits := ∅; handles := [] |} |};
     stdout := []; stderr := [] |}.

End Cli.

(** ** Observing a run of the command line client *)

(** A request whose URL is below [base]. *)
Definition addressed (base : string) (req : Request) : Prop :=
  ∃ rest, RequestURL req = base +:+ "/" +:+ rest.

(** From [w] to [w'] at most [n] requests were sent, all below [base]. *)
Definition grows (n : nat) (base : string) (w w' : World) : Prop :=
  ∃ reqs, requests w' = requests w ++ reqs
          ∧ (length reqs ≤ n)%nat
          ∧ Forall (addressed base) reqs.

Section Conversation.

Context (go : GoLib) (cl : Client) (bot : string).




End Conversation.

(** Two clients that differ in their logs at most. *)
Definition same_but_logs (cl1 cl2 : Client) : Prop :=
  appId cl1 = appId cl2 ∧ userKey cl1 = userKey cl2 ∧ url cl1 = url cl2 ∧ c cl1 = c cl2.

(** Two steps, from [w1] to [w1'] and from [w2] to [w2'], that sent
    the same requests and copied the same bytes into every writer. *)
Definition same_effect (w1 w1' w2 w2' : World) : Prop :=
  (∃ reqs, requests w1' = requests w1 ++ reqs ∧ requests w2' = requests w2 ++ reqs)
  ∧ ∀ path, GoOs.copied_into path w1 w1' = GoOs.copied_into path w2 w2'.

(** Two calls that return the same and have the same effect, whatever
    the worlds they start in. *)
Definition alike_calls {A} (f1 f2 : M A) : Prop :=
  ∀ w1 w2, (f1 w1).1 = (f2 w2).1 ∧ same_effect w1 (f1 w1).2 w2 (f2 w2).2.

(** Two processes that look the same from outside: the same output,
    the same disk, the same requests sent. *)
Definition alike (p1 p2 : Cli.Process) : Prop :=
  Cli.stdout p1 = Cli.stdout p2
  ∧ disk (Cli.machine p1) = disk (Cli.machine p2)
  ∧ requests (net (Cli.machine p1)) = requests (net (Cli.machine p2)).

(** ** Strings *)

Section Strings.

Import Go.

Lemma append_cons (a : ascii) (s t : string) : String a s +:+ t = String a (s +:+ t).
Proof. reflexivity. Qed.

Lemma append_nil_l (t : string) : "" +:+ t = t.
Proof. reflexivity. Qed.

Lemma append_nil_r (s : string) : s +:+ "" = s.
Proof. induction s as [|a s IH]; [done | by rewrite append_cons, IH]. Qed.

Lemma append_assoc (s t u : string) : (s +:+ t) +:+ u = s +:+ (t +:+ u).
Proof. induction s as [|a s IH]; [done | by rewrite !append_cons, IH]. Qed.

Lemma length_append (s t : string) :
  String.length (s +:+ t) = String.length s + String.length t.
Proof. induction s as [|a s IH]; [done | rewrite append_cons; simpl; by rewrite IH]. Qed.

Lemma substring_prefix (s t : string) : substring 0 (String.length s) (s +:+ t) = s.
Proof.
  induction s as [|a s IH].
  - rewrite append_nil_l. by destruct t.
  - rewrite append_cons. simpl. by rewrite IH.
Qed.

Lemma substring_all (t : string) : substring 0 (String.length t) t = t.
Proof. induction t as [|b t IH]; simpl; [done | by rewrite IH]. Qed.

Lemma substring_drop (s t : string) (n : nat) :
  substring (String.length s) n (s +:+ t) = substring 0 n t.
Proof. induction s as [|a s IH]; [done | by rewrite append_cons]. Qed.

Lemma substring_suffix (s t : string) :
  substring (String.length s) (String.length t) (s +:+ t) = t.
Proof. rewrite substring_drop. apply substring_all. Qed.

Lemma get_append_r (s t : string) (i : nat) :
  String.get (String.length s + i) (s +:+ t) = String.get i t.
Proof. induction s as [|a s IH]; [done | by rewrite append_cons]. Qed.

Lemma append_not_empty (s t : string) : t ≠ "" → s +:+ t ≠ "".
Proof. destruct s; [done | rewrite append_cons; discriminate]. Qed.

Lemma HasSuffix_append (s t : string) : strings_HasSuffix (s +:+ t) t = true.
Proof.
  unfold strings_HasSuffix. rewrite length_append.
  apply andb_true_intro; split.
  - apply Nat.leb_le. lia.
  - apply bool_decide_eq_true.
    replace (String.length s + String.length t - String.length t) with (String.length s) by lia.
    apply substring_suffix.
Qed.

(** Cutting the last byte off [s ++ "/"] gives [s]. *)
Lemma slice_drop_last (s : string) :
  slice (s +:+ "/") 0 (String.length (s +:+ "/") - 1) = s.
Proof.
  unfold slice. rewrite length_append. simpl.
  replace (String.length s + 1 - 1 - 0) with (String.length s) by lia.
  apply substring_prefix.
Qed.

End Strings.
(** ** Client construction *)

Section Construction.

Context (go : GoLib).

Import Go.

Lemma run_options_app (pre post : list OptionFunc) (cl : Client) (w : World) :
  run_options (pre ++ post) cl w =
  let '(cl1, err, w1) := run_options pre cl w in
  match err with
  | Some e => (cl1, Some e, w1)
  | None => run_options post cl1 w1
  end.
Proof.
  revert cl w. induction pre as [|o pre IH]; intros cl w; [done|].
  simpl. run. destruct (o cl w) as [[cl' [e|]] w']; [done | apply IH].
Qed.

Lemma SetUrl_accepts (rawurl : string) (cl : Client) (w : World) :
  acceptable go rawurl = true →
  SetUrl go rawurl cl w = (with_url (effective rawurl) cl, None, w).
Proof.
  unfold acceptable, SetUrl, effective. intros Hok.
  destruct (url_Parse go _) as [e|u]; [done|].
  apply orb_prop in Hok.
  assert (bool_decide (Scheme u ≠ "http") && bool_decide (Scheme u ≠ "https") = false) as ->; [|done].
  apply andb_false_iff.
  destruct Hok as [H|H]; apply bool_decide_eq_true in H; [left | right];
    apply bool_decide_eq_false; tauto.
Qed.

(** When every base URL passes, the options run to the end, log nothing
    and leave the client the settings describe. *)
Lemma run_options_settings (settings : list Setting) (cl : Client) (w : World) :
  urls_acceptable go settings = true →
  run_options (map (option_of go) settings) cl w
  = (foldl (apply_setting go) cl settings, None, w).
Proof.
  revert cl. induction settings as [|s settings IH]; intros cl Hok; [done|].
  simpl in Hok. apply andb_prop in Hok as [Hs Hrest].
  simpl. run.
  destruct s as [a k|[h|]|rawurl|l|l]; simpl; try (by apply IH).
  rewrite SetUrl_accepts by done. by apply IH.
Qed.

Lemma foldl_credentials (settings : list Setting) (cl : Client) :
  (appId (foldl (apply_setting go) cl settings),
   userKey (foldl (apply_setting go) cl settings))
  = foldl (λ acc s, match s with Credentials a k => (a, k) | _ => acc end)
          (appId cl, userKey cl) settings.
Proof.
  revert cl. induction settings as [|s settings IH]; intros cl; [done|].
  simpl. rewrite IH. by destruct s.
Qed.

Lemma foldl_url (settings : list Setting) (cl : Client) :
  url (foldl (apply_setting go) cl settings)
  = foldl (λ acc s, match s with BaseUrl rawurl => effective rawurl | _ => acc end)
          (url cl) settings.
Proof.
  revert cl. induction settings as [|s settings IH]; intros cl; [done|].
  simpl. rewrite IH. by destruct s.
Qed.


(** What [New] does once its options have run without error. *)
Lemma New_after_options (options : list OptionFunc) (cl : Client) (w w1 : World) :
  run_options options (blank go) w = (cl, None, w1) →
  (New go options w).1 =
  if bool_decide (appId cl = "") || bool_decide (userKey cl = "") then inl ErrNoCred
  else
    let cl := if bool_decide (url cl = "") then with_url DefaultURL cl else cl in
    inr (if strings_HasSuffix (url cl) "/"
         then with_url (slice (url cl) 0 (String.length (url cl) - 1)) cl
         else cl).
Proof.
  intros Hrun. unfold New. fold (blank go). run. rewrite Hrun.
  destruct (bool_decide (appId cl = "") || bool_decide (userKey cl = "")).
  - unfold errorf. by destruct (errorlog cl).
  - unfold tracef.
    destruct (bool_decide (url cl = "")), (strings_HasSuffix _ "/"); simpl;
      by destruct (tracelog cl).
Qed.

Lemma New_option_fails (pre post : list OptionFunc) (o : OptionFunc)
    (cl1 cl2 : Client) (w w1 w2 : World) (e : error) :
  run_options pre (blank go) w = (cl1, None, w1) →
  o cl1 w1 = (cl2, Some e, w2) →
  (New go (pre ++ o :: post) w).1 = inl e.
Proof.
  intros Hpre Ho. unfold New. fold (blank go). run.
  rewrite run_options_app, Hpre. simpl. run. by rewrite Ho.
Qed.


(** An unacceptable base URL makes [SetUrl] fail, with an error that is
    not [ErrNoCred]. *)
Lemma SetUrl_rejects (rawurl : string) (cl : Client) (w : World) :
  acceptable go rawurl = false →
  ∃ e w2, SetUrl go rawurl cl w = (cl, Some e, w2) ∧ e ≠ ErrNoCred.
Proof.
  unfold acceptable, SetUrl, effective. intros Hbad.
  destruct (url_Parse go _) as [msg|u].
  - unfold errorf. destruct (errorlog cl); run; eauto.
  - apply orb_false_elim in Hbad as [H1 H2].
    apply bool_decide_eq_false in H1, H2.
    rewrite !bool_decide_eq_true_2 by done. simpl.
    unfold errorf. destruct (errorlog cl); run; eauto.
Qed.

Lemma first_unacceptable (settings : list Setting) :
  urls_acceptable go settings = false →
  ∃ pre rawurl post,
    settings = pre ++ BaseUrl rawurl :: post
    ∧ urls_acceptable go pre = true
    ∧ acceptable go rawurl = false.
Proof.
  induction settings as [|s settings IH]; intros Hbad; [done|].
  simpl in Hbad. apply andb_false_iff in Hbad.
  destruct (match s with BaseUrl rawurl => acceptable go rawurl | _ => true end) eqn:Hs.
  - destruct Hbad as [Hbad|Hbad]; [done|].
    destruct (IH Hbad) as (pre & rawurl & post & -> & Hpre & Hurl).
    exists (s :: pre), rawurl, post. repeat split; [|done].
    simpl. by rewrite Hs.
  - destruct s as [| |rawurl| |]; try done.
    by exists [], rawurl, settings.
Qed.

(** C6 (as amended). [New] fails with [ErrNoCred] if and only if every
    option is applied without error (every base URL among the options
    passes [SetUrl]) and the application id or the user key left by the
    last [SetCredentials] is empty, whatever the other options are. An
    option that fails ends construction with its own error. *)
Theorem New_ErrNoCred_iff (settings : list Setting) (w : World) :
  (New go (map (option_of go) settings) w).1 = inl ErrNoCred
  ↔ urls_acceptable go settings = true
    ∧ ((final_credentials settings).1 = "" ∨ (final_credentials settings).2 = "").
Proof.
  destruct (urls_acceptable go settings) eqn:Hok.
  - rewrite (New_after_options _ _ w w (run_options_settings settings (blank go) w Hok)).
    pose proof (foldl_credentials settings (blank go)) as Hcred.
    simpl in Hcred. fold (final_credentials settings) in Hcred.
    destruct (final_credentials settings) as [a k]. simpl.
    injection Hcred as -> ->.
    destruct (bool_decide_reflect (a = "")) as [Ha|Ha];
      destruct (bool_decide_reflect (k = "")) as [Hk|Hk]; simpl;
      try (split; [intros _; tauto | done]).
    split; [discriminate | tauto].
  - split; [|intros [? _]; done].
    destruct (first_unacceptable settings Hok) as (pre & rawurl & post & -> & Hpre & Hurl).
    destruct (SetUrl_rejects rawurl (foldl (apply_setting go) (blank go) pre) w Hurl)
      as (e & w2 & Hfail & Hne).
    rewrite map_app. simpl.
    rewrite (New_option_fails _ _ _ _ _ w w w2 e (run_options_settings pre (blank go) w Hpre)
               Hfail).
    congruence.
Qed.

(** C7 (as amended). A non-empty base URL that does not parse makes
    [New] fail with the parser's error; one that parses with a scheme
    other than http and https makes it fail with the invalid-schema
    error; any other is stored by the option, which reports no error.
    The empty string is not judged itself: [SetUrl] puts [DefaultURL]
    in its place. The options before [SetUrl] are any that ran without
    error. *)
Theorem SetUrl_invalid_url (rawurl : string) (pre post : list OptionFunc)
    (cl1 : Client) (w w1 : World) :
  rawurl ≠ "" →
  run_options pre (blank go) w = (cl1, None, w1) →
  (∀ msg, url_Parse go rawurl = inl msg →
          (New go (pre ++ SetUrl go rawurl :: post) w).1 = inl (foreign net_url msg))
  ∧ (∀ u, url_Parse go rawurl = inr u → Scheme u ≠ "http" → Scheme u ≠ "https" →
          (New go (pre ++ SetUrl go rawurl :: post) w).1
          = inl (errors_New ("Invalid schema specified [" +:+ rawurl +:+ "]")))
  ∧ (∀ u, url_Parse go rawurl = inr u → Scheme u = "http" ∨ Scheme u = "https" →
          SetUrl go rawurl cl1 w1 = (with_url rawurl cl1, None, w1))
  ∧ (∀ cl0 w0, SetUrl go "" cl0 w0 = SetUrl go DefaultURL cl0 w0).
Proof.
  intros Hne Hpre.
  assert (effective rawurl = rawurl) as Heff.
  { unfold effective. by rewrite bool_decide_eq_false_2. }
  split; [|split; [|split]].
  - intros msg He.
    assert (∃ w2, SetUrl go rawurl cl1 w1 = (cl1, Some (foreign net_url msg), w2)) as [w2 Hw2].
    { unfold SetUrl. fold (effective rawurl). rewrite Heff, He.
      unfold errorf. destruct (errorlog cl1); run; eauto. }
    eapply New_option_fails; eauto.
  - intros u Hu Hhttp Hhttps.
    assert (∃ w2, SetUrl go rawurl cl1 w1
                  = (cl1, Some (errors_New ("Invalid schema specified [" +:+ rawurl +:+ "]")), w2))
      as [w2 Hw2].
    { unfold SetUrl. fold (effective rawurl). rewrite Heff, Hu.
      rewrite !bool_decide_eq_true_2 by done. simpl.
      unfold errorf. destruct (errorlog cl1); run; eauto. }
    eapply New_option_fails; eauto.
  - intros u Hu Hscheme. rewrite <- Heff at 2. apply SetUrl_accepts.
    unfold acceptable. rewrite Heff, Hu.
    destruct Hscheme as [-> | ->]; done.
  - intros cl0 w0. unfold SetUrl. done.
Qed.

Lemma final_url_last (pre post : list Setting) (rawurl : string) :
  forallb (λ s, negb (sets_url s)) post = true →
  final_url (pre ++ BaseUrl rawurl :: post) = effective rawurl.
Proof.
  unfold final_url. rewrite foldl_app. simpl. generalize (effective rawurl) as acc.
  induction post as [|s post IH]; intros acc Hpost; simpl in *; [done|].
  apply andb_prop in Hpost as [Hs Hpost]. destruct s; try done; by apply IH.
Qed.

(** C8. When the last base URL supplied, valid as all the others, is
    [u] followed by a slash, and the credentials are there, construction
    succeeds and the client's URL is [u]: one slash is cut off the end
    and nothing else changes, so of several trailing slashes all but the
    last stay (they are part of [u]). *)
Theorem New_strips_one_trailing_slash (pre post : list Setting) (u : string) (w : World) :
  let settings := pre ++ BaseUrl (u +:+ "/") :: post in
  forallb (λ s, negb (sets_url s)) post = true →
  urls_acceptable go settings = true →
  (final_credentials settings).1 ≠ "" →
  (final_credentials settings).2 ≠ "" →
  ∃ cl, (New go (map (option_of go) settings) w).1 = inr cl ∧ url cl = u.
Proof.
  intros settings Hpost Hok Ha Hk.
  assert (final_url settings = u +:+ "/") as Hurl.
  { unfold settings. rewrite final_url_last by done.
    unfold effective. rewrite bool_decide_eq_false_2; [done|].
    apply append_not_empty. discriminate. }
  rewrite (New_after_options _ _ w w (run_options_settings settings (blank go) w Hok)).
  pose proof (foldl_credentials settings (blank go)) as Hcred.
  pose proof (foldl_url settings (blank go)) as Hu.
  simpl in Hcred, Hu.
  fold (final_credentials settings) in Hcred. fold (final_url settings) in Hu.
  set (cl := foldl (apply_setting go) (blank go) settings) in *.
  destruct (final_credentials settings) as [a k]. simpl in Ha, Hk.
  injection Hcred as Hca Hck.
  rewrite Hca, Hck, Hu, Hurl.
  rewrite (bool_decide_eq_false_2 (a = "")) by done.
  rewrite (bool_decide_eq_false_2 (k = "")) by done.
  rewrite (bool_decide_eq_false_2 (u +:+ "/" = "")) by (apply append_not_empty; discriminate).
  simpl. rewrite Hu, Hurl, HasSuffix_append.
  eexists; split; [done|]. simpl. apply slice_drop_last.
Qed.

End Construction.

Section ConstructionExamples.

(** New on missing credentials and an acceptable URL (C6). *)
Lemma New_ErrNoCred_iff_witness :
  (New Std.std [SetCredentials "" "key"; SetUrl Std.std "http://localhost/"] Std.quiet).1
  = inl ErrNoCred.
Proof.
  apply (proj2 (New_ErrNoCred_iff Std.std [Credentials "" "key"; BaseUrl "http://localhost/"]
                  Std.quiet)).
  split; [reflexivity | left; reflexivity].
Defined.

(** The credentials are empty, yet the error is the one of the base URL:
    an option that fails ends construction before the credentials are
    looked at. *)
Lemma New_reports_bad_url_before_credentials :
  final_credentials [Credentials "" ""; BaseUrl "ftp://host"] = ("", "")
  ∧ (New Std.std [SetCredentials "" ""; SetUrl Std.std "ftp://host"] Std.quiet).1
    = inl (errors_New "Invalid schema specified [ftp://host]")
  ∧ (New Std.std [SetCredentials "" ""; SetUrl Std.std "ftp://host"] Std.quiet).1 ≠ inl ErrNoCred.
Proof. split; [reflexivity | split; [reflexivity | vm_compute; discriminate]]. Qed.

(** A base URL with the scheme ftp (C7). *)
Lemma SetUrl_invalid_url_witness :
  (New Std.std ([SetCredentials "app" "key"] ++ SetUrl Std.std "ftp://host" :: []) Std.quiet).1
  = inl (errors_New ("Invalid schema specified [" +:+ "ftp://host" +:+ "]")).
Proof.
  refine (proj1 (proj2 (SetUrl_invalid_url Std.std "ftp://host" [SetCredentials "app" "key"] []
                          _ Std.quiet Std.quiet _ eq_refl)) {| Scheme := "ftp" |} eq_refl _ _);
    discriminate.
Defined.

(** The empty string parses, with an empty scheme, and construction
    succeeds all the same, on the default URL. *)
Lemma SetUrl_empty_string_is_default :
  url_Parse Std.std "" = inr {| Scheme := "" |}
  ∧ ∃ cl, (New Std.std [SetCredentials "app" "key"; SetUrl Std.std ""] Std.quiet).1 = inr cl
          ∧ url cl = DefaultURL.
Proof. split; [reflexivity | eexists; split; reflexivity]. Qed.

(** Two trailing slashes: one is left (C8). *)
Lemma New_strips_one_trailing_slash_witness :
  ∃ cl, (New Std.std (map (option_of Std.std)
                        ([Credentials "app" "key"] ++ BaseUrl ("http://host/" +:+ "/")
                           :: [TraceLog None])) Std.quiet).1
        = inr cl ∧ url cl = "http://host/".
Proof.
  apply (New_strips_one_trailing_slash Std.std [Credentials "app" "key"] [TraceLog None]
           "http://host/" Std.quiet); [reflexivity | reflexivity | discriminate | discriminate].
Defined.

End ConstructionExamples.

(** ** File URLs *)

Section FileUrls.

Import Go.

Lemma substring_split (s : string) (i : nat) :
  (i ≤ String.length s)%nat →
  substring 0 i s +:+ substring i (String.length s - i) s = s.
Proof.
  revert i. induction s as [|a s IH]; intros [|i] Hi; simpl in *; try lia.
  - done.
  - by rewrite append_nil_l, substring_all.
  - rewrite append_cons, IH by lia. done.
Qed.

Lemma length_substring (s : string) (i n : nat) :
  (i + n ≤ String.length s)%nat → String.length (substring i n s) = n.
Proof.
  revert i n. induction s as [|a s IH]; intros [|i] [|n] Hi; simpl in *; try lia; try done.
  - rewrite IH; lia.
  - apply IH. lia.
  - apply IH. lia.
Qed.

(** The extension is a suffix of the path, and what is left in front of
    it is what [fileToUrl] cuts out. *)
Lemma Ext_loop_suffix (path : string) (n : nat) :
  (n ≤ String.length path)%nat →
  path = slice path 0 (String.length path - String.length (Ext_loop path n))
         +:+ Ext_loop path n.
Proof.
  unfold slice. induction n as [|i IH]; intros Hn; simpl.
  - rewrite Nat.sub_0_r, Nat.sub_0_r, substring_all. by rewrite append_nil_r.
  - destruct (String.get i path) as [ch|].
    + destruct (bool_decide (ch = "/"%char)).
      * simpl. rewrite !Nat.sub_0_r, substring_all. by rewrite append_nil_r.
      * destruct (bool_decide (ch = "."%char)); [|apply IH; lia].
        unfold slice. rewrite length_substring by lia.
        replace (String.length path - (String.length path - i) - 0) with i by lia.
        symmetry. apply substring_split. lia.
    + simpl. rewrite !Nat.sub_0_r, substring_all. by rewrite append_nil_r.
Qed.

Lemma Ext_suffix (path : string) :
  path = slice path 0 (String.length path - String.length (filepath_Ext path))
         +:+ filepath_Ext path.
Proof. apply Ext_loop_suffix. done. Qed.


Lemma plain_get (e : string) (i : nat) (ch : ascii) :
  plain e = true → String.get i e = Some ch → ch ≠ "/"%char ∧ ch ≠ "."%char.
Proof.
  revert i. induction e as [|b e IH]; intros i Hplain Hget; [done|].
  simpl in Hplain. apply andb_prop in Hplain as [Hb Hrest]. apply andb_prop in Hb as [H1 H2].
  destruct i as [|i]; simpl in Hget.
  - injection Hget as <-. split; intros ->; done.
  - by apply (IH i).
Qed.

(** The extension of [stem.e] is [.e] when [e] has no dot and no slash. *)
Lemma Ext_of_suffix (stem e : string) :
  plain e = true → filepath_Ext (stem +:+ "." +:+ e) = "." +:+ e.
Proof.
  intros Hplain. unfold filepath_Ext.
  set (path := stem +:+ "." +:+ e).
  assert (String.length path = String.length stem + 1 + String.length e)%nat as Hlen.
  { unfold path. rewrite !length_append. simpl. lia. }
  rewrite Hlen.
  assert (∀ k, (k ≤ String.length e)%nat →
               Ext_loop path (String.length stem + 1 + k) = "." +:+ e) as Hloop;
    [|by apply Hloop].
  induction k as [|k IH]; intros Hk.
  - replace (String.length stem + 1 + 0)%nat with (S (String.length stem)) by lia. simpl.
    replace (String.length stem) with (String.length stem + 0)%nat at 1 by lia.
    unfold path at 1. rewrite get_append_r.
    change (String.get 0 ("." +:+ e)) with (Some "."%char). simpl.
    unfold slice. rewrite Hlen. unfold path. rewrite substring_drop.
    replace (String.length stem + 1 + String.length e - String.length stem)%nat
      with (String.length ("." +:+ e)) by (rewrite length_append; simpl; lia).
    apply substring_all.
  - replace (String.length stem + 1 + S k)%nat with (S (String.length stem + S k)) by lia.
    simpl. unfold path at 1. rewrite get_append_r.
    change (String.get (S k) ("." +:+ e)) with (String.get k e).
    destruct (String.get k e) as [ch|] eqn:Hget.
    + destruct (plain_get e k ch Hplain Hget) as [Hsep Hdot].
      rewrite !bool_decide_eq_false_2 by done.
      replace (String.length stem + S k)%nat with (String.length stem + 1 + k)%nat by lia.
      apply IH. lia.
    + exfalso. clear -Hget Hk. revert k Hget Hk.
      induction e as [|b e IHe]; intros [|k] Hget Hk; simpl in *; try done; try lia.
      apply (IHe k); [done | lia].
Qed.

Context (go : GoLib).

(** The URLs by the form of the file name, for every stem. *)
Lemma fileToUrl_of_stem (cl : Client) (name stem : string) :
  fileToUrl cl name (stem +:+ ".aiml")
  = (botUrl cl bot name +:+ "/file/" +:+ stem +:+ ".aiml", None)
  ∧ fileToUrl cl name (stem +:+ ".set") = (botUrl cl bot name +:+ "/set/" +:+ stem, None)
  ∧ fileToUrl cl name (stem +:+ ".map") = (botUrl cl bot name +:+ "/map/" +:+ stem, None)
  ∧ fileToUrl cl name (stem +:+ ".substitution")
    = (botUrl cl bot name +:+ "/substitution/" +:+ stem, None)
  ∧ fileToUrl cl name (stem +:+ ".properties") = (botUrl cl bot name +:+ "/properties", None)
  ∧ fileToUrl cl name (stem +:+ ".pdefaults") = (botUrl cl bot name +:+ "/pdefaults", None).
Proof.
  assert (∀ e, String.length (stem +:+ "." +:+ e) - String.length ("." +:+ e)
               = String.length stem)%nat as Hlen.
  { intros e. rewrite !length_append. lia. }
  repeat split; unfold fileToUrl;
    match goal with |- context [filepath_Ext (stem +:+ String "." ?e)] =>
      change (stem +:+ String "." e) with (stem +:+ "." +:+ e);
      rewrite (Ext_of_suffix stem e eq_refl);
      unfold slice; rewrite ?Hlen, ?Nat.sub_0_r, ?substring_prefix
    end; reflexivity.
Qed.

(** C2. With [ext] the extension of the file name and [stem] the name
    without it: [.aiml] gives the bot URL, [/file/] and the whole name;
    [.set], [.map] and [.substitution] give the bot URL, the kind and
    the stem; [.properties] and [.pdefaults] give the bot URL and the
    kind alone; with any other extension [fileToUrl] fails, and
    [UploadFile], [DeleteFile] and [GetFile] return that error and leave
    the world as it was: no request, no log line. *)
Theorem fileToUrl_by_extension (cl : Client) (name filename : string) :
  let ext := filepath_Ext filename in
  let stem := slice filename 0 (String.length filename - String.length ext) in
  let base := botUrl cl bot name in
  filename = stem +:+ ext
  ∧ (ext = ".aiml" →
     fileToUrl cl name filename = (base +:+ "/file/" +:+ filename, None))
  ∧ (∀ kind, kind ∈ ["set"; "map"; "substitution"] → ext = "." +:+ kind →
     fileToUrl cl name filename = (base +:+ "/" +:+ kind +:+ "/" +:+ stem, None))
  ∧ (∀ kind, kind ∈ ["properties"; "pdefaults"] → ext = "." +:+ kind →
     fileToUrl cl name filename = (base +:+ "/" +:+ kind, None))
  ∧ (ext ∉ known_extensions →
     let err := errors_New ("Extension is not recognized [" +:+ ext +:+ "]") in
     fileToUrl cl name filename = ("", Some err)
     ∧ ∀ data out w,
         UploadFile go cl name filename data w = (Some err, w)
         ∧ DeleteFile go cl name filename w = (Some err, w)
         ∧ GetFile go cl name filename out w = (Some err, w)).
Proof.
  cbv zeta. split; [apply Ext_suffix|].
  split; [|split; [|split]].
  - intros Hext. unfold fileToUrl. rewrite Hext. reflexivity.
  - intros kind Hkind Hext. unfold fileToUrl. rewrite Hext.
    repeat (apply elem_of_cons in Hkind as [-> | Hkind]); try reflexivity.
    by apply elem_of_nil in Hkind.
  - intros kind Hkind Hext. unfold fileToUrl. rewrite Hext.
    repeat (apply elem_of_cons in Hkind as [-> | Hkind]); try reflexivity.
    by apply elem_of_nil in Hkind.
  - intros Hext.
    assert (fileToUrl cl name filename
            = ("", Some (errors_New ("Extension is not recognized ["
                                       +:+ filepath_Ext filename +:+ "]")))) as Hfail.
    { unfold fileToUrl, known_extensions in *.
      rewrite !not_elem_of_cons in Hext.
      rewrite !bool_decide_eq_false_2; [done | | | ];
        rewrite ?elem_of_cons, ?elem_of_nil; tauto. }
    split; [done|]. intros data out w.
    unfold UploadFile, DeleteFile, GetFile. rewrite Hfail. done.
Qed.

End FileUrls.

(** The examples of the URL rules: a set, a script, the properties, and
    an extension that is not known. *)
Lemma fileToUrl_by_extension_witness :
  let cl := Std.client 200 "" in
  fileToUrl cl "bot1" "colors.set" = ("http://host/bot/app/bot1/set/colors", None)
  ∧ fileToUrl cl "bot1" "rules.aiml" = ("http://host/bot/app/bot1/file/rules.aiml", None)
  ∧ fileToUrl cl "bot1" "bot.properties" = ("http://host/bot/app/bot1/properties", None)
  ∧ UploadFile Std.std cl "bot1" "x.unknown" None Std.quiet
    = (Some (errors_New "Extension is not recognized [.unknown]"), Std.quiet).
Proof.
  intros cl.
  pose proof (fileToUrl_by_extension Std.std cl "bot1" "colors.set") as (_ & _ & Hset & _).
  pose proof (fileToUrl_by_extension Std.std cl "bot1" "rules.aiml") as (_ & Haiml & _).
  pose proof (fileToUrl_by_extension Std.std cl "bot1" "bot.properties") as (_ & _ & _ & Hprop & _).
  pose proof (fileToUrl_by_extension Std.std cl "bot1" "x.unknown") as (_ & _ & _ & _ & Hother).
  split; [|split; [|split]].
  - apply (Hset "set"); [repeat constructor | reflexivity].
  - apply Haiml. reflexivity.
  - apply (Hprop "properties"); [repeat constructor | reflexivity].
  - destruct Hother as [_ Hops].
    + change (Go.filepath_Ext "x.unknown") with ".unknown". unfold known_extensions.
      intros H. repeat (apply elem_of_cons in H as [H | H]; [discriminate|]).
      by apply elem_of_nil in H.
    + exact (proj1 (Hops None None Std.quiet)).
Defined.

(** ** The encoded query string *)

Section Encode.

Import Go.

Lemma elem_of_insert_sorted (k x : string) (l : list string) :
  k ∈ insert_sorted x l ↔ k = x ∨ k ∈ l.
Proof.
  induction l as [|y l IH]; simpl.
  - rewrite list_elem_of_singleton, elem_of_nil. tauto.
  - destruct (String.leb x y).
    + by rewrite elem_of_cons.
    + rewrite !elem_of_cons, IH. tauto.
Qed.

Lemma elem_of_sort_Strings (k : string) (l : list string) : k ∈ sort_Strings l ↔ k ∈ l.
Proof.
  unfold sort_Strings. induction l as [|y l IH]; simpl; [done|].
  rewrite elem_of_insert_sorted, elem_of_cons, IH. done.
Qed.

Lemma Encode_value_grows (prefix buf value : string) :
  buf ≠ "" →
  Encode_value prefix buf value = buf +:+ "&" +:+ prefix +:+ url_QueryEscape value
  ∧ Encode_value prefix buf value ≠ "".
Proof.
  intros Hbuf. unfold Encode_value. rewrite bool_decide_eq_false_2 by done.
  rewrite append_assoc. split; [done|].
  destruct buf; [done|]. rewrite append_cons. discriminate.
Qed.

Lemma Encode_values_grow (prefix : string) (values : list string) (buf : string) :
  buf ≠ "" →
  foldl (Encode_value prefix) buf values ≠ ""
  ∧ ∃ post, foldl (Encode_value prefix) buf values = buf +:+ post
            ∧ (post = "" ∨ ∃ post', post = "&" +:+ post').
Proof.
  revert buf. induction values as [|x values IH]; intros buf Hbuf; simpl.
  - split; [done|]. exists "". rewrite append_nil_r. auto.
  - destruct (Encode_value_grows prefix buf x Hbuf) as [Heq Hne].
    destruct (IH _ Hne) as (Hne' & post & Hpost & _).
    split; [done|]. rewrite Hpost, Heq.
    exists ("&" +:+ prefix +:+ url_QueryEscape x +:+ post).
    rewrite !append_assoc. split; [done|]. right. by eexists.
Qed.

Lemma Encode_keys_grow (v : Values) (keys : list string) (buf : string) :
  buf ≠ "" →
  ∃ post, foldl (Encode_key v) buf keys = buf +:+ post
          ∧ (post = "" ∨ ∃ post', post = "&" +:+ post').
Proof.
  revert buf. induction keys as [|k keys IH]; intros buf Hbuf; simpl.
  - exists "". rewrite append_nil_r. auto.
  - unfold Encode_key at 2.
    destruct (Encode_values_grow (url_QueryEscape k +:+ "=") (default [] (v !! k)) buf Hbuf)
      as (Hne & post1 & Hpost1 & Hshape1).
    destruct (IH _ Hne) as (post2 & Hpost2 & Hshape2).
    rewrite Hpost2, Hpost1. exists (post1 +:+ post2). rewrite append_assoc.
    split; [done|].
    destruct Hshape1 as [-> | [p1 ->]]; [by rewrite append_nil_l|].
    right. exists (p1 +:+ post2). by rewrite append_assoc.
Qed.

(** A key that has one value shows in the encoded string with it. *)
Lemma Encode_has_pair (v : Values) (key value : string) :
  v !! key = Some [value] → has_pair (Values_Encode v) key value.
Proof.
  intros Hkey. unfold Values_Encode.
  assert (key ∈ sort_Strings (map fst (map_to_list v))) as Hin.
  { apply elem_of_sort_Strings, list_elem_of_In.
    apply (in_map fst _ (key, [value])), list_elem_of_In.
    by apply elem_of_map_to_list. }
  apply list_elem_of_split in Hin as (l1 & l2 & ->).
  rewrite foldl_app. simpl.
  set (buf := foldl (Encode_key v) "" l1).
  set (pair := url_QueryEscape key +:+ "=" +:+ url_QueryEscape value).
  assert (∃ pre, Encode_key v buf key = pre +:+ pair ∧ (pre = "" ∨ ∃ pre', pre = pre' +:+ "&"))
    as (pre & Hpre & Hshape).
  { unfold Encode_key. rewrite Hkey. simpl. unfold Encode_value.
    case_bool_decide as Hbuf.
    - exists "". rewrite Hbuf, !append_nil_l. unfold pair. rewrite append_assoc. auto.
    - exists (buf +:+ "&"). unfold pair. rewrite !append_assoc. split; [done|].
      right. by eexists. }
  assert (Encode_key v buf key ≠ "") as Hne.
  { rewrite Hpre. apply append_not_empty. unfold pair.
    apply append_not_empty. discriminate. }
  destruct (Encode_keys_grow v l2 _ Hne) as (post & Hpost & Hshape').
  exists pre, post. rewrite Hpost, Hpre. rewrite append_assoc. done.
Qed.

(** *** What the encoded string is made of *)

Lemma lacks_append (ch : ascii) (s t : string) :
  lacks ch (s +:+ t) = lacks ch s && lacks ch t.
Proof.
  induction s as [|b s IH]; [done|]. rewrite append_cons. simpl.
  by rewrite IH, andb_assoc.
Qed.

(** Escaping leaves no hash behind: a byte stays as it is only when it
    is a letter, a digit or one of four marks, and is a plus or a
    percent sign with two hexadecimal digits otherwise. *)
Lemma escape_byte_lacks_hash (ch : ascii) : lacks "#" (escape_byte ch) = true.
Proof. destruct ch as [[] [] [] [] [] [] [] []]; reflexivity. Qed.

Lemma QueryEscape_lacks_hash (s : string) : lacks "#" (url_QueryEscape s) = true.
Proof.
  induction s as [|ch s IH]; [done|]. simpl.
  by rewrite lacks_append, escape_byte_lacks_hash, IH.
Qed.

Lemma Encode_value_lacks_hash (prefix buf value : string) :
  lacks "#" prefix = true → lacks "#" buf = true →
  lacks "#" (Encode_value prefix buf value) = true.
Proof.
  intros Hprefix Hbuf. unfold Encode_value.
  rewrite !lacks_append, Hprefix, QueryEscape_lacks_hash.
  case_bool_decide; by rewrite ?lacks_append, Hbuf.
Qed.

Lemma Encode_key_lacks_hash (v : Values) (buf key : string) :
  lacks "#" buf = true → lacks "#" (Encode_key v buf key) = true.
Proof.
  unfold Encode_key. generalize (default [] (v !! key)) as values.
  intros values. revert buf.
  induction values as [|x values IH]; intros buf Hbuf; simpl; [done|].
  apply IH, Encode_value_lacks_hash; [|done].
  by rewrite lacks_append, QueryEscape_lacks_hash.
Qed.

Lemma Encode_lacks_hash (v : Values) : lacks "#" (Values_Encode v) = true.
Proof.
  unfold Values_Encode. generalize (sort_Strings (map fst (map_to_list v))) as keys.
  assert (lacks "#" "" = true) as Hbuf by done. revert Hbuf. generalize "" as buf.
  intros buf Hbuf keys. revert buf Hbuf.
  induction keys as [|k keys IH]; intros buf Hbuf; simpl; [done|].
  by apply IH, Encode_key_lacks_hash.
Qed.

Lemma before_first_lacks (ch : ascii) (s : string) :
  lacks ch s = true → before_first ch s = s.
Proof.
  induction s as [|b s IH]; [done|]. simpl. intros H.
  apply andb_prop in H as [Hb Hs]. apply negb_true_iff in Hb. rewrite Hb.
  by rewrite IH.
Qed.

Lemma after_first_append (ch : ascii) (s t : string) :
  lacks ch s = true → after_first ch (s +:+ String ch t) = t.
Proof.
  induction s as [|b s IH]; intros H.
  - rewrite append_nil_l. simpl. by rewrite bool_decide_eq_true_2.
  - rewrite append_cons. simpl in *. apply andb_prop in H as [Hb Hs].
    apply negb_true_iff in Hb. rewrite Hb. by apply IH.
Qed.

(** After a target without a question mark and without a hash, the
    query string of the request is the encoded values. *)
Lemma RawQuery_of_target (target : string) (v : Values) :
  query_free target = true →
  url_RawQuery (target +:+ "?" +:+ Values_Encode v) = Values_Encode v.
Proof.
  unfold query_free, url_RawQuery. intros H. apply andb_prop in H as [Hq Hh].
  rewrite before_first_lacks.
  - change ("?" +:+ Values_Encode v) with (String "?" (Values_Encode v)).
    by apply after_first_append.
  - rewrite !lacks_append, Hh, Encode_lacks_hash. done.
Qed.

End Encode.

(** ** Parameters of the talk endpoint *)

Section TalkParams.

Import Go.

Lemma lookup_insert_if (b : bool) (k k' v : string) (m : gmap string string) :
  (if b then <[k := v]> m else m) !! k'
  = if b && bool_decide (k = k') then Some v else m !! k'.
Proof.
  destruct b; simpl; [|done].
  destruct (bool_decide_reflect (k = k')) as [->|Hne].
  - apply lookup_insert_eq.
  - by apply lookup_insert_ne.
Qed.

Lemma talk_params_lookup (input clientName : string) (sessionId : Z) (recent : bool)
    (that topic : string) (extra reset trace reload : bool) (k : string) :
  talk_params input clientName sessionId recent that topic extra reset trace reload !! k
  = if bool_decide (k = "reload") then (if reload then Some "true" else None)
    else if bool_decide (k = "trace") then (if trace then Some "true" else None)
    else if bool_decide (k = "reset") then (if reset then Some "true" else None)
    else if bool_decide (k = "extra") then (if extra then Some "true" else None)
    else if bool_decide (k = "topic") then (if bool_decide (topic = "") then None else Some topic)
    else if bool_decide (k = "that") then (if bool_decide (that = "") then None else Some that)
    else if bool_decide (k = "recent") then (if recent then Some "true" else None)
    else if bool_decide (k = "sessionid")
         then (if bool_decide (sessionId = 0%Z) then None else Some (strconv_Itoa sessionId))
    else if bool_decide (k = "client_name")
         then (if bool_decide (clientName = "") then None else Some clientName)
    else if bool_decide (k = "input") then Some input
    else None.
Proof.
  unfold talk_params. rewrite !lookup_insert_if.
  repeat match goal with
  | |- context [bool_decide (?s = k)] =>
      destruct (bool_decide_reflect (s = k)) as [<- | ?]
  end; simpl; rewrite ?andb_true_r, ?andb_false_r; simpl;
  repeat match goal with
  | |- context [bool_decide (k = ?s)] =>
      destruct (bool_decide_reflect (k = s)); try congruence; try done
  end.
  all: subst; rewrite ?lookup_insert_eq; rewrite ?lookup_insert_ne by congruence;
    rewrite ?lookup_empty; repeat case_bool_decide; try done; tauto.
Qed.


Context (go : GoLib).

(** C4. The map [TalkDebug] hands to [do] holds [input] always;
    [client_name], [that] and [topic] exactly when the argument is not
    empty; [sessionid], in decimal, exactly when the session id is not
    zero; each of [recent], [extra], [reset], [trace] and [reload] with
    the value [true] exactly when its flag is set, and no such key
    otherwise; and no other key. [Talk] is [TalkDebug] with empty [that]
    and [topic] and the four debug flags unset, so its map has no key
    besides [input], [client_name], [sessionid] and [recent]. *)
Theorem TalkDebug_parameters (cl : Client) (name input clientName : string) (sessionId : Z)
    (recent : bool) (that topic : string) (extra reset trace reload : bool) (w : World) :
  let params := talk_params input clientName sessionId recent that topic
                  extra reset trace reload in
  TalkDebug go cl name input clientName sessionId recent that topic extra reset trace reload w
  = (do go cl "POST" (botUrl cl talk name) params None (ToValue (json_Reply go) zero_Reply)
       ≫= λ '(err, reply), mret (Some (value_of reply zero_Reply), err)) w
  ∧ params !! "input" = Some input
  ∧ params !! "client_name" = (if bool_decide (clientName = "") then None else Some clientName)
  ∧ params !! "that" = (if bool_decide (that = "") then None else Some that)
  ∧ params !! "topic" = (if bool_decide (topic = "") then None else Some topic)
  ∧ params !! "sessionid"
    = (if bool_decide (sessionId = 0%Z) then None else Some (strconv_Itoa sessionId))
  ∧ params !! "recent" = (if recent then Some "true" else None)
  ∧ params !! "extra" = (if extra then Some "true" else None)
  ∧ params !! "reset" = (if reset then Some "true" else None)
  ∧ params !! "trace" = (if trace then Some "true" else None)
  ∧ params !! "reload" = (if reload then Some "true" else None)
  ∧ (∀ k, k ∉ talk_keys → params !! k = None)
  ∧ Talk go cl name input clientName sessionId recent w
    = TalkDebug go cl name input clientName sessionId recent "" "" false false false false w
  ∧ (∀ k, k ∉ ["input"; "client_name"; "sessionid"; "recent"] →
          talk_params input clientName sessionId recent "" "" false false false false !! k
          = None).
Proof.
  cbv zeta. split; [reflexivity|].
  repeat (split; [rewrite talk_params_lookup; reflexivity|]).
  split; [|split; [reflexivity|]].
  - intros k Hk. unfold talk_keys in Hk. rewrite !not_elem_of_cons in Hk.
    rewrite talk_params_lookup.
    rewrite !bool_decide_eq_false_2 by tauto. done.
  - intros k Hk. rewrite !not_elem_of_cons in Hk.
    rewrite talk_params_lookup. simpl.
    repeat case_bool_decide; try done; tauto.
Qed.

End TalkParams.

(** A second turn of a conversation: the session id of the first reply
    goes out as [sessionid=7]; the flags that are unset leave no key. *)
Lemma TalkDebug_parameters_witness :
  let params := talk_params "hello" "" 7 true "" "" false false false false in
  params !! "input" = Some "hello"
  ∧ params !! "sessionid" = Some "7"
  ∧ params !! "recent" = Some "true"
  ∧ params !! "client_name" = None
  ∧ params !! "trace" = None.
Proof.
  intros params.
  pose proof (TalkDebug_parameters Std.std (Std.client 200 "") "bot1" "hello" "" 7 true "" ""
                false false false false Std.quiet)
    as (_ & Hinput & Hclient & _ & _ & Hsession & Hrecent & _ & _ & Htrace & _).
  repeat split; assumption.
Defined.

(** ** The request path *)

Section RequestPath.

Context (go : GoLib).

Import Go.

(** [do] when the request cannot be built: nothing happens. *)
Lemma do_no_request {T} (cl : Client) (method rawurl : string)
    (params : gmap string string) (body : option (list byte)) (result : Dest T)
    (w : World) (e : error) :
  http_NewRequest go method (rawurl +:+ "?" +:+ Values_Encode (query_values cl params)) body
    = inl e →
  do go cl method rawurl params body result w = (Some e, result, w).
Proof. intros Hreq. unfold do. by rewrite Hreq. Qed.

(** [do] when the HTTP client reports an error. *)
Lemma do_transport_error {T} (cl : Client) (method rawurl : string)
    (params : gmap string string) (body : option (list byte)) (result : Dest T)
    (w : World) (req : Request) (e : error) :
  http_NewRequest go method (rawurl +:+ "?" +:+ Values_Encode (query_values cl params)) body
    = inr req →
  c cl req = inl e →
  do go cl method rawurl params body result w
  = (Some e, result, {| history := sent go cl req w; stream := None |}).
Proof.
  intros Hreq Hresp. run_do. rewrite Hreq. unfold sent, logged.
  destruct (tracelog cl) as [tl|], (httputil_DumpRequestOut go req) as [out|]; simpl;
    rewrite !Hresp; simpl; by rewrite <- ?app_assoc.
Qed.

(** [do] when a response arrives, in closed form. *)
Lemma do_response {T} (cl : Client) (method rawurl : string)
    (params : gmap string string) (body : option (list byte)) (result : Dest T)
    (w : World) (req : Request) (resp : Response) :
  http_NewRequest go method (rawurl +:+ "?" +:+ Values_Encode (query_values cl params)) body
    = inr req →
  c cl req = inr resp →
  do go cl method rawurl params body result w =
  let code := StatusCode resp in
  let p := Payload resp in
  if (code <? 200)%Z || (300 <=? code)%Z then
    (Some (errors_New (status_message go code)), result,
     {| history := sent go cl req w ++
          match errorlog cl with
          | Some l => logged (Some l) (httputil_DumpResponse go code p)
                        ++ [Printf l (status_message go code) []]
          | None => []
          end;
        stream := Some {| unread := match errorlog cl with Some _ => [] | None => p end;
                          closed := true |} |})
  else
    let dumped := match tracelog cl with
                  | Some l => logged (Some l) (httputil_DumpResponse go code p)
                  | None => []
                  end in
    let left rest := match tracelog cl with Some _ => [] | None => rest end in
    match result with
    | Nil =>
        (None, Nil,
         {| history := sent go cl req w ++ dumped;
            stream := Some {| unread := left p; closed := true |} |})
    | ToWriter wr =>
        (if (length p <=? length (taken wr p))%nat then None
         else Some (foreign io_pkg "short write"),
         ToWriter wr,
         {| history := sent go cl req w ++ dumped ++ [Copy wr (taken wr p)];
            stream := Some {| unread := left (drop (length (taken wr p)) p);
                              closed := true |} |})
    | ToValue decode v =>
        (foreign encoding_json <$> dec_err (decode p v),
         ToValue decode (dec_val (decode p v)),
         {| history := sent go cl req w ++ dumped ++ [Decode p];
            stream := Some {| unread := left (drop (dec_read (decode p v)) p);
                              closed := true |} |})
    end.
Proof.
  intros Hreq Hresp. run_do. rewrite Hreq. unfold sent, logged, taken.
  destruct (tracelog cl) as [tl|], (httputil_DumpRequestOut go req) as [out|]; simpl;
    rewrite !Hresp; simpl;
    destruct ((StatusCode resp <? 200)%Z || (300 <=? StatusCode resp)%Z); simpl;
    try (destruct (errorlog cl) as [el|]; simpl;
         try destruct (httputil_DumpResponse go (StatusCode resp) (Payload resp)); simpl;
         by rewrite ?drop_all, <- ?app_assoc, ?app_nil_r).
  all: try destruct (httputil_DumpResponse go (StatusCode resp) (Payload resp)); simpl.
  all: destruct result as [|wr|decode v]; simpl;
    rewrite ?drop_all, <- ?app_assoc, ?app_nil_r; simpl; try done.
Qed.


(** *** Requests and decodings along a run *)

Lemma requests_logged (l : option Logger) (out : option string) :
  omap (λ ev, match ev with Do req => Some req | _ => None end) (logged l out) = [].
Proof. by destruct l, out. Qed.

Lemma decodings_logged (l : option Logger) (out : option string) :
  filter is_decoding (logged l out) = [].
Proof. by destruct l, out. Qed.

Lemma requests_sent (cl : Client) (req : Request) (w : World) (evs : list event) :
  omap (λ ev, match ev with Do req => Some req | _ => None end) (sent go cl req w ++ evs)
  = requests w ++ [req]
      ++ omap (λ ev, match ev with Do req => Some req | _ => None end) evs.
Proof.
  unfold sent, requests. rewrite !omap_app, requests_logged. simpl.
  by rewrite <- app_assoc.
Qed.

Lemma decodings_sent (cl : Client) (req : Request) (w : World) (evs : list event) :
  filter is_decoding (sent go cl req w ++ evs) = decodings w ++ filter is_decoding evs.
Proof.
  unfold sent, decodings. rewrite !filter_app, decodings_logged. simpl.
  by rewrite app_nil_r.
Qed.

(** A request is on record after [do] exactly when it could be built,
    and it is the one that was built. *)
Lemma do_issued {T} (cl : Client) (method rawurl : string)
    (params : gmap string string) (body : option (list byte)) (result : Dest T)
    (w : World) (req0 : Request) :
  requests (do go cl method rawurl params body result w).2 = requests w ++ [req0] →
  http_NewRequest go method (rawurl +:+ "?" +:+ Values_Encode (query_values cl params)) body
    = inr req0.
Proof.
  destruct (http_NewRequest go method _ body) as [e|req] eqn:Hreq.
  - rewrite (do_no_request _ _ _ _ _ _ _ _ Hreq). simpl. intros H.
    apply (f_equal length) in H. rewrite length_app in H. simpl in H. lia.
  - assert (requests (do go cl method rawurl params body result w).2 = requests w ++ [req])
      as ->; [|intros H; apply app_inv_head in H; congruence].
    destruct (c cl req) as [e|resp] eqn:Hresp.
    + rewrite (do_transport_error _ _ _ _ _ _ _ _ _ Hreq Hresp). unfold requests at 1. simpl.
      rewrite <- (app_nil_r (sent go cl req w)), requests_sent. done.
    + rewrite (do_response _ _ _ _ _ _ _ _ _ Hreq Hresp). cbv zeta.
      destruct ((StatusCode resp <? 200)%Z || (300 <=? StatusCode resp)%Z);
        [|destruct result as [|wr|decode v]]; unfold requests at 1; simpl;
        rewrite requests_sent; f_equal;
        destruct (errorlog cl), (tracelog cl),
          (httputil_DumpResponse go (StatusCode resp) (Payload resp)); done.
Qed.

(** Every operation is one call of [do] with the arguments of the
    table, unless it is a file operation whose file name has no URL. *)
Lemma perform_funnel (op : Operation) (cl : Client) (w : World) :
  match (op_target cl op).2 with
  | Some e => perform go op cl w = (Some e, w)
  | None =>
      ∃ (T : Type) (result : Dest T),
        ∀ w0, perform go op cl w0 =
          let '(err, _, w') := do go cl (op_method op) (op_target cl op).1 (op_params op)
                                  (op_body op) result w0 in
          (err, w')
  end.
Proof.
  destruct op as [|name|name|name|name zip|name filename data|name filename
                 |name filename out|name|name input clientName sessionId recent
                 |name input clientName sessionId recent that topic extra reset trace reload];
    simpl; unfold UploadFile, DeleteFile, GetFile;
    try (destruct (fileToUrl cl name filename) as [rawurl [e|]]; simpl; [done|]).
  all: eexists _, _.
  all: intros w0; unfold List, CreateBot, DeleteBot, ListFiles, DownloadFiles, Verify,
         Talk, TalkDebug, fmap, M_fmap; run.
  all: match goal with |- context [do ?g ?c ?m ?u ?p ?b ?r ?w] =>
         by destruct (do g c m u p b r w) as [[? ?] ?] end.
Qed.


Lemma no_request_no_growth (w : World) (req : Request) :
  requests w ≠ requests w ++ [req].
Proof.
  intros H. apply (f_equal length) in H. rewrite length_app in H. simpl in H. lia.
Qed.

Lemma status_outside (code : Z) :
  (code < 200 ∨ 300 ≤ code)%Z → (code <? 200)%Z || (300 <=? code)%Z = true.
Proof. intros [H|H]; apply orb_true_iff; [left | right]; lia. Qed.

Lemma status_inside (code : Z) :
  (200 ≤ code < 300)%Z → (code <? 200)%Z || (300 <=? code)%Z = false.
Proof. intros H. apply orb_false_iff. split; lia. Qed.

(** The status check of [do] itself, for any caller. *)
Lemma do_status {T} (cl : Client) (method rawurl : string)
    (params : gmap string string) (body : option (list byte)) (result : Dest T)
    (w : World) (req : Request) (resp : Response) :
  requests (do go cl method rawurl params body result w).2 = requests w ++ [req] →
  c cl req = inr resp →
  let '(err, result', w') := do go cl method rawurl params body result w in
  let code := StatusCode resp in
  ((code < 200 ∨ 300 ≤ code)%Z →
     err = Some (errors_New (status_message go code))
     ∧ result' = result
     ∧ decodings w' = decodings w)
  ∧ ((200 ≤ code < 300)%Z → ∀ msg, err ≠ Some (errors_New msg)).
Proof.
  intros Hreqs Hresp.
  rewrite (do_response _ _ _ _ _ _ _ _ _ (do_issued _ _ _ _ _ _ _ _ Hreqs) Hresp).
  cbv zeta.
  destruct ((StatusCode resp <? 200)%Z || (300 <=? StatusCode resp)%Z) eqn:Hcond.
  - split; [intros _ | intros Hcode; by rewrite status_inside in Hcond].
    split; [done|]. split; [done|].
    unfold decodings at 1. cbn [history]. rewrite decodings_sent.
    destruct (errorlog cl); rewrite ?filter_app, ?decodings_logged, ?app_nil_r; done.
  - destruct result as [|wr|decode v];
      (split; [intros Hcode; by rewrite status_outside in Hcond | intros _ msg]);
      try done.
    + by destruct (_ <=? _)%nat.
    + by destruct (dec_err _).
Qed.

(** C1. An operation that issued a request and got a response whose
    status code is outside 200..299 returns an error whose message
    holds the code and [http.StatusText] of it, and makes no copy into
    a writer and no run of the JSON decoder; with a code inside
    200..299 the error it returns, if any, is not one this package
    creates (it comes from the copy or from the decoder). *)
Theorem status_outside_2xx_is_an_error (op : Operation) (cl : Client) (w : World)
    (req : Request) (resp : Response) :
  let '(err, w') := perform go op cl w in
  let code := StatusCode resp in
  requests w' = requests w ++ [req] →
  c cl req = inr resp →
  ((code < 200 ∨ 300 ≤ code)%Z →
     err = Some (errors_New ("Unexpected status code: " +:+ strconv_Itoa code
                               +:+ " (" +:+ http_StatusText go code +:+ ")"))
     ∧ decodings w' = decodings w)
  ∧ ((200 ≤ code < 300)%Z → ∀ msg, err ≠ Some (errors_New msg)).
Proof.
  pose proof (perform_funnel op cl w) as Hf.
  destruct (op_target cl op).2 as [e|].
  - rewrite Hf. cbv zeta. intros Hreqs. by apply no_request_no_growth in Hreqs.
  - destruct Hf as (T & result & Hf). rewrite Hf.
    pose proof (do_status cl (op_method op) (op_target cl op).1 (op_params op) (op_body op)
                  result w req resp) as Hdo.
    destruct (do go cl _ _ _ _ result w) as [[err result'] w'].
    cbv zeta in *. simpl in Hdo. intros Hreqs Hresp.
    destruct (Hdo Hreqs Hresp) as [Hbad Hgood].
    split; [|done]. intros Hcode. by destruct (Hbad Hcode) as (-> & _ & ->).
Qed.

(** C9 (as amended). After an operation that issued a request and got a
    response, the body of the response is closed, whatever the status
    and whether or not decoding succeeded. It has been read to the end
    when it was dumped to a log: the error log on a status outside
    200..299, the trace log otherwise. *)
Theorem response_body_closed (op : Operation) (cl : Client) (w : World)
    (req : Request) (resp : Response) :
  let '(err, w') := perform go op cl w in
  let code := StatusCode resp in
  requests w' = requests w ++ [req] →
  c cl req = inr resp →
  ∃ s, stream w' = Some s
       ∧ closed s = true
       ∧ ((code < 200 ∨ 300 ≤ code)%Z → errorlog cl ≠ None → unread s = [])
       ∧ ((200 ≤ code < 300)%Z → tracelog cl ≠ None → unread s = []).
Proof.
  pose proof (perform_funnel op cl w) as Hf.
  destruct (op_target cl op).2 as [e|].
  - rewrite Hf. cbv zeta. intros Hreqs. by apply no_request_no_growth in Hreqs.
  - destruct Hf as (T & result & Hf). rewrite Hf.
    destruct (do go cl _ _ _ _ result w) as [[err result'] w'] eqn:Hdo.
    cbv zeta. intros Hreqs Hresp.
    assert (requests (do go cl (op_method op) (op_target cl op).1 (op_params op) (op_body op)
                        result w).2 = requests w ++ [req]) as Hreqs' by by rewrite Hdo.
    rewrite (do_response _ _ _ _ _ _ _ _ _ (do_issued _ _ _ _ _ _ _ _ Hreqs') Hresp) in Hdo.
    cbv zeta in Hdo.
    destruct ((StatusCode resp <? 200)%Z || (300 <=? StatusCode resp)%Z) eqn:Hcode;
      [|destruct result as [|wr|decode v]]; injection Hdo as <- <- <-; simpl;
      eexists; (split; [done|]); simpl; (split; [done|]);
      (split; intros Hc Hlog;
         [try (rewrite status_outside in Hcode by done; discriminate)
         |try (rewrite status_inside in Hcode by done; discriminate)]).
    all: try by destruct (errorlog cl).
    all: by destruct (tracelog cl).
Qed.


(** C5. On a status inside 200..299, a writer receives the body of the
    response, in one copy and byte for byte as long as it has room, and
    then no error is returned; any other destination is handed to the
    JSON decoder, which runs over the body: the value it leaves is the
    result, and the error it reports, if any, is the error returned. *)
Theorem do_delivers_result {T} (cl : Client) (method rawurl : string)
    (params : gmap string string) (body : option (list byte)) (result : Dest T)
    (w : World) (req : Request) (resp : Response) :
  http_NewRequest go method (rawurl +:+ "?" +:+ Values_Encode (query_values cl params)) body
    = inr req →
  c cl req = inr resp →
  (200 ≤ StatusCode resp < 300)%Z →
  let '(err, result', w') := do go cl method rawurl params body result w in
  let p := Payload resp in
  match result with
  | Nil => err = None ∧ decodings w' = decodings w
  | ToWriter wr =>
      decodings w' = decodings w ++ [Copy wr (taken wr p)]
      ∧ (match room wr with Some n => (length p ≤ n)%nat | None => True end →
         taken wr p = p ∧ err = None)
  | ToValue decode v =>
      decodings w' = decodings w ++ [Decode p]
      ∧ result' = ToValue decode (dec_val (decode p v))
      ∧ err = foreign encoding_json <$> dec_err (decode p v)
      ∧ (∀ msg, dec_err (decode p v) = Some msg → err = Some (foreign encoding_json msg))
  end.
Proof.
  intros Hreq Hresp Hcode. rewrite (do_response _ _ _ _ _ _ _ _ _ Hreq Hresp).
  cbv zeta. rewrite status_inside by done.
  assert (∀ evs, filter is_decoding
                   (match tracelog cl with
                    | Some l => logged (Some l)
                                  (httputil_DumpResponse go (StatusCode resp) (Payload resp))
                    | None => []
                    end ++ evs) = filter is_decoding evs) as Hdump.
  { intros evs. destruct (tracelog cl); [|done].
    by rewrite filter_app, decodings_logged. }
  destruct result as [|wr|decode v]; unfold decodings at 1; cbn [history];
    rewrite decodings_sent.
  - split; [done|]. specialize (Hdump []). rewrite app_nil_r in Hdump.
    rewrite Hdump. simpl. by rewrite app_nil_r.
  - rewrite Hdump. split; [done|]. unfold taken.
    destruct (room wr) as [n|]; intros Hroom.
    + rewrite take_ge by done. split; [done|]. by rewrite Nat.leb_refl.
    + split; [done|]. by rewrite Nat.leb_refl.
  - rewrite Hdump. repeat split. by intros msg ->.
Qed.

(** *** The query values *)

Lemma query_values_lookup (cl : Client) (params : gmap string string) (k : string) :
  params !! "user_key" = None →
  query_values cl params !! k
  = if bool_decide (k = "user_key") then Some [userKey cl] else (λ v, [v]) <$> params !! k.
Proof.
  unfold query_values. revert k.
  apply (map_fold_weak_ind
           (λ (acc : Values) (m : gmap string string),
              ∀ k, m !! "user_key" = None →
                   acc !! k = if bool_decide (k = "user_key") then Some [userKey cl]
                              else (λ v, [v]) <$> m !! k)).
  - intros k _. unfold Values_Set. rewrite lookup_empty.
    case_bool_decide as Hk; [subst; apply lookup_insert_eq|].
    rewrite lookup_insert_ne by done. apply lookup_empty.
  - intros i x m acc Hi IH k Hkey.
    assert (i ≠ "user_key") as Hne.
    { intros ->. by rewrite lookup_insert_eq in Hkey. }
    rewrite lookup_insert_ne in Hkey by done.
    unfold Values_Add. rewrite (IH i Hkey), bool_decide_eq_false_2, Hi by done. simpl.
    destruct (decide (i = k)) as [->|Hik].
    + rewrite !lookup_insert_eq, bool_decide_eq_false_2 by done. done.
    + rewrite !lookup_insert_ne by done. apply IH, Hkey.
Qed.

(** No operation has a parameter named [user_key]. *)
Lemma op_params_no_user_key (op : Operation) : op_params op !! "user_key" = None.
Proof.
  destruct op; cbn [op_params]; try apply lookup_empty;
    try (rewrite talk_params_lookup; reflexivity).
  by apply lookup_singleton_ne.
Qed.

(** C3. The request an operation issues goes to the URL of the
    operation followed by a question mark and the encoded query values,
    and these hold [user_key] with the user key of the client as its
    one value and every parameter of the operation with its value, and
    nothing else; each of these pairs stands, escaped, in the encoded
    string. No operation has a parameter named [user_key]. The URL of
    the operation is put in front as it is: when it has no question
    mark and no hash, the query string of the request is the encoded
    string, with the user key and every parameter in it. *)
Theorem request_carries_user_key (op : Operation) (cl : Client) (w : World) (req : Request) :
  let '(err, w') := perform go op cl w in
  let values := query_values cl (op_params op) in
  requests w' = requests w ++ [req] →
  op_params op !! "user_key" = None
  ∧ Method req = op_method op
  ∧ RequestURL req = (op_target cl op).1 +:+ "?" +:+ Values_Encode values
  ∧ values !! "user_key" = Some [userKey cl]
  ∧ (∀ k v, op_params op !! k = Some v → values !! k = Some [v])
  ∧ (∀ k, k ≠ "user_key" → op_params op !! k = None → values !! k = None)
  ∧ has_pair (Values_Encode values) "user_key" (userKey cl)
  ∧ (∀ k v, op_params op !! k = Some v → has_pair (Values_Encode values) k v)
  ∧ (query_free (op_target cl op).1 = true →
     url_RawQuery (RequestURL req) = Values_Encode values
     ∧ has_pair (url_RawQuery (RequestURL req)) "user_key" (userKey cl)
     ∧ (∀ k v, op_params op !! k = Some v → has_pair (url_RawQuery (RequestURL req)) k v)).
Proof.
  pose proof (perform_funnel op cl w) as Hf.
  pose proof (op_params_no_user_key op) as Hkey.
  destruct (op_target cl op).2 as [e|].
  - rewrite Hf. cbv zeta. intros Hreqs. by apply no_request_no_growth in Hreqs.
  - destruct Hf as (T & result & Hf). rewrite Hf.
    destruct (do go cl _ _ _ _ result w) as [[err result'] w'] eqn:Hdo.
    cbv zeta. intros Hreqs.
    assert (requests (do go cl (op_method op) (op_target cl op).1 (op_params op) (op_body op)
                        result w).2 = requests w ++ [req]) as Hreqs' by by rewrite Hdo.
    apply do_issued in Hreqs'. unfold http_NewRequest in Hreqs'.
    destruct (url_Parse go _); [done|]. injection Hreqs' as <-. simpl.
    split; [done|]. split; [done|]. split; [done|].
    assert (∀ k v, op_params op !! k = Some v →
                   query_values cl (op_params op) !! k = Some [v]) as Hparams.
    { intros k v Hk. rewrite query_values_lookup by done.
      rewrite bool_decide_eq_false_2 by congruence. by rewrite Hk. }
    assert (has_pair (Values_Encode (query_values cl (op_params op))) "user_key" (userKey cl))
      as Hpair by (apply Encode_has_pair; by rewrite query_values_lookup).
    split; [|split; [|split; [|split; [|split]]]].
    + by rewrite query_values_lookup.
    + exact Hparams.
    + intros k Hne Hk. rewrite query_values_lookup by done.
      rewrite bool_decide_eq_false_2 by done. by rewrite Hk.
    + exact Hpair.
    + intros k v Hk. by apply Encode_has_pair, Hparams.
    + intros Hfree. rewrite RawQuery_of_target by done.
      split; [done|]. split; [exact Hpair|].
      intros k v Hk. by apply Encode_has_pair, Hparams.
Qed.

End RequestPath.

(** ** The reply of the talk endpoint *)

Section TalkReply.

Context (go : GoLib).

Import Go.

(** C10. [TalkDebug], and [Talk] which calls it, return a reply that is
    not nil in every case, next to the error. The reply is the zero
    value when the request could not be built, when the HTTP client
    failed and when the status was outside 200..299, each time with an
    error; after a response with a status inside 200..299 it is what the
    JSON decoder left, with the decoder's error if it reported one. *)
Theorem TalkDebug_reply_not_nil (cl : Client) (name input clientName : string)
    (sessionId : Z) (recent : bool) (that topic : string) (extra reset trace reload : bool)
    (w : World) :
  let '(reply, err, w') :=
    TalkDebug go cl name input clientName sessionId recent that topic
      extra reset trace reload w in
  let params := talk_params input clientName sessionId recent that topic
                  extra reset trace reload in
  let target := botUrl cl talk name +:+ "?" +:+ Values_Encode (query_values cl params) in
  reply ≠ None
  ∧ Talk go cl name input clientName sessionId recent
    = TalkDebug go cl name input clientName sessionId recent "" "" false false false false
  ∧ (∀ msg, url_Parse go target = inl msg →
        reply = Some zero_Reply ∧ err = Some (foreign net_url msg))
  ∧ (∀ req e, http_NewRequest go "POST" target None = inr req → c cl req = inl e →
        reply = Some zero_Reply ∧ err = Some e)
  ∧ (∀ req resp, http_NewRequest go "POST" target None = inr req → c cl req = inr resp →
        (StatusCode resp < 200 ∨ 300 ≤ StatusCode resp)%Z →
        reply = Some zero_Reply
        ∧ err = Some (errors_New (status_message go (StatusCode resp))))
  ∧ (∀ req resp, http_NewRequest go "POST" target None = inr req → c cl req = inr resp →
        (200 ≤ StatusCode resp < 300)%Z →
        let r := json_Reply go (Payload resp) zero_Reply in
        reply = Some (dec_val r) ∧ err = foreign encoding_json <$> dec_err r).
Proof.
  unfold TalkDebug. run.
  set (params := talk_params input clientName sessionId recent that topic
                   extra reset trace reload).
  destruct (do go cl "POST" (botUrl cl talk name) params None
              (ToValue (json_Reply go) zero_Reply) w) as [[err reply] w'] eqn:Hdo.
  split; [done|]. split; [done|]. split; [|split; [|split]].
  - intros msg Hparse.
    rewrite do_no_request with (e := foreign net_url msg) in Hdo.
    + by injection Hdo as <- <- <-.
    + unfold http_NewRequest. by rewrite Hparse.
  - intros req e Hreq Hresp.
    rewrite (do_transport_error go _ _ _ _ _ _ _ _ _ Hreq Hresp) in Hdo.
    by injection Hdo as <- <- <-.
  - intros req resp Hreq Hresp Hcode.
    rewrite (do_response go _ _ _ _ _ _ _ _ _ Hreq Hresp) in Hdo. cbv zeta in Hdo.
    rewrite status_outside in Hdo by done. by injection Hdo as <- <- <-.
  - intros req resp Hreq Hresp Hcode.
    rewrite (do_response go _ _ _ _ _ _ _ _ _ Hreq Hresp) in Hdo. cbv zeta in Hdo.
    rewrite status_inside in Hdo by done. by injection Hdo as <- <- <-.
Qed.

End TalkReply.

(** ** The request path on concrete inputs *)

Section RequestPathExamples.

(** Status 404 (C1): the error carries the code and its text, and nothing
    is decoded. *)
Lemma status_outside_2xx_is_an_error_witness :
  perform Std.std (OpCreateBot "b1") (Std.client 404 "nope") Std.quiet
  = (Some (errors_New "Unexpected status code: 404 (Not Found)"),
     {| history := [Do Std.create_b1];
        stream := Some {| unread := list_byte_of_string "nope"; closed := true |} |})
  ∧ (perform Std.std (OpCreateBot "b1") (Std.client 404 "nope") Std.quiet).1
    = Some (errors_New ("Unexpected status code: " +:+ Go.strconv_Itoa 404
                          +:+ " (" +:+ http_StatusText Std.std 404 +:+ ")")).
Proof.
  assert (perform Std.std (OpCreateBot "b1") (Std.client 404 "nope") Std.quiet
          = (Some (errors_New "Unexpected status code: 404 (Not Found)"),
             {| history := [Do Std.create_b1];
                stream := Some {| unread := list_byte_of_string "nope"; closed := true |} |}))
    as Hrun by reflexivity.
  split; [exact Hrun|].
  pose proof (status_outside_2xx_is_an_error Std.std (OpCreateBot "b1") (Std.client 404 "nope")
                Std.quiet Std.create_b1
                {| StatusCode := 404; Payload := list_byte_of_string "nope" |}) as H.
  rewrite Hrun in H. cbv zeta iota beta in H.
  destruct (H eq_refl eq_refl) as [Hbad _].
  rewrite Hrun. apply Hbad. right. simpl. lia.
Defined.

(** The body of that response is closed (C9). *)
Lemma response_body_closed_witness :
  ∃ s, stream (perform Std.std (OpCreateBot "b1") (Std.client 404 "nope") Std.quiet).2 = Some s
       ∧ closed s = true.
Proof.
  pose proof (response_body_closed Std.std (OpCreateBot "b1") (Std.client 404 "nope")
                Std.quiet Std.create_b1
                {| StatusCode := 404; Payload := list_byte_of_string "nope" |}) as H.
  destruct (perform Std.std (OpCreateBot "b1") (Std.client 404 "nope") Std.quiet)
    as [err w'] eqn:Hrun.
  cbv zeta in H.
  destruct H as (s & Hs & Hclosed & _).
  - by injection Hrun as <- <-.
  - reflexivity.
  - by exists s.
Defined.

(** With no log configured nobody reads the body: after a 404, and
    after a 200 that has no destination, it is closed with all its
    bytes unread. *)
Lemma body_closed_unread :
  stream (perform Std.std (OpCreateBot "b1") (Std.client 404 "nope") Std.quiet).2
  = Some {| unread := list_byte_of_string "nope"; closed := true |}
  ∧ stream (perform Std.std (OpCreateBot "b1") (Std.client 200 "done") Std.quiet).2
    = Some {| unread := list_byte_of_string "done"; closed := true |}
  ∧ list_byte_of_string "nope" ≠ [] ∧ list_byte_of_string "done" ≠ [].
Proof. repeat split; discriminate. Qed.

(** The request of a talk turn (C3): the user key and the parameters,
    in the string handed to [http.NewRequest] and in the query string
    of the request. *)
Lemma request_carries_user_key_witness :
  let op := OpTalk "b1" "hello you" "me" 7 false in
  let req := {| Method := "POST";
                RequestURL := "http://host/talk/app/b1?client_name=me&input=hello+you&sessionid=7&user_key=key";
                RequestBody := None |} in
  requests (perform Std.std op (Std.client 200 Std.reply_json) Std.quiet).2 = [req]
  ∧ RequestURL req
    = "http://host/talk/app/b1" +:+ "?"
        +:+ Go.Values_Encode (query_values (Std.client 200 Std.reply_json) (op_params op))
  ∧ query_values (Std.client 200 Std.reply_json) (op_params op) !! "user_key" = Some ["key"]
  ∧ url_RawQuery (RequestURL req)
    = Go.Values_Encode (query_values (Std.client 200 Std.reply_json) (op_params op))
  ∧ has_pair (url_RawQuery (RequestURL req)) "user_key" "key".
Proof.
  intros op req.
  pose proof (request_carries_user_key Std.std op (Std.client 200 Std.reply_json)
                Std.quiet req) as H.
  destruct (perform Std.std op (Std.client 200 Std.reply_json) Std.quiet)
    as [err w'] eqn:Hrun.
  cbv zeta in H.
  assert (requests w' = [req]) as Hreqs.
  { vm_compute in Hrun. by injection Hrun as <- <-. }
  destruct (H Hreqs) as (_ & _ & Hurl & Hkey & _ & _ & _ & _ & Hquery).
  destruct (Hquery eq_refl) as (Hraw & Hpair & _).
  split; [exact Hreqs|]. split; [exact Hurl|]. split; [exact Hkey|].
  split; [exact Hraw | exact Hpair].
Defined.

(** A bot name is put into the URL as it is. With a hash in it the
    query string of the request is empty, and the user key is nowhere
    in it; with a question mark in it the query string starts in the
    name, and here it gives [user_key] another value first. *)
Lemma unescaped_name_breaks_query :
  (∃ req, requests (perform Std.std (OpCreateBot "a#b") (Std.client 200 "") Std.quiet).2
          = [req]
          ∧ RequestURL req = "http://host/bot/app/a#b?user_key=key"
          ∧ url_RawQuery (RequestURL req) = ""
          ∧ ¬ has_pair (url_RawQuery (RequestURL req)) "user_key"
                (userKey (Std.client 200 "")))
  ∧ (∃ req, requests (perform Std.std (OpCreateBot "x?user_key=other&y=") (Std.client 200 "")
                        Std.quiet).2 = [req]
            ∧ url_RawQuery (RequestURL req) = "user_key=other&y=?user_key=key"
            ∧ has_pair (url_RawQuery (RequestURL req)) "user_key" "other"
            ∧ "other" ≠ userKey (Std.client 200 "")).
Proof.
  split.
  - eexists. split; [reflexivity|]. split; [reflexivity|]. split; [reflexivity|].
    intros (pre & post & H & _). destruct pre; vm_compute in H; discriminate.
  - eexists. split; [reflexivity|]. split; [reflexivity|]. split; [|discriminate].
    exists "", "&y=?user_key=key". split; [reflexivity|]. split; [by left|].
    right. by eexists.
Qed.

(** A reply is decoded, a malformed body gives the decoder's error (C5). *)
Lemma do_delivers_result_witness :
  let params : gmap string string := {["input" := "hi"]} in
  let dest := ToValue (json_Reply Std.std) zero_Reply in
  (do Std.std (Std.client 200 Std.reply_json) "POST" "http://host/talk/app/b1" params None
      dest Std.quiet).1
  = (None, ToValue (json_Reply Std.std) {| SessionId := 7; Responses := ["hi"] |})
  ∧ (do Std.std (Std.client 200 "<html>") "POST" "http://host/talk/app/b1" params None
       dest Std.quiet).1.1
    = Some (foreign encoding_json "invalid character looking for beginning of value").
Proof.
  intros params dest.
  pose proof (do_delivers_result Std.std (Std.client 200 Std.reply_json) "POST"
                "http://host/talk/app/b1" params None dest Std.quiet Std.talk_hi
                {| StatusCode := 200; Payload := list_byte_of_string Std.reply_json |}
                eq_refl eq_refl ltac:(simpl; lia)) as Hok.
  pose proof (do_delivers_result Std.std (Std.client 200 "<html>") "POST"
                "http://host/talk/app/b1" params None dest Std.quiet Std.talk_hi
                {| StatusCode := 200; Payload := list_byte_of_string "<html>" |}
                eq_refl eq_refl ltac:(simpl; lia)) as Hbad.
  destruct (do Std.std (Std.client 200 Std.reply_json) _ _ _ _ dest _) as [[err r] w1].
  destruct (do Std.std (Std.client 200 "<html>") _ _ _ _ dest _) as [[err' r'] w2].
  cbv zeta in Hok, Hbad. unfold dest in Hok, Hbad.
  destruct Hok as (_ & -> & -> & _). destruct Hbad as (_ & _ & _ & Hmsg).
  split; [reflexivity|]. simpl. apply Hmsg. reflexivity.
Defined.

(** A writer with room receives the body as it is (C5). *)
Lemma GetFile_copies_body :
  perform Std.std (OpGetFile "b1" "rules.aiml" (Some {| sink := "out"; room := None |}))
    (Std.client 200 "<aiml/>") Std.quiet
  = (None,
     {| history :=
          [Do {| Method := "GET";
                 RequestURL := "http://host/bot/app/b1/file/rules.aiml?user_key=key";
                 RequestBody := None |};
           Copy {| sink := "out"; room := None |} (list_byte_of_string "<aiml/>")];
        stream := Some {| unread := []; closed := true |} |}).
Proof. reflexivity. Qed.

(** A 404 on a talk turn (C10): the reply is there, zero-valued, next
    to the error. *)
Lemma TalkDebug_reply_not_nil_witness :
  (Talk Std.std (Std.client 404 "nope") "b1" "hi" "" 0 false Std.quiet).1
  = (Some zero_Reply, Some (errors_New "Unexpected status code: 404 (Not Found)")).
Proof.
  pose proof (TalkDebug_reply_not_nil Std.std (Std.client 404 "nope") "b1" "hi" "" 0 false
                "" "" false false false false Std.quiet) as H.
  change (Talk Std.std (Std.client 404 "nope") "b1" "hi" "" 0 false Std.quiet)
    with (TalkDebug Std.std (Std.client 404 "nope") "b1" "hi" "" 0 false
            "" "" false false false false Std.quiet).
  destruct (TalkDebug Std.std _ _ _ _ _ _ _ _ _ _ _ _ _) as [[reply err] w'].
  cbv zeta in H. destruct H as (_ & _ & _ & _ & Hbad & _).
  destruct (Hbad Std.talk_hi {| StatusCode := 404; Payload := list_byte_of_string "nope" |}
              eq_refl eq_refl) as [-> ->]; [right; simpl; lia | reflexivity].
Defined.

End RequestPathExamples.

(** ** What construction leaves behind *)

Section Configured.

Context (go : GoLib).

Import Go.

Lemma foldl_errorlog (settings : list Setting) (cl : Client) :
  errorlog (foldl (apply_setting go) cl settings)
  = foldl (λ acc s, match s with ErrorLog l => l | _ => acc end) (errorlog cl) settings.
Proof.
  revert cl. induction settings as [|s settings IH]; intros cl; [done|].
  simpl. rewrite IH. by destruct s.
Qed.

Lemma foldl_tracelog (settings : list Setting) (cl : Client) :
  tracelog (foldl (apply_setting go) cl settings)
  = foldl (λ acc s, match s with TraceLog l => l | _ => acc end) (tracelog cl) settings.
Proof.
  revert cl. induction settings as [|s settings IH]; intros cl; [done|].
  simpl. rewrite IH. by destruct s.
Qed.

Lemma foldl_transport (settings : list Setting) (cl : Client) :
  c (foldl (apply_setting go) cl settings)
  = foldl (λ acc s, match s with
                    | Transport h => default (http_DefaultClient go) h
                    | _ => acc
                    end) (c cl) settings.
Proof.
  revert cl. induction settings as [|s settings IH]; intros cl; [done|].
  simpl. rewrite IH. by destruct s.
Qed.

(** [New], whole, once its options have run without error. *)
Lemma New_run (options : list OptionFunc) (cl : Client) (w w1 : World) :
  run_options options (blank go) w = (cl, None, w1) →
  New go options w =
  if bool_decide (appId cl = "") || bool_decide (userKey cl = "") then
    (inl ErrNoCred,
     {| history := history w1 ++ lines (errorlog cl) (Error_ ErrNoCred) [];
        stream := stream w1 |})
  else
    (inr (with_url (normal_url (url cl)) cl),
     {| history := history w1
                     ++ lines (tracelog cl) ("Using URL [%s]" +:+ LF) [normal_url (url cl)];
        stream := stream w1 |}).
Proof.
  intros Hrun. unfold New. fold (blank go). run. rewrite Hrun.
  destruct (bool_decide (appId cl = "") || bool_decide (userKey cl = "")).
  - unfold errorf, lines, emit. destruct (errorlog cl); simpl; [done|].
    rewrite app_nil_r. by destruct w1.
  - unfold tracef, normal_url, lines, emit.
    destruct cl as [a k u el tl h]. simpl.
    destruct (bool_decide (u = "")); simpl;
      try match goal with |- context [strings_HasSuffix ?x "/"] =>
            destruct (strings_HasSuffix x "/") end; simpl;
      destruct tl; simpl; rewrite ?app_nil_r; try done; by destruct w1.
Qed.


Lemma New_stops_at (pre post : list OptionFunc) (o : OptionFunc)
    (cl1 cl2 : Client) (w w1 w2 : World) (e : error) :
  run_options pre (blank go) w = (cl1, None, w1) →
  o cl1 w1 = (cl2, Some e, w2) →
  New go (pre ++ o :: post) w = (inl e, w2).
Proof.
  intros Hpre Ho. unfold New. fold (blank go). run.
  rewrite run_options_app, Hpre. simpl. run. by rewrite Ho.
Qed.

Lemma no_url_acceptable (settings : list Setting) :
  forallb (λ s, negb (sets_url s)) settings = true →
  urls_acceptable go settings = true ∧ final_url settings = "".
Proof.
  intros Hno. split.
  - induction settings as [|s settings IH]; [done|].
    simpl in *. apply andb_prop in Hno as [Hs Hno].
    destruct s; try done; simpl; by apply IH.
  - unfold final_url. generalize "" as acc.
    induction settings as [|s settings IH]; intros acc; [done|].
    simpl in *. apply andb_prop in Hno as [Hs Hno].
    destruct s; try done; simpl; by apply IH.
Qed.

(** The client the settings describe, as it comes out of [New]. *)
Lemma configured_fields (settings : list Setting) :
  let cl := foldl (apply_setting go) (blank go) settings in
  appId cl = (final_credentials settings).1
  ∧ userKey cl = (final_credentials settings).2
  ∧ url cl = final_url settings
  ∧ errorlog cl = final_errorlog settings
  ∧ tracelog cl = final_tracelog settings
  ∧ c cl = final_transport go settings.
Proof.
  cbv zeta.
  pose proof (foldl_credentials go settings (blank go)) as Hcred.
  simpl in Hcred. fold (final_credentials settings) in Hcred.
  destruct (final_credentials settings) as [a k]. injection Hcred as -> ->.
  rewrite foldl_url, foldl_errorlog, foldl_tracelog, foldl_transport. done.
Qed.

(** X1. With credentials that are not empty and no base URL among the
    options, [New] succeeds and the client talks to [DefaultURL]. *)
Theorem New_default_url (settings : list Setting) (w : World) :
  forallb (λ s, negb (sets_url s)) settings = true →
  (final_credentials settings).1 ≠ "" →
  (final_credentials settings).2 ≠ "" →
  ∃ cl, (New go (map (option_of go) settings) w).1 = inr cl ∧ url cl = DefaultURL.
Proof.
  intros Hno Ha Hk. destruct (no_url_acceptable settings Hno) as [Hok Hurl].
  rewrite (New_run _ _ w w (run_options_settings go settings (blank go) w Hok)).
  destruct (configured_fields settings) as (-> & -> & -> & _).
  rewrite !bool_decide_eq_false_2 by done. simpl.
  eexists; split; [done|]. simpl. by rewrite Hurl.
Qed.

(** X2. When every base URL among the options is valid and the
    credentials are not empty, [New] returns the client in which every
    field is that of the last option of its kind: the last credentials,
    the last base URL (the default for none or for the empty string, one
    trailing slash cut off), the last error log and trace log, and the
    HTTP client of the last [SetHttpClient], the default client for
    none or for nil. It writes one line, the URL in use, to the trace
    log if there is one, and does nothing else. *)
Theorem New_last_option_wins (settings : list Setting) (w : World) :
  urls_acceptable go settings = true →
  (final_credentials settings).1 ≠ "" →
  (final_credentials settings).2 ≠ "" →
  New go (map (option_of go) settings) w
  = (inr {| appId := (final_credentials settings).1;
            userKey := (final_credentials settings).2;
            url := normal_url (final_url settings);
            errorlog := final_errorlog settings;
            tracelog := final_tracelog settings;
            c := final_transport go settings |},
     {| history := history w
                     ++ lines (final_tracelog settings) ("Using URL [%s]" +:+ LF)
                          [normal_url (final_url settings)];
        stream := stream w |}).
Proof.
  intros Hok Ha Hk.
  rewrite (New_run _ _ w w (run_options_settings go settings (blank go) w Hok)).
  destruct (configured_fields settings) as (Ha' & Hk' & Hu & Hel & Htl & Hc).
  rewrite Ha', Hk', Hu, Htl.
  rewrite !bool_decide_eq_false_2 by done. simpl.
  unfold with_url. by rewrite Ha', Hk', Hel, Htl, Hc.
Qed.

(** X3. When every base URL among the options is valid and the
    application id or the user key is empty, [New] fails with
    [ErrNoCred] and writes its message to the error log of the last
    [SetErrorLog], if there is one; nothing else happens. *)
Theorem New_logs_missing_credentials (settings : list Setting) (w : World) :
  urls_acceptable go settings = true →
  (final_credentials settings).1 = "" ∨ (final_credentials settings).2 = "" →
  New go (map (option_of go) settings) w
  = (inl ErrNoCred,
     {| history := history w
                     ++ lines (final_errorlog settings) "Missing application ID or user key" [];
        stream := stream w |}).
Proof.
  intros Hok Hcred.
  rewrite (New_run _ _ w w (run_options_settings go settings (blank go) w Hok)).
  destruct (configured_fields settings) as (-> & -> & _ & -> & _).
  assert (bool_decide ((final_credentials settings).1 = "")
          || bool_decide ((final_credentials settings).2 = "") = true) as ->; [|done].
  apply orb_true_iff.
  destruct Hcred as [H|H]; [left | right]; by apply bool_decide_eq_true.
Qed.

(** X4. The first base URL that does not pass [SetUrl] ends
    construction: the options after it are not run, and one line about
    that URL goes to the error log that the options before it
    configured, if they configured one. An error log configured later
    receives nothing. The schema message is handed to the logger as the
    format string itself. *)
Theorem New_reports_first_invalid_url (pre post : list Setting) (rawurl : string)
    (w : World) :
  urls_acceptable go pre = true →
  acceptable go rawurl = false →
  New go (map (option_of go) (pre ++ BaseUrl rawurl :: post)) w
  = match url_Parse go (effective rawurl) with
    | inl msg =>
        (inl (foreign net_url msg),
         {| history := history w
                         ++ lines (final_errorlog pre) ("Invalid URL [%s] - %v" +:+ LF)
                              [effective rawurl; msg];
            stream := stream w |})
    | inr _ =>
        (inl (errors_New ("Invalid schema specified [" +:+ effective rawurl +:+ "]")),
         {| history := history w
                         ++ lines (final_errorlog pre)
                              ("Invalid schema specified [" +:+ effective rawurl +:+ "]") [];
            stream := stream w |})
    end.
Proof.
  intros Hpre Hbad. rewrite map_app. simpl.
  set (cl1 := foldl (apply_setting go) (blank go) pre).
  assert (errorlog cl1 = final_errorlog pre) as Hel
    by apply (configured_fields pre).
  unfold acceptable in Hbad.
  destruct (url_Parse go (effective rawurl)) as [msg|u] eqn:Hparse.
  - apply (New_stops_at _ _ _ cl1 cl1 w w _ _ (run_options_settings go pre (blank go) w Hpre)).
    unfold SetUrl. fold (effective rawurl). rewrite Hparse.
    unfold errorf, lines, emit. rewrite Hel. run.
    destruct (final_errorlog pre); simpl; [done|]. rewrite app_nil_r. by destruct w.
  - apply orb_false_elim in Hbad as [H1 H2]. apply bool_decide_eq_false in H1, H2.
    apply (New_stops_at _ _ _ cl1 cl1 w w _ _ (run_options_settings go pre (blank go) w Hpre)).
    unfold SetUrl. fold (effective rawurl). rewrite Hparse.
    rewrite !bool_decide_eq_true_2 by done. simpl.
    unfold errorf, lines, emit. rewrite Hel. run.
    destruct (final_errorlog pre); simpl; [done|]. rewrite app_nil_r. by destruct w.
Qed.

End Configured.

(** ** More about the request path *)

Section RequestPathMore.

Context (go : GoLib).

Import Go.

Ltac unfold_ops :=
  unfold perform, List, CreateBot, DeleteBot, ListFiles, DownloadFiles, UploadFile,
    DeleteFile, GetFile, Verify, Talk, TalkDebug, fmap, M_fmap; run.

(** The requests on record after [do]. *)
Lemma do_requests {T} (cl : Client) (method rawurl : string)
    (params : gmap string string) (body : option (list byte)) (result : Dest T) (w : World) :
  requests (do go cl method rawurl params body result w).2
  = match url_Parse go (rawurl +:+ "?" +:+ Values_Encode (query_values cl params)) with
    | inl _ => requests w
    | inr _ =>
        requests w
          ++ [{| Method := method;
                 RequestURL := rawurl +:+ "?" +:+ Values_Encode (query_values cl params);
                 RequestBody := body |}]
    end.
Proof.
  destruct (http_NewRequest go method
              (rawurl +:+ "?" +:+ Values_Encode (query_values cl params)) body)
    as [e|req] eqn:Hreq.
  - rewrite (do_no_request go _ _ _ _ _ _ _ _ Hreq).
    unfold http_NewRequest in Hreq. by destruct (url_Parse go _).
  - assert (requests (do go cl method rawurl params body result w).2 = requests w ++ [req])
      as ->.
    { destruct (c cl req) as [e|resp] eqn:Hresp.
      - rewrite (do_transport_error go _ _ _ _ _ _ _ _ _ Hreq Hresp). unfold requests at 1.
        simpl. rewrite <- (app_nil_r (sent go cl req w)), requests_sent. done.
      - rewrite (do_response go _ _ _ _ _ _ _ _ _ Hreq Hresp). cbv zeta.
        destruct ((StatusCode resp <? 200)%Z || (300 <=? StatusCode resp)%Z);
          [|destruct result as [|wr|decode v]]; unfold requests at 1; simpl;
          rewrite requests_sent; f_equal;
          destruct (errorlog cl), (tracelog cl),
            (httputil_DumpResponse go (StatusCode resp) (Payload resp)); done. }
    unfold http_NewRequest in Hreq. destruct (url_Parse go _); [done|].
    by injection Hreq as <-.
Qed.

(** X5. An operation hands at most one request to the HTTP client,
    whatever comes back: nothing is retried. *)
Theorem at_most_one_request (op : Operation) (cl : Client) (w : World) :
  let w' := (perform go op cl w).2 in
  requests w' = requests w ∨ ∃ req, requests w' = requests w ++ [req].
Proof.
  cbv zeta. pose proof (perform_funnel go op cl w) as Hf.
  destruct (op_target cl op).2 as [e|].
  - rewrite Hf. by left.
  - destruct Hf as (T & result & Hf). rewrite Hf.
    pose proof (do_requests cl (op_method op) (op_target cl op).1 (op_params op) (op_body op)
                  result w) as Hreqs.
    destruct (do go cl _ _ _ _ result w) as [[err result'] w']. simpl in *.
    rewrite Hreqs. destruct (url_Parse go _); eauto.
Qed.


(** Every operation is one call of [do], with the destination its
    delivery names, unless [fileToUrl] refuses the file name. *)
Lemma perform_delivery (op : Operation) :
  ∃ (T : Type) (result : Dest T),
    delivers (op_delivery op) result
    ∧ ∀ cl w, perform go op cl w =
        match (op_target cl op).2 with
        | Some e => (Some e, w)
        | None =>
            let '(err, _, w') := do go cl (op_method op) (op_target cl op).1 (op_params op)
                                    (op_body op) result w in
            (err, w')
        end.
Proof.
  destruct op as [|name|name|name|name zip|name filename data|name filename
                 |name filename out|name|name input clientName sessionId recent
                 |name input clientName sessionId recent that topic extra reset trace reload];
    try destruct zip as [wr|]; try destruct out as [wr|]; cbn [op_delivery].
  all: let finish :=
    (split; [done|]); intros cl w; cbn [op_target op_method op_params op_body perform];
    unfold UploadFile, DeleteFile, GetFile;
    try destruct (fileToUrl cl name filename) as [rawurl [e|]]; cbn [fst snd]; try reflexivity;
    unfold List, CreateBot, DeleteBot, ListFiles, DownloadFiles, Verify,
      Talk, TalkDebug, fmap, M_fmap; run;
    match goal with |- context [do ?g ?c ?m ?u ?p ?b ?r ?w] =>
      by destruct (do g c m u p b r w) as [[? ?] ?] end in
    first
    [ refine (ex_intro _ (unit : Type) (ex_intro _ Nil _)); finish
    | refine (ex_intro _ (unit : Type) (ex_intro _ (ToWriter wr) _)); finish
    | refine (ex_intro _ (list BotEntry : Type)
                (ex_intro _ (ToValue (json_BotEntries go) []) _)); finish
    | refine (ex_intro _ (BotFiles : Type)
                (ex_intro _ (ToValue (json_BotFiles go) zero_BotFiles) _)); finish
    | refine (ex_intro _ (Reply : Type)
                (ex_intro _ (ToValue (json_Reply go) zero_Reply) _)); finish ].
Qed.


(** An operation that issued a request, as a call of [do] whose request
    could be built. *)
Lemma perform_issued (op : Operation) (cl : Client) (w : World) (req : Request) :
  requests (perform go op cl w).2 = requests w ++ [req] →
  req = {| Method := op_method op;
           RequestURL := (op_target cl op).1 +:+ "?"
                           +:+ Values_Encode (query_values cl (op_params op));
           RequestBody := op_body op |}
  ∧ http_NewRequest go (op_method op)
      ((op_target cl op).1 +:+ "?" +:+ Values_Encode (query_values cl (op_params op)))
      (op_body op) = inr req
  ∧ ∃ (T : Type) (result : Dest T),
      delivers (op_delivery op) result
      ∧ perform go op cl w
        = (let '(err, _, w') := do go cl (op_method op) (op_target cl op).1 (op_params op)
                                   (op_body op) result w in
           (err, w')).
Proof.
  destruct (perform_delivery op) as (T & result & Hd & Hp). rewrite (Hp cl w).
  destruct (op_target cl op).2 as [e|].
  - intros H. by apply no_request_no_growth in H.
  - pose proof (do_requests cl (op_method op) (op_target cl op).1 (op_params op) (op_body op)
                  result w) as Hreqs.
    destruct (do go cl _ _ _ _ result w) as [[err result'] w'] eqn:Hdo. simpl in *.
    rewrite Hreqs. unfold http_NewRequest.
    destruct (url_Parse go _) as [msg|u].
    + intros H. by apply no_request_no_growth in H.
    + intros H. apply app_inv_head in H. injection H as <-.
      split; [done|]. split; [done|]. exists T, result. split; [done|]. by rewrite Hdo.
Qed.

(** X6. When the HTTP client fails on the request of an operation, the
    operation returns the very error the client gave; the response is
    not there to be dumped, copied or decoded, so apart from the trace
    of the request nothing is logged. *)
Theorem transport_error_is_returned (op : Operation) (cl : Client) (w : World)
    (req : Request) (e : error) :
  let '(err, w') := perform go op cl w in
  requests w' = requests w ++ [req] →
  c cl req = inl e →
  err = Some e
  ∧ history w' = history w ++ logged (tracelog cl) (httputil_DumpRequestOut go req) ++ [Do req]
  ∧ stream w' = None.
Proof.
  pose proof (perform_issued op cl w req) as Hissued.
  destruct (perform go op cl w) as [err w'] eqn:Hp. simpl in Hissued.
  intros Hreqs Hresp. destruct (Hissued Hreqs) as (_ & Hreq & T & result & _ & Hdo).
  rewrite (do_transport_error go _ _ _ _ _ _ _ _ _ Hreq Hresp) in Hdo.
  by injection Hdo as -> ->.
Qed.

(** X7. When the URL of an operation, with its query string, does not
    parse, the operation returns the parser's error and nothing
    happens: no request, no log line. *)
Theorem unparseable_url_stops_operation (op : Operation) (cl : Client) (w : World)
    (msg : string) :
  (op_target cl op).2 = None →
  url_Parse go ((op_target cl op).1 +:+ "?"
                  +:+ Values_Encode (query_values cl (op_params op))) = inl msg →
  perform go op cl w = (Some (foreign net_url msg), w).
Proof.
  intros Htarget Hparse.
  destruct (perform_delivery op) as (T & result & _ & Hp). rewrite (Hp cl w), Htarget.
  rewrite (do_no_request go _ _ _ _ _ _ _ (foreign net_url msg)); [done|].
  unfold http_NewRequest. by rewrite Hparse.
Qed.


Lemma log_lines_sent (cl : Client) (req : Request) (w : World) (evs : list event) :
  filter is_line (sent go cl req w ++ evs)
  = log_lines w ++ logged (tracelog cl) (httputil_DumpRequestOut go req)
      ++ filter is_line evs.
Proof.
  unfold sent, log_lines. rewrite !filter_app. simpl. rewrite <- !app_assoc. simpl.
  do 2 f_equal. by destruct (tracelog cl), (httputil_DumpRequestOut go req).
Qed.

Lemma log_lines_logged (l : option Logger) (out : option string) :
  filter is_line (logged l out) = logged l out.
Proof. by destruct l, out. Qed.

(** X8. Loggers only observe. With any error log and trace log put in
    place of the client's, a call of [do] returns the same error and
    leaves the same value in its destination, hands the same requests
    to the HTTP client and makes the same copies and decodings; so does
    every operation. *)
Theorem logging_is_observation_only (cl : Client) (el tl : option Logger) (w : World) :
  let cl' := with_errorlog el (with_tracelog tl cl) in
  (∀ T method rawurl params body (result : Dest T),
     (do go cl' method rawurl params body result w).1
     = (do go cl method rawurl params body result w).1
     ∧ requests (do go cl' method rawurl params body result w).2
       = requests (do go cl method rawurl params body result w).2
     ∧ decodings (do go cl' method rawurl params body result w).2
       = decodings (do go cl method rawurl params body result w).2)
  ∧ (∀ op,
       (perform go op cl' w).1 = (perform go op cl w).1
       ∧ requests (perform go op cl' w).2 = requests (perform go op cl w).2
       ∧ decodings (perform go op cl' w).2 = decodings (perform go op cl w).2).
Proof.
  intros cl'.
  assert (∀ T method rawurl params body (result : Dest T),
     (do go cl' method rawurl params body result w).1
     = (do go cl method rawurl params body result w).1
     ∧ requests (do go cl' method rawurl params body result w).2
       = requests (do go cl method rawurl params body result w).2
     ∧ decodings (do go cl' method rawurl params body result w).2
       = decodings (do go cl method rawurl params body result w).2) as Hdo.
  { intros T method rawurl params body result.
    assert (query_values cl' params = query_values cl params) as Hq by done.
    destruct (http_NewRequest go method
                (rawurl +:+ "?" +:+ Values_Encode (query_values cl params)) body)
      as [e|req] eqn:Hreq.
    - rewrite (do_no_request go cl _ _ _ _ _ _ _ Hreq).
      rewrite <- Hq in Hreq. by rewrite (do_no_request go cl' _ _ _ _ _ _ _ Hreq).
    - pose proof Hreq as Hreq'. rewrite <- Hq in Hreq'.
      destruct (c cl req) as [e|resp] eqn:Hresp.
      + rewrite (do_transport_error go cl _ _ _ _ _ _ _ _ Hreq Hresp).
        rewrite (do_transport_error go cl' _ _ _ _ _ _ _ _ Hreq' Hresp).
        unfold requests, decodings. simpl.
        rewrite <- (app_nil_r (sent go cl' req w)), <- (app_nil_r (sent go cl req w)).
        by rewrite !requests_sent, !decodings_sent.
      + rewrite (do_response go cl _ _ _ _ _ _ _ _ Hreq Hresp).
        rewrite (do_response go cl' _ _ _ _ _ _ _ _ Hreq' Hresp). cbv zeta.
        destruct ((StatusCode resp <? 200)%Z || (300 <=? StatusCode resp)%Z);
          [|destruct result as [|wr|decode v]]; unfold requests, decodings; simpl;
          rewrite !requests_sent, !decodings_sent;
          (split; [done|]);
          destruct el, tl, (errorlog cl), (tracelog cl),
            (httputil_DumpResponse go (StatusCode resp) (Payload resp)); done. }
  split; [exact Hdo|]. intros op.
  destruct (perform_delivery op) as (T & result & _ & Hp). rewrite !Hp.
  assert (op_target cl' op = op_target cl op) as -> by by destruct op.
  destruct (op_target cl op).2 as [e|]; [done|].
  destruct (Hdo T (op_method op) (op_target cl op).1 (op_params op) (op_body op) result)
    as (H1 & H2 & H3).
  destruct (do go cl' _ _ _ _ result w) as [[err1 r1] w1].
  destruct (do go cl _ _ _ _ result w) as [[err2 r2] w2].
  simpl in *. by injection H1 as -> ->.
Qed.

(** X9. The lines an operation writes when a response comes. The
    request is dumped to the trace log, if there is one. A response
    with a status outside 200..299 is dumped to the error log, followed
    by the message of the error, if there is an error log, and is not
    shown to the trace log; a response with a status inside 200..299 is
    dumped to the trace log, if there is one, and the error log
    receives nothing. *)
Theorem lines_of_an_operation (op : Operation) (cl : Client) (w : World)
    (req : Request) (resp : Response) :
  let '(err, w') := perform go op cl w in
  let code := StatusCode resp in
  let dump := httputil_DumpResponse go code (Payload resp) in
  requests w' = requests w ++ [req] →
  c cl req = inr resp →
  log_lines w'
  = log_lines w ++ logged (tracelog cl) (httputil_DumpRequestOut go req)
      ++ (if (code <? 200)%Z || (300 <=? code)%Z
          then logged (errorlog cl) dump
                 ++ lines (errorlog cl) ("Unexpected status code: " +:+ strconv_Itoa code
                                           +:+ " (" +:+ http_StatusText go code +:+ ")") []
          else logged (tracelog cl) dump).
Proof.
  pose proof (perform_issued op cl w req) as Hissued.
  destruct (perform go op cl w) as [err w'] eqn:Hp. simpl in Hissued. cbv zeta.
  intros Hreqs Hresp. destruct (Hissued Hreqs) as (_ & Hreq & T & result & _ & Hdo).
  rewrite (do_response go _ _ _ _ _ _ _ _ _ Hreq Hresp) in Hdo. cbv zeta in Hdo.
  destruct ((StatusCode resp <? 200)%Z || (300 <=? StatusCode resp)%Z);
    [|destruct result as [|wr|decode v]]; injection Hdo as _ ->;
    unfold log_lines at 1; cbn [history]; rewrite log_lines_sent; do 2 f_equal;
    unfold lines; destruct (errorlog cl), (tracelog cl);
    rewrite ?filter_app, ?log_lines_logged; simpl; rewrite ?app_nil_r; try done;
    by destruct (httputil_DumpResponse go _ _).
Qed.

(** X10. What an operation does with the body of a response whose
    status is inside 200..299. [CreateBot], [DeleteBot], [UploadFile],
    [DeleteFile] and [Verify], and the two downloads when their writer
    is nil, leave it alone and report success whatever it holds;
    [DownloadFiles] and [GetFile] copy it into their writer; [List],
    [ListFiles], [Talk] and [TalkDebug] run the JSON decoder over it. *)
Theorem delivery_of_an_operation (op : Operation) (cl : Client) (w : World)
    (req : Request) (resp : Response) :
  let '(err, w') := perform go op cl w in
  requests w' = requests w ++ [req] →
  c cl req = inr resp →
  (200 ≤ StatusCode resp < 300)%Z →
  match op_delivery op with
  | Discarded => err = None ∧ decodings w' = decodings w
  | Copied wr => decodings w' = decodings w ++ [Copy wr (taken wr (Payload resp))]
  | Unmarshalled => decodings w' = decodings w ++ [Decode (Payload resp)]
  end.
Proof.
  pose proof (perform_issued op cl w req) as Hissued.
  destruct (perform go op cl w) as [err w'] eqn:Hp. simpl in Hissued.
  intros Hreqs Hresp Hcode. destruct (Hissued Hreqs) as (_ & Hreq & T & result & Hd & Hdo).
  rewrite (do_response go _ _ _ _ _ _ _ _ _ Hreq Hresp) in Hdo. cbv zeta in Hdo.
  rewrite status_inside in Hdo by done.
  destruct (op_delivery op) as [|wr|], result as [|wr'|decode v]; try done;
    injection Hdo as -> ->; unfold decodings at 1; cbn [history];
    rewrite decodings_sent; try (split; [done|]); try (simpl in Hd; subst wr');
    destruct (tracelog cl); try destruct (httputil_DumpResponse go _ _);
    simpl; by rewrite ?app_nil_r.
Qed.


(** *** The query string of an operation without parameters *)







(** The outcome of [do] with a decoded destination, by what happened. *)
Lemma do_decoded {T} (cl : Client) (method rawurl : string) (params : gmap string string)
    (body : option (list byte)) (decode : Decoder T) (v : T) (w : World) :
  let '(err, result, w') := do go cl method rawurl params body (ToValue decode v) w in
  (requests w' = requests w → value_of result v = v ∧ err ≠ None)
  ∧ (∀ req e, requests w' = requests w ++ [req] → c cl req = inl e →
       value_of result v = v ∧ err = Some e)
  ∧ (∀ req resp, requests w' = requests w ++ [req] → c cl req = inr resp →
       (StatusCode resp < 200 ∨ 300 ≤ StatusCode resp)%Z →
       value_of result v = v
       ∧ err = Some (errors_New (status_message go (StatusCode resp))))
  ∧ (∀ req resp, requests w' = requests w ++ [req] → c cl req = inr resp →
       (200 ≤ StatusCode resp < 300)%Z →
       value_of result v = dec_val (decode (Payload resp) v)
       ∧ err = foreign encoding_json <$> dec_err (decode (Payload resp) v)).
Proof.
  pose proof (do_requests cl method rawurl params body (ToValue decode v) w) as Hreqs.
  pose proof (@do_issued go T cl method rawurl params body (ToValue decode v) w) as Hissued.
  destruct (do go cl method rawurl params body (ToValue decode v) w)
    as [[err result] w'] eqn:Hdo.
  simpl in Hreqs, Hissued.
  split; [|split; [|split]].
  - intros Hsame. rewrite Hsame in Hreqs.
    destruct (url_Parse go _) as [msg|u] eqn:Hparse;
      [|by apply no_request_no_growth in Hreqs].
    rewrite (do_no_request go _ _ _ _ _ _ _ (foreign net_url msg)) in Hdo.
    + by injection Hdo as <- <- <-.
    + unfold http_NewRequest. by rewrite Hparse.
  - intros req e Hgrow Hresp.
    rewrite (do_transport_error go _ _ _ _ _ _ _ _ _ (Hissued req Hgrow) Hresp) in Hdo.
    by injection Hdo as <- <- <-.
  - intros req resp Hgrow Hresp Hcode.
    rewrite (do_response go _ _ _ _ _ _ _ _ _ (Hissued req Hgrow) Hresp) in Hdo.
    cbv zeta in Hdo. rewrite status_outside in Hdo by done.
    by injection Hdo as <- <- <-.
  - intros req resp Hgrow Hresp Hcode.
    rewrite (do_response go _ _ _ _ _ _ _ _ _ (Hissued req Hgrow) Hresp) in Hdo.
    cbv zeta in Hdo. rewrite status_inside in Hdo by done.
    by injection Hdo as <- <- <-.
Qed.

(** X13. What [List] and [ListFiles] return next to the error. When no
    request could be built, when the HTTP client failed and when the
    status was outside 200..299, [List] returns the empty list it
    started from and [ListFiles] the zero [BotFiles], each time with an
    error; after a status inside 200..299 they return what the JSON
    decoder left, with the decoder's error if it reported one. *)
Theorem listing_results (cl : Client) (name : string) (w : World) :
  (let '(entries, err, w') := List go cl w in
   (requests w' = requests w → entries = [] ∧ err ≠ None)
   ∧ (∀ req e, requests w' = requests w ++ [req] → c cl req = inl e →
        entries = [] ∧ err = Some e)
   ∧ (∀ req resp, requests w' = requests w ++ [req] → c cl req = inr resp →
        (StatusCode resp < 200 ∨ 300 ≤ StatusCode resp)%Z →
        entries = [] ∧ err = Some (errors_New (status_message go (StatusCode resp))))
   ∧ (∀ req resp, requests w' = requests w ++ [req] → c cl req = inr resp →
        (200 ≤ StatusCode resp < 300)%Z →
        entries = dec_val (json_BotEntries go (Payload resp) [])
        ∧ err = foreign encoding_json <$> dec_err (json_BotEntries go (Payload resp) [])))
  ∧ (let '(files, err, w') := ListFiles go cl name w in
     (requests w' = requests w → files = zero_BotFiles ∧ err ≠ None)
     ∧ (∀ req e, requests w' = requests w ++ [req] → c cl req = inl e →
          files = zero_BotFiles ∧ err = Some e)
     ∧ (∀ req resp, requests w' = requests w ++ [req] → c cl req = inr resp →
          (StatusCode resp < 200 ∨ 300 ≤ StatusCode resp)%Z →
          files = zero_BotFiles
          ∧ err = Some (errors_New (status_message go (StatusCode resp))))
     ∧ (∀ req resp, requests w' = requests w ++ [req] → c cl req = inr resp →
          (200 ≤ StatusCode resp < 300)%Z →
          files = dec_val (json_BotFiles go (Payload resp) zero_BotFiles)
          ∧ err = foreign encoding_json
                    <$> dec_err (json_BotFiles go (Payload resp) zero_BotFiles))).
Proof.
  split.
  - pose proof (do_decoded cl "GET" (appUrl cl bot) ∅ None (json_BotEntries go) [] w) as H.
    unfold List. run.
    by destruct (do go cl "GET" (appUrl cl bot) ∅ None (ToValue (json_BotEntries go) []) w)
      as [[err result] w'].
  - pose proof (do_decoded cl "GET" (botUrl cl bot name) ∅ None (json_BotFiles go)
                  zero_BotFiles w) as H.
    unfold ListFiles. run.
    by destruct (do go cl "GET" (botUrl cl bot name) ∅ None
                   (ToValue (json_BotFiles go) zero_BotFiles) w) as [[err result] w'].
Qed.

End RequestPathMore.

(** ** More about file URLs *)

Section FileUrlsMore.

Context (go : GoLib).

Import Go.

Lemma dotless_get (s : string) (i : nat) (ch : ascii) :
  dotless s = true → String.get i s = Some ch → ch ≠ "."%char.
Proof.
  revert i. induction s as [|b s IH]; intros i Hs Hget; [done|].
  simpl in Hs. apply andb_prop in Hs as [Hb Hrest].
  destruct i as [|i]; simpl in Hget.
  - injection Hget as <-. intros ->. done.
  - by apply (IH i).
Qed.

(** Scanning a dotless tail finds no extension, whatever stands before
    a slash in front of it. *)
Lemma Ext_loop_dotless (front base : string) (k : nat) :
  dotless base = true →
  (k ≤ String.length base)%nat →
  Ext_loop (front +:+ base) (String.length front + k) = "" ∨
  Ext_loop (front +:+ base) (String.length front + k)
  = Ext_loop (front +:+ base) (String.length front).
Proof.
  intros Hbase. induction k as [|k IH]; intros Hk.
  - right. by rewrite Nat.add_0_r.
  - replace (String.length front + S k)%nat with (S (String.length front + k)) by lia.
    simpl. rewrite get_append_r.
    destruct (String.get k base) as [ch|] eqn:Hget; [|by left].
    destruct (bool_decide (ch = "/"%char)); [by left|].
    rewrite bool_decide_eq_false_2 by by apply (dotless_get base k).
    apply IH. lia.
Qed.

Lemma Ext_dotless (base : string) : dotless base = true → filepath_Ext base = "".
Proof.
  intros Hbase. unfold filepath_Ext.
  pose proof (Ext_loop_dotless "" base (String.length base) Hbase (le_n _)) as H.
  rewrite append_nil_l in H. change (String.length "") with 0%nat in H.
  rewrite Nat.add_0_l in H. by destruct H as [H|H].
Qed.

Lemma Ext_dotless_element (dir base : string) :
  dotless base = true → filepath_Ext (dir +:+ "/" +:+ base) = "".
Proof.
  intros Hbase. unfold filepath_Ext.
  rewrite <- append_assoc, length_append.
  destruct (Ext_loop_dotless (dir +:+ "/") base (String.length base) Hbase (le_n _))
    as [H|H]; [done|].
  rewrite H, length_append.
  replace (String.length dir + String.length "/")%nat with (S (String.length dir + 0))
    by (simpl; lia).
  simpl. rewrite append_assoc, get_append_r. done.
Qed.

(** X14. A file name whose last path element has no dot, the empty
    name among them, has the empty extension: [fileToUrl] refuses it
    with the message that shows empty brackets, and [UploadFile],
    [DeleteFile] and [GetFile] return that error and do nothing. *)
Theorem file_name_without_extension (cl : Client) (name filename : string) :
  (dotless filename = true
   ∨ ∃ dir base, filename = dir +:+ "/" +:+ base ∧ dotless base = true) →
  let err := errors_New "Extension is not recognized []" in
  fileToUrl cl name filename = ("", Some err)
  ∧ ∀ data out w,
      UploadFile go cl name filename data w = (Some err, w)
      ∧ DeleteFile go cl name filename w = (Some err, w)
      ∧ GetFile go cl name filename out w = (Some err, w).
Proof.
  intros Hname.
  assert (filepath_Ext filename = "") as Hext.
  { destruct Hname as [H | (dir & base & -> & H)];
      [by apply Ext_dotless | by apply Ext_dotless_element]. }
  assert (fileToUrl cl name filename
          = ("", Some (errors_New "Extension is not recognized []"))) as Hfail.
  { unfold fileToUrl. rewrite Hext. reflexivity. }
  cbv zeta. split; [done|]. intros data out w.
  unfold UploadFile, DeleteFile, GetFile. by rewrite Hfail.
Qed.

Lemma append_inv_head (s t1 t2 : string) : s +:+ t1 = s +:+ t2 → t1 = t2.
Proof.
  induction s as [|a s IH]; [done|]. rewrite !append_cons. intros H.
  injection H as H. by apply IH.
Qed.

Lemma append_inv_tail (s1 s2 t : string) : s1 +:+ t = s2 +:+ t → s1 = s2.
Proof.
  intros H.
  assert (String.length s1 = String.length s2) as Hlen.
  { apply (f_equal String.length) in H. rewrite !length_append in H. lia. }
  rewrite <- (substring_prefix s1 t), <- (substring_prefix s2 t), H, Hlen. done.
Qed.

(** X15. Which file names share a URL. All properties files of a bot
    have one URL, and all pdefaults files another, whatever their
    names; two scripts, two sets, two maps or two substitutions of a
    bot have the same URL only when they have the same name. *)
Theorem file_urls_by_name (cl : Client) (name s1 s2 : string) :
  fileToUrl cl name (s1 +:+ ".properties") = fileToUrl cl name (s2 +:+ ".properties")
  ∧ fileToUrl cl name (s1 +:+ ".pdefaults") = fileToUrl cl name (s2 +:+ ".pdefaults")
  ∧ (fileToUrl cl name (s1 +:+ ".aiml") = fileToUrl cl name (s2 +:+ ".aiml") → s1 = s2)
  ∧ (fileToUrl cl name (s1 +:+ ".set") = fileToUrl cl name (s2 +:+ ".set") → s1 = s2)
  ∧ (fileToUrl cl name (s1 +:+ ".map") = fileToUrl cl name (s2 +:+ ".map") → s1 = s2)
  ∧ (fileToUrl cl name (s1 +:+ ".substitution") = fileToUrl cl name (s2 +:+ ".substitution")
     → s1 = s2).
Proof.
  destruct (fileToUrl_of_stem cl name s1) as (Ha1 & Hs1 & Hm1 & Hb1 & Hp1 & Hd1).
  destruct (fileToUrl_of_stem cl name s2) as (Ha2 & Hs2 & Hm2 & Hb2 & Hp2 & Hd2).
  rewrite Ha1, Hs1, Hm1, Hb1, Hp1, Hd1, Ha2, Hs2, Hm2, Hb2, Hp2, Hd2.
  split; [done|]. split; [done|].
  repeat split; intros H; injection H as H;
    repeat (apply append_inv_head in H); try done.
  by apply append_inv_tail in H.
Qed.

End FileUrlsMore.

(** ** The operations that take a path *)

Section PathOperationsFacts.

Context (go : GoLib).

Import Go GoOs.

Lemma copied_into_app (path : string) (w : World) (evs : list event) (s : option Stream) :
  copied_into path w {| history := history w ++ evs; stream := s |}
  = flat_map (copy_to path) evs.
Proof. unfold copied_into. simpl. by rewrite drop_app_length. Qed.

Lemma copied_into_same (path : string) (w : World) : copied_into path w w = [].
Proof. unfold copied_into. by rewrite drop_all. Qed.

Lemma copied_logged (path : string) (l : option Logger) (out : option string) :
  flat_map (copy_to path) (logged l out) = [].
Proof. by destruct l, out. Qed.




Lemma Disk_eta (d : Disk) :
  {| files := files d; sealed := sealed d; limits := limits d; handles := handles d |} = d.
Proof. by destruct d. Qed.

(** Opening a file and closing it again leaves the disk as it was. *)
Lemma Open_Close (path : string) (d d' : Disk) (data : list byte) :
  os_Open path d = inr (data, d') → files d !! path = Some data ∧ File_Close path d' = d.
Proof.
  unfold os_Open. destruct (files d !! path) as [content|]; [|done].
  intros [= <- <-]. split; [done|]. unfold File_Close. simpl.
  rewrite bool_decide_eq_true_2 by done. apply Disk_eta.
Qed.


(** The path variants against the operations that take the data or the
    writer. *)
Lemma UploadFileFromPath_delegates (cl : Client) (name path : string) (m : Machine) :
  match files (disk m) !! path with
  | None =>
      UploadFileFromPath go cl name path m
      = (Some (os_error ("open " +:+ path +:+ ": no such file or directory")), m)
  | Some data =>
      let '(err, w') := UploadFile go cl name (filepath_Base path) (Some data) (net m) in
      UploadFileFromPath go cl name path m = (pb_error <$> err, {| net := w'; disk := disk m |})
  end.
Proof.
  unfold UploadFileFromPath, UploadFile.
  destruct (os_Open path (disk m)) as [msg|[data d]] eqn:Hopen.
  - unfold os_Open in Hopen. destruct (files (disk m) !! path); [done|].
    by injection Hopen as <-.
  - apply Open_Close in Hopen as [-> Hclose]. rewrite Hclose.
    destruct (fileToUrl cl name (filepath_Base path)) as [rawurl [e|]]; [done|].
    run. by destruct (do go cl "PUT" rawurl ∅ (Some data) Nil (net m)) as [[err ?] w'].
Qed.

Lemma GetFileToPath_delegates (cl : Client) (name path : string) (m : Machine) :
  path ∉ sealed (disk m) →
  let '(err, w') :=
    GetFile go cl name (filepath_Base path) (Some (file_writer (disk m) path)) (net m) in
  let '(ferr, m') := GetFileToPath go cl name path m in
  ferr = pb_error <$> err ∧ net m' = w'.
Proof.
  intros Hfree. unfold GetFileToPath, GetFile, os_Create.
  rewrite bool_decide_eq_false_2 by done.
  destruct (fileToUrl cl name (filepath_Base path)) as [rawurl [e|]]; [done|].
  run. unfold file_writer. simpl.
  by destruct (do go cl "GET" rawurl ∅ None
                 (ToWriter {| sink := path; room := limits (disk m) !! path |}) (net m))
    as [[err ?] w'].
Qed.

Lemma DownloadFilesToPath_delegates (cl : Client) (name path : string) (m : Machine) :
  path ∉ sealed (disk m) →
  let '(err, w') := DownloadFiles go cl name (Some (file_writer (disk m) path)) (net m) in
  let '(ferr, m') := DownloadFilesToPath go cl name path m in
  ferr = pb_error <$> err ∧ net m' = w'.
Proof.
  intros Hfree. unfold DownloadFilesToPath, DownloadFiles, os_Create.
  rewrite bool_decide_eq_false_2 by done. run. unfold file_writer. simpl.
  by destruct (do go cl "GET" (botUrl cl bot name) {["return" := "zip"]} None
                 (ToWriter {| sink := path; room := limits (disk m) !! path |}) (net m))
    as [[err ?] w'].
Qed.


(** X17. The path variants are the plain operations applied to the
    file. [UploadFileFromPath] fails with the error of [os.Open] and
    does nothing when there is no file at the path; otherwise it does
    what [UploadFile] does with the last element of the path as file
    name and the content of the file as data, and leaves the disk as it
    was, the file closed. Where a file can be created at the path,
    [GetFileToPath] returns the error and leaves the world that
    [GetFile] does with the last element of the path as file name and
    the file as writer, and [DownloadFilesToPath] those of
    [DownloadFiles] with the file as writer. *)
Theorem path_variants_delegate (cl : Client) (name path : string) (m : Machine) :
  match files (disk m) !! path with
  | None =>
      UploadFileFromPath go cl name path m
      = (Some (os_error ("open " +:+ path +:+ ": no such file or directory")), m)
  | Some data =>
      let '(err, w') := UploadFile go cl name (filepath_Base path) (Some data) (net m) in
      UploadFileFromPath go cl name path m = (pb_error <$> err, {| net := w'; disk := disk m |})
  end
  ∧ (path ∉ sealed (disk m) →
     (let '(err, w') :=
        GetFile go cl name (filepath_Base path) (Some (file_writer (disk m) path)) (net m) in
      let '(ferr, m') := GetFileToPath go cl name path m in
      ferr = pb_error <$> err ∧ net m' = w')
     ∧ (let '(err, w') := DownloadFiles go cl name (Some (file_writer (disk m) path)) (net m) in
        let '(ferr, m') := DownloadFilesToPath go cl name path m in
        ferr = pb_error <$> err ∧ net m' = w')).
Proof.
  split; [apply UploadFileFromPath_delegates|].
  intros Hfree. split; [by apply GetFileToPath_delegates|by apply DownloadFilesToPath_delegates].
Qed.

(** *** The last element of a path *)

Lemma slashless_get (s : string) (i : nat) (ch : ascii) :
  slashless s = true → String.get i s = Some ch → ch ≠ "/"%char.
Proof.
  revert i. induction s as [|b s IH]; intros i Hs Hget; [done|].
  simpl in Hs. apply andb_prop in Hs as [Hb Hrest].
  destruct i as [|i]; simpl in Hget.
  - injection Hget as <-. intros ->. done.
  - by apply (IH i).
Qed.

Lemma get_in_range (s : string) (i : nat) :
  (i < String.length s)%nat → ∃ ch, String.get i s = Some ch.
Proof.
  revert i. induction s as [|b s IH]; intros i Hi; simpl in Hi; [lia|].
  destruct i as [|i]; simpl; [by eexists|]. apply IH. lia.
Qed.

(** Scanning back over an element without a slash stops at the slash
    in front of it. *)
Lemma last_element_scan (dir base : string) (k : nat) :
  slashless base = true →
  (k ≤ String.length base)%nat →
  last_element ((dir +:+ "/") +:+ base) (String.length (dir +:+ "/") + k) = base.
Proof.
  intros Hbase. induction k as [|k IH]; intros Hk.
  - rewrite Nat.add_0_r, length_append.
    replace (String.length dir + String.length "/")%nat with (S (String.length dir + 0))
      by (simpl; lia).
    simpl. rewrite append_assoc, get_append_r. simpl.
    rewrite <- append_assoc. unfold slice.
    replace (S (String.length dir + 0)) with (String.length (dir +:+ "/"))
      by (rewrite length_append; simpl; lia).
    rewrite (length_append (dir +:+ "/") base).
    replace (String.length (dir +:+ "/") + String.length base - String.length (dir +:+ "/"))%nat
      with (String.length base) by lia.
    apply substring_suffix.
  - replace (String.length (dir +:+ "/") + S k)%nat
      with (S (String.length (dir +:+ "/") + k)) by lia.
    simpl. rewrite get_append_r.
    destruct (get_in_range base k) as [ch Hch]; [lia|]. rewrite Hch.
    rewrite bool_decide_eq_false_2 by by apply (slashless_get base k).
    apply IH. lia.
Qed.

Lemma strip_slashes_none (dir base : string) :
  slashless base = true → base ≠ "" →
  strip_slashes ((dir +:+ "/") +:+ base) (String.length ((dir +:+ "/") +:+ base))
  = (dir +:+ "/") +:+ base.
Proof.
  intros Hbase Hne.
  assert (∃ k, String.length base = S k) as [k Hk].
  { destruct base; [done|]. simpl. by eexists. }
  rewrite (length_append (dir +:+ "/") base), Hk.
  replace (String.length (dir +:+ "/") + S k)%nat
    with (S (String.length (dir +:+ "/") + k)) by lia.
  simpl. rewrite get_append_r.
  destruct (get_in_range base k) as [ch Hch]; [lia|]. rewrite Hch.
  rewrite bool_decide_eq_false_2 by by apply (slashless_get base k).
  unfold slice.
  replace (S (String.length (dir +:+ "/") + k) - 0)%nat
    with (String.length ((dir +:+ "/") +:+ base)) by (rewrite length_append; lia).
  apply substring_all.
Qed.

Lemma Base_last_element (dir base : string) :
  slashless base = true → base ≠ "" → filepath_Base (dir +:+ "/" +:+ base) = base.
Proof.
  intros Hbase Hne. unfold filepath_Base.
  rewrite bool_decide_eq_false_2 by by apply append_not_empty.
  rewrite <- append_assoc. cbv zeta. rewrite strip_slashes_none by done.
  rewrite (length_append (dir +:+ "/") base), last_element_scan by done.
  by rewrite bool_decide_eq_false_2.
Qed.

(** X18. The server never sees the directories of a local path. For a
    path that ends in a slash and an element without a slash,
    [UploadFileFromPath] does what [UploadFile] does with that last
    element as file name, and [GetFileToPath] returns the error and
    leaves the world of [GetFile] with it. *)
Theorem path_names_the_remote_file (cl : Client) (name dir base : string) (m : Machine) :
  slashless base = true → base ≠ "" →
  let path := dir +:+ "/" +:+ base in
  (∀ data, files (disk m) !! path = Some data →
     let '(err, w') := UploadFile go cl name base (Some data) (net m) in
     UploadFileFromPath go cl name path m = (pb_error <$> err, {| net := w'; disk := disk m |}))
  ∧ (path ∉ sealed (disk m) →
     let '(err, w') := GetFile go cl name base (Some (file_writer (disk m) path)) (net m) in
     let '(ferr, m') := GetFileToPath go cl name path m in
     ferr = pb_error <$> err ∧ net m' = w').
Proof.
  intros Hbase Hne path. split.
  - intros data Hdata.
    pose proof (UploadFileFromPath_delegates cl name path m) as H.
    rewrite Hdata in H. unfold path in H at 1. by rewrite Base_last_element in H.
  - intros Hfree.
    pose proof (GetFileToPath_delegates cl name path m Hfree) as H.
    unfold path in H at 1. by rewrite Base_last_element in H.
Qed.

End PathOperationsFacts.

(** ** The command line client *)

(** One step of the case analysis of [main]: a condition is decided,
    or the call of an operation is replaced by what it returned. *)
Ltac decide_condition :=
  match goal with
  | |- context [bool_decide ?P] =>
      destruct (bool_decide_reflect P); simpl; try congruence
  end.

Ltac name_call :=
  match goal with
  | |- context [List ?g ?c ?w] => destruct (List g c w) as [[? [?|]] ?] eqn:?
  | |- context [ListFiles ?g ?c ?n ?w] => destruct (ListFiles g c n w) as [[? [?|]] ?] eqn:?
  | |- context [CreateBot ?g ?c ?n ?w] => destruct (CreateBot g c n w) as [[?|] ?] eqn:?
  | |- context [DeleteBot ?g ?c ?n ?w] => destruct (DeleteBot g c n w) as [[?|] ?] eqn:?
  | |- context [Verify ?g ?c ?n ?w] => destruct (Verify g c n w) as [[?|] ?] eqn:?
  | |- context [DeleteFile ?g ?c ?n ?f ?w] =>
      destruct (DeleteFile g c n f w) as [[?|] ?] eqn:?
  | |- context [GetFile ?g ?c ?n ?f ?o ?w] =>
      destruct (GetFile g c n f o w) as [[?|] ?] eqn:?
  | |- context [DownloadFiles ?g ?c ?n ?o ?w] =>
      destruct (DownloadFiles g c n o w) as [[?|] ?] eqn:?
  | |- context [UploadFileFromPath ?g ?c ?n ?f ?m] =>
      destruct (UploadFileFromPath g c n f m) as [[?|] ?] eqn:?
  | |- context [GetFileToPath ?g ?c ?n ?f ?m] =>
      destruct (GetFileToPath g c n f m) as [[?|] ?] eqn:?
  | |- context [DownloadFilesToPath ?g ?c ?n ?f ?m] =>
      destruct (DownloadFilesToPath g c n f m) as [[?|] ?] eqn:?
  | |- context [Talk ?g ?c ?n ?i ?k ?s ?r ?w] =>
      destruct (Talk g c n i k s r w) as [[[?|] [?|]] ?] eqn:?
  end.

Section CommandLine.

Context (lib : Cli.CliLib) (go : GoLib).

Import Go GoOs.

(** [New] as [main] calls it. *)
Lemma New_main (fl : Cli.Flags) (w : World) :
  New go [SetErrorLog (Some (Cli.log_New "")); SetCredentials (Cli.appId fl) (Cli.userKey fl)] w
  = if bool_decide (Cli.appId fl = "") || bool_decide (Cli.userKey fl = "") then
      (inl ErrNoCred,
       {| history := history w
            ++ [Printf (Cli.log_New "") "Missing application ID or user key" []];
          stream := stream w |})
    else
      (inr (Build_Client (Cli.appId fl) (Cli.userKey fl) DefaultURL (Some (Cli.log_New ""))
              None (http_DefaultClient go)), w).
Proof.
  unfold New. run. unfold SetCredentials, SetErrorLog. run.
  destruct (bool_decide (Cli.appId fl = "") || bool_decide (Cli.userKey fl = "")); [done|].
  unfold tracef. simpl. by destruct w.
Qed.

(** The interactive talk returns or exits with status 2. *)
Lemma talk_loop_ending (cl : Client) (bot : string) (lines : list string) (sessionId : Z)
    (p : Cli.Process) :
  (Cli.talk_loop lib go cl bot lines sessionId p).1 = Cli.Returned
  ∨ (Cli.talk_loop lib go cl bot lines sessionId p).1 = Cli.Exit 2.
Proof.
  revert sessionId p. induction lines as [|line rest IH]; intros sessionId p; simpl; [by left|].
  case_bool_decide; [by left|].
  unfold Cli.call, Talk, TalkDebug. run.
  destruct (do go cl "POST" _ _ None _ _) as [[err reply] w'].
  destruct err; [by right|]. apply IH.
Qed.

(** X19. The exit status of the command line client. When
    [flag.Parse] rejects the command line (an undefined or malformed
    flag, a request for help), [main] ends there with the exit status
    of [flag.Parse]: nothing has been requested or printed, and the
    disk is untouched; only the message of [flag.Parse] is on the
    standard error. When [flag.Parse] accepts the command line, [main]
    never panics. It exits with status 1 exactly on a usage error: the
    application ID or the user key is missing, the bot name is missing
    and the command is not [list], the file name is missing for
    [upload] or [deleteFile], or both the file name and the output
    file are missing for [download]; nothing has been requested and the
    disk is untouched then. It exits with status 2 only in the command
    [list] and in the interactive talk. In every other case it
    returns, also when the operation it ran has failed. *)
Theorem exit_status (args : list string) (stdin : list string) (p : Cli.Process) :
  match Cli.flag_Parse lib args with
  | inl (code, message) =>
      Cli.main lib go args stdin p
      = (Cli.Exit code,
         {| Cli.machine := Cli.machine p; Cli.stdout := Cli.stdout p;
            Cli.stderr := Cli.stderr p ++ [message] |})
  | inr fl =>
      let '(e, p') := Cli.main lib go args stdin p in
      let command := Cli.strings_ToLower lib (Cli.cmd fl) in
      e ≠ Cli.Panic
      ∧ (e = Cli.Exit 1 ↔ Cli.usage_error lib fl = true)
      ∧ (e = Cli.Exit 1 →
         requests (net (Cli.machine p')) = requests (net (Cli.machine p))
         ∧ disk (Cli.machine p') = disk (Cli.machine p))
      ∧ (∀ code, e = Cli.Exit code →
           code = 1%Z
           ∨ code = 2%Z ∧ (command = "list" ∨ command = "talk" ∧ Cli.input fl = ""))
  end.
Proof.
  unfold Cli.main. destruct (Cli.flag_Parse lib args) as [[code message]|fl]; [done|].
  unfold Cli.run, Cli.usage_error, Cli.call. rewrite New_main.
  set (command := Cli.strings_ToLower lib (Cli.cmd fl)).
  destruct (bool_decide (Cli.appId fl = "") || bool_decide (Cli.userKey fl = "")) eqn:Hcred.
  { simpl. split; [done|]. split; [by split|]. split; [|intros code [= <-]; by left].
    intros _. unfold requests. simpl. by rewrite omap_app, app_nil_r. }
  change (true || ?b) with true. cbv iota beta.
  set (cl0 := Build_Client _ _ _ _ _ _).
  unfold SetTraceLog. run.
  assert (∃ cl, (if Cli.debug fl then with_tracelog (Some (Cli.log_New "TRACE: ")) cl0
                 else cl0) = cl) as [cl Hcl] by eauto.
  rewrite !bool_decide_not. clearbody command.
  destruct (Cli.debug fl); rewrite Hcl; clear Hcl cl0.
  all: unfold Cli.call_path, Cli.call_Stdout, Cli.report; simpl.
  all: repeat decide_condition.
  all: try name_call; simpl.
  all: try match goal with
           | |- context [Cli.talk_loop lib go ?c ?b ?s ?k ?q] =>
               let Hend := fresh in
               pose proof (talk_loop_ending c b s k q) as Hend;
               destruct (Cli.talk_loop lib go c b s k q) as [? ?];
               simpl in Hend; destruct Hend as [-> | ->]
           end.
  all: split; [done|]; split; [by split|]; split; [done|].
  all: intros code [= <-]; auto.
Qed.

(** *** The requests of a run *)

Lemma grows_refl (n : nat) (base : string) (w : World) : grows n base w w.
Proof. exists []. rewrite app_nil_r. split; [done|]. split; [simpl; lia|constructor]. Qed.

Lemma grows_trans (n1 n2 : nat) (base : string) (w1 w2 w3 : World) :
  grows n1 base w1 w2 → grows n2 base w2 w3 → grows (n1 + n2) base w1 w3.
Proof.
  intros (r1 & H1 & L1 & F1) (r2 & H2 & L2 & F2). exists (r1 ++ r2).
  rewrite H2, H1, app_assoc. split; [done|]. split.
  - rewrite length_app. lia.
  - by apply Forall_app.
Qed.

Lemma grows_mono (n1 n2 : nat) (base : string) (w w' : World) :
  (n1 ≤ n2)%nat → grows n1 base w w' → grows n2 base w w'.
Proof. intros Hle (r & H & L & F). exists r. split; [done|]. split; [lia|done]. Qed.

(** Every operation addresses a URL below the URL of the client. *)
Lemma op_target_addressed (cl : Client) (op : Operation) :
  (op_target cl op).2 = None → ∃ rest, (op_target cl op).1 = url cl +:+ "/" +:+ rest.
Proof.
  destruct op; simpl; unfold botUrl, appUrl, fileToUrl; intros Hok;
    repeat match goal with
           | H : context [bool_decide ?P] |- _ => destruct (bool_decide P); simpl in *
           end;
    try discriminate; unfold botUrl, appUrl; rewrite ?append_assoc; by eexists.
Qed.

Lemma perform_grows (op : Operation) (cl : Client) (w : World) :
  grows 1 (url cl) w (perform go op cl w).2.
Proof.
  pose proof (perform_funnel go op cl w) as Hf.
  pose proof (op_target_addressed cl op) as Haddr.
  destruct (op_target cl op) as [rawurl [e|]]; simpl in *.
  - rewrite Hf. apply grows_refl.
  - destruct Hf as (T & result & Hf). rewrite Hf.
    destruct (Haddr eq_refl) as [rest ->].
    pose proof (do_requests go cl (op_method op) (url cl +:+ "/" +:+ rest) (op_params op)
                  (op_body op) result w) as Hreqs.
    destruct (do go cl _ _ _ _ result w) as [[err result'] w']. simpl in *.
    destruct (url_Parse go _).
    + exists []. rewrite app_nil_r. split; [done|]. split; [simpl; lia|constructor].
    + eexists [_]. split; [done|]. split; [simpl; lia|].
      constructor; [|constructor]. unfold addressed. simpl.
      rewrite !append_assoc. by eexists.
Qed.

Lemma UploadFileFromPath_grows (cl : Client) (name path : string) (m : Machine) :
  grows 1 (url cl) (net m) (net (UploadFileFromPath go cl name path m).2).
Proof.
  pose proof (UploadFileFromPath_delegates go cl name path m) as H.
  destruct (files (disk m) !! path) as [data|].
  - pose proof (perform_grows (OpUploadFile name (filepath_Base path) (Some data)) cl (net m))
      as Hg. simpl in Hg.
    destruct (UploadFile go cl name (filepath_Base path) (Some data) (net m)) as [err w'].
    by rewrite H.
  - rewrite H. apply grows_refl.
Qed.

Lemma GetFileToPath_grows (cl : Client) (name path : string) (m : Machine) :
  grows 1 (url cl) (net m) (net (GetFileToPath go cl name path m).2).
Proof.
  destruct (decide (path ∈ sealed (disk m))) as [Hin|Hfree].
  - unfold GetFileToPath, os_Create. rewrite bool_decide_eq_true_2 by done. apply grows_refl.
  - pose proof (GetFileToPath_delegates go cl name path m Hfree) as H.
    pose proof (perform_grows (OpGetFile name (filepath_Base path) (Some (file_writer (disk m) path)))
                  cl (net m)) as Hg. simpl in Hg.
    destruct (GetFile go cl name (filepath_Base path) (Some (file_writer (disk m) path)) (net m))
      as [err w'].
    destruct (GetFileToPath go cl name path m) as [ferr m']. simpl. by destruct H as [_ ->].
Qed.

Lemma DownloadFilesToPath_grows (cl : Client) (name path : string) (m : Machine) :
  grows 1 (url cl) (net m) (net (DownloadFilesToPath go cl name path m).2).
Proof.
  destruct (decide (path ∈ sealed (disk m))) as [Hin|Hfree].
  - unfold DownloadFilesToPath, os_Create. rewrite bool_decide_eq_true_2 by done.
    apply grows_refl.
  - pose proof (DownloadFilesToPath_delegates go cl name path m Hfree) as H.
    pose proof (perform_grows (OpDownloadFiles name (Some (file_writer (disk m) path))) cl (net m))
      as Hg. simpl in Hg.
    destruct (DownloadFiles go cl name (Some (file_writer (disk m) path)) (net m)) as [err w'].
    destruct (DownloadFilesToPath go cl name path m) as [ferr m']. simpl. by destruct H as [_ ->].
Qed.

Lemma Println_machine {A} (show : A → string) (items : list A) (p : Cli.Process) :
  Cli.machine (foldl (λ p s, Cli.fmt_Println (show s) p) p items) = Cli.machine p.
Proof. revert p. induction items as [|s items IH]; intros p; simpl; [done|]. by rewrite IH. Qed.

Lemma talk_loop_grows (cl : Client) (bot : string) (lines : list string) (sessionId : Z)
    (p : Cli.Process) :
  grows (length lines) (url cl) (net (Cli.machine p))
    (net (Cli.machine (Cli.talk_loop lib go cl bot lines sessionId p).2)).
Proof.
  revert sessionId p. induction lines as [|line rest IH]; intros sessionId p; simpl.
  { apply grows_refl. }
  case_bool_decide; [apply grows_refl|].
  pose proof (perform_grows (OpTalk bot line "" sessionId false) cl (net (Cli.machine p)))
    as Hg. simpl in Hg. unfold fmap, M_fmap in Hg.
  unfold Cli.call.
  destruct (Talk go cl bot line "" sessionId false (net (Cli.machine p)))
    as [[[r|] [e|]] w']; simpl in *.
  1,3: by apply (grows_mono 1); [lia|].
  2: by apply (grows_mono 1); [lia|].
  match goal with
  | |- context [Cli.talk_loop lib go cl bot rest ?k ?q] =>
      pose proof (IH k q) as Hrest; rewrite Println_machine in Hrest
  end.
  exact (grows_trans 1 (length rest) _ _ _ _ Hg Hrest).
Qed.

Ltac grow_call :=
  let Hg := fresh "Hg" in
  match goal with
  | |- context [List go ?c ?w] =>
      pose proof (perform_grows OpList c w) as Hg; simpl in Hg; unfold fmap, M_fmap in Hg;
      destruct (List go c w) as [[? [?|]] ?]
  | |- context [ListFiles go ?c ?n ?w] =>
      pose proof (perform_grows (OpListFiles n) c w) as Hg; simpl in Hg;
      unfold fmap, M_fmap in Hg; destruct (ListFiles go c n w) as [[? [?|]] ?]
  | |- context [CreateBot go ?c ?n ?w] =>
      pose proof (perform_grows (OpCreateBot n) c w) as Hg; simpl in Hg;
      destruct (CreateBot go c n w) as [[?|] ?]
  | |- context [DeleteBot go ?c ?n ?w] =>
      pose proof (perform_grows (OpDeleteBot n) c w) as Hg; simpl in Hg;
      destruct (DeleteBot go c n w) as [[?|] ?]
  | |- context [Verify go ?c ?n ?w] =>
      pose proof (perform_grows (OpVerify n) c w) as Hg; simpl in Hg;
      destruct (Verify go c n w) as [[?|] ?]
  | |- context [DeleteFile go ?c ?n ?f ?w] =>
      pose proof (perform_grows (OpDeleteFile n f) c w) as Hg; simpl in Hg;
      destruct (DeleteFile go c n f w) as [[?|] ?]
  | |- context [GetFile go ?c ?n ?f ?o ?w] =>
      pose proof (perform_grows (OpGetFile n f o) c w) as Hg; simpl in Hg;
      destruct (GetFile go c n f o w) as [[?|] ?]
  | |- context [DownloadFiles go ?c ?n ?o ?w] =>
      pose proof (perform_grows (OpDownloadFiles n o) c w) as Hg; simpl in Hg;
      destruct (DownloadFiles go c n o w) as [[?|] ?]
  | |- context [UploadFileFromPath go ?c ?n ?f ?m] =>
      pose proof (UploadFileFromPath_grows c n f m) as Hg;
      destruct (UploadFileFromPath go c n f m) as [[?|] ?]
  | |- context [GetFileToPath go ?c ?n ?f ?m] =>
      pose proof (GetFileToPath_grows c n f m) as Hg;
      destruct (GetFileToPath go c n f m) as [[?|] ?]
  | |- context [DownloadFilesToPath go ?c ?n ?f ?m] =>
      pose proof (DownloadFilesToPath_grows c n f m) as Hg;
      destruct (DownloadFilesToPath go c n f m) as [[?|] ?]
  | |- context [Talk go ?c ?n ?i ?k ?s ?r ?w] =>
      pose proof (perform_grows (OpTalk n i k s r) c w) as Hg; simpl in Hg;
      unfold fmap, M_fmap in Hg; destruct (Talk go c n i k s r w) as [[[?|] [?|]] ?]
  | |- context [Cli.talk_loop lib go ?c ?b ?s ?k ?q] =>
      pose proof (talk_loop_grows c b s k q) as Hg
  end.

(** X20. The requests of a run of the command line client. Every
    command sends one request at most, except the interactive talk,
    which sends at most one for each line it reads; and every request
    goes to a URL below the default URL of the package, for no flag
    changes it. *)
Theorem requests_of_a_run (fl : Cli.Flags) (stdin : list string) (p : Cli.Process) :
  let p' := (Cli.run lib go fl stdin p).2 in
  let command := Cli.strings_ToLower lib (Cli.cmd fl) in
  let turns := if bool_decide (command = "talk") && bool_decide (Cli.input fl = "")
               then length stdin else 1%nat in
  grows turns DefaultURL (net (Cli.machine p)) (net (Cli.machine p')).
Proof.
  unfold Cli.run, Cli.call. rewrite New_main.
  set (command := Cli.strings_ToLower lib (Cli.cmd fl)).
  destruct (bool_decide (Cli.appId fl = "") || bool_decide (Cli.userKey fl = "")) eqn:Hcred.
  { simpl. exists []. unfold requests. simpl. rewrite omap_app. simpl.
    split; [done|]. split; [lia|constructor]. }
  cbv iota beta. set (cl0 := Build_Client _ _ _ _ _ _).
  unfold SetTraceLog. run.
  assert (∃ cl, (if Cli.debug fl then with_tracelog (Some (Cli.log_New "TRACE: ")) cl0
                 else cl0) = cl ∧ url cl = DefaultURL) as (cl & Hcl & Hurl).
  { destruct (Cli.debug fl); by eexists. }
  rewrite !bool_decide_not. clearbody command.
  destruct (Cli.debug fl); rewrite Hcl; clear Hcl cl0.
  all: unfold Cli.call_path, Cli.call_Stdout, Cli.report; simpl.
  all: repeat decide_condition.
  all: try grow_call; simpl; rewrite ?Println_machine; simpl.
  all: try rewrite Hurl in *.
  all: try apply grows_refl; try done.
Qed.

(** *** The interactive talk *)

Lemma talk_loop_exit (cl : Client) (bot : string) (pre post : list string) (line : string)
    (sessionId : Z) (p : Cli.Process) :
  Cli.strings_ToLower lib line = "exit" +:+ LF →
  Cli.talk_loop lib go cl bot (pre ++ line :: post) sessionId p
  = Cli.talk_loop lib go cl bot pre sessionId p.
Proof.
  intros Hexit. revert sessionId p.
  induction pre as [|first pre IH]; intros sessionId p; simpl.
  - by rewrite bool_decide_eq_true_2.
  - case_bool_decide; [done|].
    destruct (Cli.call (Talk go cl bot first "" sessionId false) p) as [[[r|] [e|]] p1];
      try done.
Qed.

(** X21. A line that reads [exit], whatever the case of its letters,
    ends the interactive talk: the lines after it are not sent, and the
    run is the one in which the input ends before that line. *)
Theorem exit_ends_the_talk (fl : Cli.Flags) (pre post : list string) (line : string)
    (p : Cli.Process) :
  Cli.strings_ToLower lib (Cli.cmd fl) = "talk" →
  Cli.input fl = "" →
  Cli.strings_ToLower lib line = "exit" +:+ LF →
  Cli.run lib go fl (pre ++ line :: post) p = Cli.run lib go fl pre p.
Proof.
  intros Hcmd Hinput Hexit. unfold Cli.run. rewrite Hcmd, Hinput.
  destruct (Cli.call (New go _) p) as [[err|cl] p0]; [done|].
  destruct (Cli.debug fl).
  - destruct (Cli.call (SetTraceLog _ cl) p0) as [[cl1 ?] p1].
    case_bool_decide; simpl; [|done].
    destruct (bool_decide (Cli.name fl = "")); [done|]. simpl.
    by rewrite talk_loop_exit.
  - case_bool_decide; simpl; [|done].
    destruct (bool_decide (Cli.name fl = "")); [done|]. simpl.
    by rewrite talk_loop_exit.
Qed.



(** *** Downloads to the standard output *)


End CommandLine.

(** ** What the trace changes *)

Section Trace.

Context (lib : Cli.CliLib) (go : GoLib).

Import Go GoOs.

Lemma copied_into_sent (path : string) (cl : Client) (req : Request) (w : World)
    (evs : list event) (s : option Stream) :
  copied_into path w {| history := sent go cl req w ++ evs; stream := s |}
  = flat_map (copy_to path) evs.
Proof.
  unfold sent. rewrite <- !app_assoc, copied_into_app, !flat_map_app, copied_logged. done.
Qed.

Lemma requests_sent_world (cl : Client) (req : Request) (w : World) (evs : list event)
    (s : option Stream) :
  requests {| history := sent go cl req w ++ evs; stream := s |}
  = requests w ++ [req] ++ omap (λ ev, match ev with Do r => Some r | _ => None end) evs.
Proof. unfold requests. simpl. apply requests_sent. Qed.

Lemma same_effect_refl (w1 w2 : World) : same_effect w1 w1 w2 w2.
Proof.
  split; [exists []; by rewrite !app_nil_r|]. intros path. by rewrite !copied_into_same.
Qed.

(** A call of [do] by two clients that differ in their logs at most,
    in any two worlds: the same error, the same value, the same
    requests, the same copies. *)
Lemma do_alike {T} (cl1 cl2 : Client) (method rawurl : string) (params : gmap string string)
    (body : option (list byte)) (result : Dest T) (w1 w2 : World) :
  same_but_logs cl1 cl2 →
  (do go cl1 method rawurl params body result w1).1
  = (do go cl2 method rawurl params body result w2).1
  ∧ same_effect w1 (do go cl1 method rawurl params body result w1).2
                w2 (do go cl2 method rawurl params body result w2).2.
Proof.
  intros (_ & Hkey & _ & Hc).
  assert (query_values cl1 params = query_values cl2 params) as Hq
    by (unfold query_values; by rewrite Hkey).
  destruct (http_NewRequest go method
              (rawurl +:+ "?" +:+ Values_Encode (query_values cl2 params)) body)
    as [e|req] eqn:Hreq.
  { rewrite (do_no_request go cl2 _ _ _ _ _ _ _ Hreq).
    rewrite <- Hq in Hreq. rewrite (do_no_request go cl1 _ _ _ _ _ _ _ Hreq).
    split; [done|apply same_effect_refl]. }
  pose proof Hreq as Hreq'. rewrite <- Hq in Hreq'.
  destruct (c cl2 req) as [e|resp] eqn:Hresp.
  { pose proof Hresp as Hresp'. rewrite <- Hc in Hresp'.
    rewrite (do_transport_error go cl2 _ _ _ _ _ _ _ _ Hreq Hresp).
    rewrite (do_transport_error go cl1 _ _ _ _ _ _ _ _ Hreq' Hresp').
    split; [done|]. simpl.
    rewrite <- (app_nil_r (sent go cl1 req w1)), <- (app_nil_r (sent go cl2 req w2)).
    split.
    - exists [req]. by rewrite !requests_sent_world.
    - intros path. by rewrite !copied_into_sent. }
  pose proof Hresp as Hresp'. rewrite <- Hc in Hresp'.
  rewrite (do_response go cl2 _ _ _ _ _ _ _ _ Hreq Hresp).
  rewrite (do_response go cl1 _ _ _ _ _ _ _ _ Hreq' Hresp'). cbv zeta.
  generalize (httputil_DumpResponse go (StatusCode resp) (Payload resp)) as out.
  intros out.
  destruct ((StatusCode resp <? 200)%Z || (300 <=? StatusCode resp)%Z);
    [|destruct result as [|wr|decode v]]; cbn [fst snd]; (split; [done|]); split.
  all: try (exists [req]; rewrite !requests_sent_world;
            destruct (errorlog cl1), (errorlog cl2), (tracelog cl1), (tracelog cl2), out;
            done).
  all: intros path; rewrite !copied_into_sent;
    destruct (errorlog cl1), (errorlog cl2), (tracelog cl1), (tracelog cl2), out; done.
Qed.

(** *** The operations with and without a trace log *)

Lemma fileToUrl_with_tracelog (tl : option Logger) (cl : Client) (name filename : string) :
  fileToUrl (with_tracelog tl cl) name filename = fileToUrl cl name filename.
Proof. reflexivity. Qed.

Lemma same_but_tracelog (tl : option Logger) (cl : Client) :
  same_but_logs (with_tracelog tl cl) cl.
Proof. repeat split. Qed.

Ltac by_do_alike tl cl :=
  intros w1 w2; run; rewrite ?fileToUrl_with_tracelog;
  try match goal with
      | |- context [fileToUrl cl ?n ?f] =>
          destruct (fileToUrl cl n f) as [rawurl [e|]];
          [split; [done|apply same_effect_refl]|]
      end;
  match goal with
  | |- context [do go cl ?m ?u ?q ?b ?r w2] =>
      change (botUrl (with_tracelog tl cl)) with (botUrl cl);
      change (appUrl (with_tracelog tl cl)) with (appUrl cl);
      let H := fresh in
      pose proof (do_alike (with_tracelog tl cl) cl m u q b r w1 w2
                    (same_but_tracelog tl cl)) as H;
      destruct (do go (with_tracelog tl cl) m u q b r w1) as [[? ?] ?];
      destruct (do go cl m u q b r w2) as [[? ?] ?];
      simpl in *; destruct H as [[= -> ->] ?]; by split
  end.

Lemma List_alike (tl : option Logger) (cl : Client) :
  alike_calls (List go (with_tracelog tl cl)) (List go cl).
Proof. unfold alike_calls, List. by_do_alike tl cl. Qed.

Lemma ListFiles_alike (tl : option Logger) (cl : Client) (name : string) :
  alike_calls (ListFiles go (with_tracelog tl cl) name) (ListFiles go cl name).
Proof. unfold alike_calls, ListFiles. by_do_alike tl cl. Qed.

Lemma CreateBot_alike (tl : option Logger) (cl : Client) (name : string) :
  alike_calls (CreateBot go (with_tracelog tl cl) name) (CreateBot go cl name).
Proof. unfold alike_calls, CreateBot. by_do_alike tl cl. Qed.

Lemma DeleteBot_alike (tl : option Logger) (cl : Client) (name : string) :
  alike_calls (DeleteBot go (with_tracelog tl cl) name) (DeleteBot go cl name).
Proof. unfold alike_calls, DeleteBot. by_do_alike tl cl. Qed.

Lemma Verify_alike (tl : option Logger) (cl : Client) (name : string) :
  alike_calls (Verify go (with_tracelog tl cl) name) (Verify go cl name).
Proof. unfold alike_calls, Verify. by_do_alike tl cl. Qed.

Lemma DownloadFiles_alike (tl : option Logger) (cl : Client) (name : string)
    (zip : option Writer) :
  alike_calls (DownloadFiles go (with_tracelog tl cl) name zip) (DownloadFiles go cl name zip).
Proof. unfold alike_calls, DownloadFiles. by_do_alike tl cl. Qed.

Lemma DeleteFile_alike (tl : option Logger) (cl : Client) (name filename : string) :
  alike_calls (DeleteFile go (with_tracelog tl cl) name filename)
              (DeleteFile go cl name filename).
Proof. unfold alike_calls, DeleteFile. by_do_alike tl cl. Qed.

Lemma GetFile_alike (tl : option Logger) (cl : Client) (name filename : string)
    (out : option Writer) :
  alike_calls (GetFile go (with_tracelog tl cl) name filename out)
              (GetFile go cl name filename out).
Proof. unfold alike_calls, GetFile. by_do_alike tl cl. Qed.

Lemma Talk_alike (tl : option Logger) (cl : Client) (name input clientName : string)
    (sessionId : Z) (recent : bool) :
  alike_calls (Talk go (with_tracelog tl cl) name input clientName sessionId recent)
              (Talk go cl name input clientName sessionId recent).
Proof.
  unfold alike_calls, Talk, TalkDebug.
  remember (talk_params input clientName sessionId recent "" "" false false false false)
    as params.
  by_do_alike tl cl.
Qed.

Lemma same_effect_requests (w1 w1' w2 w2' : World) :
  same_effect w1 w1' w2 w2' → requests w1 = requests w2 → requests w1' = requests w2'.
Proof. intros [(reqs & -> & ->) _] ->. done. Qed.

(** The operations that take a path, on two machines with the same
    disk. *)
Lemma UploadFileFromPath_alike (tl : option Logger) (cl : Client) (name path : string)
    (m1 m2 : Machine) :
  disk m1 = disk m2 → requests (net m1) = requests (net m2) →
  let r1 := UploadFileFromPath go (with_tracelog tl cl) name path m1 in
  let r2 := UploadFileFromPath go cl name path m2 in
  r1.1 = r2.1 ∧ disk r1.2 = disk r2.2 ∧ requests (net r1.2) = requests (net r2.2).
Proof.
  intros Hdisk Hreqs. unfold UploadFileFromPath. rewrite Hdisk, fileToUrl_with_tracelog.
  destruct (os_Open path (disk m2)) as [msg|[data d]]; [simpl; by rewrite Hdisk|].
  destruct (fileToUrl cl name (filepath_Base path)) as [rawurl [e|]]; [done|].
  pose proof (do_alike (T := unit) (with_tracelog tl cl) cl "PUT" rawurl ∅ (Some data) Nil
                (net m1) (net m2) (same_but_tracelog tl cl)) as [Hres Heff].
  destruct (do go (with_tracelog tl cl) "PUT" rawurl ∅ (Some data) Nil (net m1))
    as [[err1 ?] w1'].
  destruct (do go cl "PUT" rawurl ∅ (Some data) Nil (net m2)) as [[err2 ?] w2'].
  simpl in *. injection Hres as -> _.
  split; [done|]. split; [done|]. by apply (same_effect_requests _ _ _ _ Heff).
Qed.

Lemma fetch_alike (tl : option Logger) (cl : Client) (rawurl path : string)
    (params : gmap string string) (d : Disk) (w1 w2 : World) :
  requests w1 = requests w2 →
  let '(err1, _, w1') := do go (with_tracelog tl cl) "GET" rawurl params None
                           (ToWriter (T := unit) (file_writer d path)) w1 in
  let '(err2, _, w2') := do go cl "GET" rawurl params None
                           (ToWriter (T := unit) (file_writer d path)) w2 in
  err1 = err2 ∧ settle path w1 w1' d = settle path w2 w2' d ∧ requests w1' = requests w2'.
Proof.
  intros Hreqs.
  pose proof (do_alike (with_tracelog tl cl) cl "GET" rawurl params None
                (ToWriter (T := unit) (file_writer d path)) w1 w2 (same_but_tracelog tl cl))
    as [Hres Heff].
  destruct (do go (with_tracelog tl cl) "GET" rawurl params None
              (ToWriter (file_writer d path)) w1) as [[err1 ?] w1'].
  destruct (do go cl "GET" rawurl params None (ToWriter (file_writer d path)) w2)
    as [[err2 ?] w2'].
  simpl in *. injection Hres as -> _. split; [done|]. split.
  - unfold settle. by rewrite (proj2 Heff path).
  - by apply (same_effect_requests _ _ _ _ Heff).
Qed.

Lemma GetFileToPath_alike (tl : option Logger) (cl : Client) (name path : string)
    (m1 m2 : Machine) :
  disk m1 = disk m2 → requests (net m1) = requests (net m2) →
  let r1 := GetFileToPath go (with_tracelog tl cl) name path m1 in
  let r2 := GetFileToPath go cl name path m2 in
  r1.1 = r2.1 ∧ disk r1.2 = disk r2.2 ∧ requests (net r1.2) = requests (net r2.2).
Proof.
  intros Hdisk Hreqs. unfold GetFileToPath. rewrite Hdisk, fileToUrl_with_tracelog.
  destruct (os_Create path (disk m2)) as [msg|d]; [simpl; by rewrite Hdisk|].
  destruct (fileToUrl cl name (filepath_Base path)) as [rawurl [e|]]; [done|].
  pose proof (fetch_alike tl cl rawurl path ∅ d (net m1) (net m2) Hreqs) as H.
  destruct (do go (with_tracelog tl cl) "GET" rawurl ∅ None (ToWriter (file_writer d path))
              (net m1)) as [[err1 ?] w1'].
  destruct (do go cl "GET" rawurl ∅ None (ToWriter (file_writer d path)) (net m2))
    as [[err2 ?] w2'].
  simpl. destruct H as (-> & -> & ->). done.
Qed.

Lemma DownloadFilesToPath_alike (tl : option Logger) (cl : Client) (name path : string)
    (m1 m2 : Machine) :
  disk m1 = disk m2 → requests (net m1) = requests (net m2) →
  let r1 := DownloadFilesToPath go (with_tracelog tl cl) name path m1 in
  let r2 := DownloadFilesToPath go cl name path m2 in
  r1.1 = r2.1 ∧ disk r1.2 = disk r2.2 ∧ requests (net r1.2) = requests (net r2.2).
Proof.
  intros Hdisk Hreqs. unfold DownloadFilesToPath. rewrite Hdisk.
  destruct (os_Create path (disk m2)) as [msg|d]; [simpl; by rewrite Hdisk|].
  change (botUrl (with_tracelog tl cl)) with (botUrl cl).
  pose proof (fetch_alike tl cl (botUrl cl bot name) path {["return" := "zip"]} d
                (net m1) (net m2) Hreqs) as H.
  destruct (do go (with_tracelog tl cl) "GET" (botUrl cl bot name) {["return" := "zip"]} None
              (ToWriter (file_writer d path)) (net m1)) as [[err1 ?] w1'].
  destruct (do go cl "GET" (botUrl cl bot name) {["return" := "zip"]} None
              (ToWriter (file_writer d path)) (net m2)) as [[err2 ?] w2'].
  simpl. destruct H as (-> & -> & ->). done.
Qed.

(** *** Processes that look alike *)

Lemma alike_refl (p : Cli.Process) : alike p p.
Proof. by repeat split. Qed.

Lemma alike_Print (s : string) (p1 p2 : Cli.Process) :
  alike p1 p2 → alike (Cli.fmt_Print s p1) (Cli.fmt_Print s p2).
Proof. intros (Hout & Hdisk & Hreqs). unfold alike. simpl. by rewrite Hout. Qed.

Lemma alike_Println {A} (show : A → string) (items : list A) (p1 p2 : Cli.Process) :
  alike p1 p2 →
  alike (foldl (λ p s, Cli.fmt_Println (show s) p) p1 items)
        (foldl (λ p s, Cli.fmt_Println (show s) p) p2 items).
Proof.
  revert p1 p2. induction items as [|s items IH]; intros p1 p2 H; simpl; [done|].
  apply IH. by apply alike_Print.
Qed.

Lemma alike_report (err success : option string) (p1 p2 : Cli.Process) :
  alike p1 p2 →
  (Cli.report err success p1).1 = (Cli.report err success p2).1
  ∧ alike (Cli.report err success p1).2 (Cli.report err success p2).2.
Proof.
  intros H. unfold Cli.report, Cli.fmt_Println.
  destruct err, success; simpl; (split; [done|]); try done; by apply alike_Print.
Qed.

Lemma call_alike {A} (f1 f2 : M A) (p1 p2 : Cli.Process) :
  alike_calls f1 f2 → alike p1 p2 →
  (Cli.call f1 p1).1 = (Cli.call f2 p2).1 ∧ alike (Cli.call f1 p1).2 (Cli.call f2 p2).2.
Proof.
  intros Hf (Hout & Hdisk & Hreqs). unfold Cli.call.
  destruct (Hf (net (Cli.machine p1)) (net (Cli.machine p2))) as [Hres Heff].
  destruct (f1 _) as [a1 w1]. destruct (f2 _) as [a2 w2]. simpl in *.
  split; [done|]. split; [done|]. split; [done|].
  by apply (same_effect_requests _ _ _ _ Heff).
Qed.

Lemma call_Stdout_alike {A} (f1 f2 : M A) (p1 p2 : Cli.Process) :
  alike_calls f1 f2 → alike p1 p2 →
  (Cli.call_Stdout f1 p1).1 = (Cli.call_Stdout f2 p2).1
  ∧ alike (Cli.call_Stdout f1 p1).2 (Cli.call_Stdout f2 p2).2.
Proof.
  intros Hf (Hout & Hdisk & Hreqs). unfold Cli.call_Stdout.
  destruct (Hf (net (Cli.machine p1)) (net (Cli.machine p2))) as [Hres Heff].
  destruct (f1 _) as [a1 w1]. destruct (f2 _) as [a2 w2]. simpl in *.
  split; [done|]. split; [|split; [done|]].
  - by rewrite Hout, (proj2 Heff Cli.stdout_path).
  - by apply (same_effect_requests _ _ _ _ Heff).
Qed.

Lemma call_path_alike {A} (f1 f2 : Machine → A * Machine) (p1 p2 : Cli.Process) :
  (∀ m1 m2, disk m1 = disk m2 → requests (net m1) = requests (net m2) →
     (f1 m1).1 = (f2 m2).1 ∧ disk (f1 m1).2 = disk (f2 m2).2
     ∧ requests (net (f1 m1).2) = requests (net (f2 m2).2)) →
  alike p1 p2 →
  (Cli.call_path f1 p1).1 = (Cli.call_path f2 p2).1
  ∧ alike (Cli.call_path f1 p1).2 (Cli.call_path f2 p2).2.
Proof.
  intros Hf (Hout & Hdisk & Hreqs). unfold Cli.call_path.
  destruct (Hf (Cli.machine p1) (Cli.machine p2) Hdisk Hreqs) as (Hres & Hd & Hr).
  destruct (f1 _) as [a1 m1]. destruct (f2 _) as [a2 m2]. simpl in *. by repeat split.
Qed.

Lemma talk_loop_alike (tl : option Logger) (cl : Client) (bot : string) (lines : list string)
    (sessionId : Z) (p1 p2 : Cli.Process) :
  alike p1 p2 →
  (Cli.talk_loop lib go (with_tracelog tl cl) bot lines sessionId p1).1
  = (Cli.talk_loop lib go cl bot lines sessionId p2).1
  ∧ alike (Cli.talk_loop lib go (with_tracelog tl cl) bot lines sessionId p1).2
          (Cli.talk_loop lib go cl bot lines sessionId p2).2.
Proof.
  revert sessionId p1 p2. induction lines as [|line rest IH]; intros sessionId p1 p2 H; simpl.
  { by split. }
  case_bool_decide; [by split|].
  destruct (call_alike _ _ p1 p2 (Talk_alike tl cl bot line "" sessionId false) H)
    as [Hres Hp].
  destruct (Cli.call (Talk go (with_tracelog tl cl) bot line "" sessionId false) p1)
    as [[r1 e1] q1].
  destruct (Cli.call (Talk go cl bot line "" sessionId false) p2) as [[r2 e2] q2].
  simpl in *. injection Hres as -> ->.
  destruct e2 as [e|]; [split; [done|by apply alike_Print]|].
  destruct r2 as [r|]; [|by split].
  apply IH. by apply alike_Println.
Qed.

Lemma call_New_main (fl : Cli.Flags) (p : Cli.Process) :
  Cli.call (New go [SetErrorLog (Some (Cli.log_New ""));
                    SetCredentials (Cli.appId fl) (Cli.userKey fl)]) p
  = if bool_decide (Cli.appId fl = "") || bool_decide (Cli.userKey fl = "") then
      (inl ErrNoCred,
       {| Cli.machine :=
            {| net := {| history := history (net (Cli.machine p))
                           ++ [Printf (Cli.log_New "") "Missing application ID or user key" []];
                         stream := stream (net (Cli.machine p)) |};
               disk := disk (Cli.machine p) |};
          Cli.stdout := Cli.stdout p; Cli.stderr := Cli.stderr p |})
    else
      (inr (Build_Client (Cli.appId fl) (Cli.userKey fl) DefaultURL (Some (Cli.log_New ""))
              None (http_DefaultClient go)),
       {| Cli.machine := {| net := net (Cli.machine p); disk := disk (Cli.machine p) |};
          Cli.stdout := Cli.stdout p; Cli.stderr := Cli.stderr p |}).
Proof.
  unfold Cli.call. rewrite New_main.
  by destruct (bool_decide (Cli.appId fl = "") || bool_decide (Cli.userKey fl = "")).
Qed.

Lemma call_SetTraceLog (tl : option Logger) (cl : Client) (p : Cli.Process) :
  Cli.call (SetTraceLog tl cl) p
  = (with_tracelog tl cl, None,
     {| Cli.machine := {| net := net (Cli.machine p); disk := disk (Cli.machine p) |};
        Cli.stdout := Cli.stdout p; Cli.stderr := Cli.stderr p |}).
Proof. reflexivity. Qed.

Ltac alike_by lem :=
  match goal with
  | |- context [Cli.call ?f1 ?p1] =>
      match goal with
      | |- context [Cli.call ?f2 ?p2] =>
          let H := fresh "H" in
          pose proof (call_alike f1 f2 p1 p2 lem (alike_refl _)) as H;
          destruct (Cli.call f1 p1) as [? ?]; destruct (Cli.call f2 p2) as [? ?]
      end
  | |- context [Cli.call_Stdout ?f1 ?p1] =>
      match goal with
      | |- context [Cli.call_Stdout ?f2 ?p2] =>
          let H := fresh "H" in
          pose proof (call_Stdout_alike f1 f2 p1 p2 lem (alike_refl _)) as H;
          destruct (Cli.call_Stdout f1 p1) as [? ?];
          destruct (Cli.call_Stdout f2 p2) as [? ?]
      end
  | |- context [Cli.call_path ?f1 ?p1] =>
      match goal with
      | |- context [Cli.call_path ?f2 ?p2] =>
          let H := fresh "H" in
          pose proof (call_path_alike f1 f2 p1 p2 lem (alike_refl _)) as H;
          destruct (Cli.call_path f1 p1) as [? ?];
          destruct (Cli.call_path f2 p2) as [? ?]
      end
  end.

(** X24. The flag [-debug] changes nothing but the trace. With it and
    without it a run of the command line client ends the same way,
    writes the same to the standard output, sends the same requests
    and leaves the same disk. *)
Theorem debug_changes_no_outcome (fl : Cli.Flags) (stdin : list string) (p : Cli.Process) :
  let traced := Cli.run lib go (Cli.with_debug true fl) stdin p in
  let plain := Cli.run lib go (Cli.with_debug false fl) stdin p in
  traced.1 = plain.1 ∧ alike traced.2 plain.2.
Proof.
  unfold Cli.run. cbn [Cli.with_debug Cli.appId Cli.userKey Cli.name Cli.out Cli.file
                        Cli.input Cli.cmd Cli.debug].
  rewrite !call_New_main.
  destruct (bool_decide (Cli.appId fl = "") || bool_decide (Cli.userKey fl = "")).
  { cbv zeta. split; [done|apply alike_refl]. }
  rewrite call_SetTraceLog.
  set (cl := Build_Client _ _ _ _ _ _).
  set (tl := Some (Cli.log_New "TRACE: ")).
  set (q := {| Cli.machine := _; Cli.stdout := _; Cli.stderr := _ |}).
  set (command := Cli.strings_ToLower lib (Cli.cmd fl)).
  cbv zeta beta iota. rewrite !bool_decide_not. clearbody command.
  repeat match goal with
         | |- context [bool_decide ?P] =>
             destruct (bool_decide_reflect P); cbn [andb negb orb]; try congruence
         end.
  all: try (split; [done|apply alike_refl]).
  all: first
    [ alike_by (List_alike tl cl)
    | alike_by (CreateBot_alike tl cl (Cli.name fl))
    | alike_by (DeleteBot_alike tl cl (Cli.name fl))
    | alike_by (UploadFileFromPath_alike tl cl (Cli.name fl) (Cli.file fl))
    | alike_by (GetFile_alike tl cl (Cli.name fl) (Cli.file fl) (Some (Cli.os_Stdout (disk (Cli.machine q)))))
    | alike_by (GetFileToPath_alike tl cl (Cli.name fl) (Cli.out fl))
    | alike_by (DeleteFile_alike tl cl (Cli.name fl) (Cli.file fl))
    | alike_by (ListFiles_alike tl cl (Cli.name fl))
    | alike_by (DownloadFiles_alike tl cl (Cli.name fl) (Some (Cli.os_Stdout (disk (Cli.machine q)))))
    | alike_by (DownloadFilesToPath_alike tl cl (Cli.name fl) (Cli.out fl))
    | alike_by (Verify_alike tl cl (Cli.name fl))
    | alike_by (Talk_alike tl cl (Cli.name fl) (Cli.input fl) "" 0%Z false)
    | apply talk_loop_alike; apply alike_refl ].
  all: cbn [fst snd] in H; destruct H as [-> Halike].
  all: try by apply alike_report.
  all: repeat match goal with
              | x : (_ * _)%type |- _ => destruct x
              | x : option _ |- _ => destruct x
              end; cbn [fst snd]; (split; [done|]).
  all: try by apply alike_Print.
  all: by apply alike_Println.
Qed.

End Trace.

(** ** The further properties on concrete inputs *)

Section MoreExamples.

(** No base URL among the options (X1). *)
Lemma New_default_url_witness :
  ∃ cl, (New Std.std (map (option_of Std.std) [Credentials "app" "key"; ErrorLog None])
           Std.quiet).1 = inr cl
        ∧ url cl = DefaultURL.
Proof.
  apply (New_default_url Std.std [Credentials "app" "key"; ErrorLog None] Std.quiet);
    [reflexivity | discriminate | discriminate].
Defined.

(** Two credentials and two base URLs: the last of each counts (X2). *)
Lemma New_last_option_wins_witness :
  ∃ cl, New Std.std (map (option_of Std.std)
                       [Credentials "a" "b"; BaseUrl "http://first/";
                        TraceLog (Some (logger "trace")); Credentials "app" "key";
                        BaseUrl "http://host/"]) Std.quiet
        = (inr cl,
           {| history := [Printf (logger "trace") ("Using URL [%s]" +:+ LF) ["http://host"]];
              stream := None |})
        ∧ appId cl = "app" ∧ userKey cl = "key" ∧ url cl = "http://host"
        ∧ tracelog cl = Some (logger "trace").
Proof.
  eexists. split.
  - apply (New_last_option_wins Std.std
             [Credentials "a" "b"; BaseUrl "http://first/"; TraceLog (Some (logger "trace"));
              Credentials "app" "key"; BaseUrl "http://host/"] Std.quiet);
      [reflexivity | discriminate | discriminate].
  - repeat split.
Defined.

(** An empty user key (X3). *)
Lemma New_logs_missing_credentials_witness :
  New Std.std (map (option_of Std.std) [ErrorLog (Some (logger "err")); Credentials "app" ""])
    Std.quiet
  = (inl ErrNoCred,
     {| history := [Printf (logger "err") "Missing application ID or user key" []];
        stream := None |}).
Proof.
  apply (New_logs_missing_credentials Std.std
           [ErrorLog (Some (logger "err")); Credentials "app" ""] Std.quiet);
    [reflexivity | right; reflexivity].
Defined.

(** A base URL with the scheme ftp between two error logs: the line
    goes to the first (X4). *)
Lemma New_reports_first_invalid_url_witness :
  New Std.std (map (option_of Std.std)
                 ([ErrorLog (Some (logger "first"))] ++ BaseUrl "ftp://host"
                    :: [ErrorLog (Some (logger "second")); Credentials "app" "key"]))
    Std.quiet
  = (inl (errors_New "Invalid schema specified [ftp://host]"),
     {| history := [Printf (logger "first") "Invalid schema specified [ftp://host]" []];
        stream := None |}).
Proof.
  exact (New_reports_first_invalid_url Std.std [ErrorLog (Some (logger "first"))]
           [ErrorLog (Some (logger "second")); Credentials "app" "key"] "ftp://host"
           Std.quiet eq_refl eq_refl).
Defined.

(** No network (X6): the error of the HTTP client comes back. *)
Lemma transport_error_is_returned_witness :
  (perform Std.std (OpCreateBot "b1") (with_c Std.http_DefaultClient (Std.client 200 ""))
     Std.quiet).1
  = Some (foreign net_http "dial tcp: no route to host").
Proof.
  pose proof (transport_error_is_returned Std.std (OpCreateBot "b1")
                (with_c Std.http_DefaultClient (Std.client 200 "")) Std.quiet Std.create_b1
                (foreign net_http "dial tcp: no route to host")) as H.
  destruct (perform Std.std (OpCreateBot "b1")
              (with_c Std.http_DefaultClient (Std.client 200 "")) Std.quiet)
    as [err w'] eqn:Hrun.
  assert (requests w' = requests Std.quiet ++ [Std.create_b1]) as Hreqs.
  { vm_compute in Hrun. by injection Hrun as <- <-. }
  destruct (H Hreqs eq_refl) as [-> _]. reflexivity.
Defined.

(** A client URL that starts with a colon (X7). *)
Lemma unparseable_url_stops_operation_witness :
  perform Std.std (OpCreateBot "b1") (with_url ":bad" (Std.client 200 "")) Std.quiet
  = (Some (foreign net_url
             "parse :bad/bot/app/b1?user_key=key: missing protocol scheme"),
     Std.quiet).
Proof.
  apply (unparseable_url_stops_operation Std.std (OpCreateBot "b1")
           (with_url ":bad" (Std.client 200 "")) Std.quiet); reflexivity.
Defined.

(** A 404 with both logs in place (X9): the request on the trace log,
    the response and the message on the error log. *)
Lemma lines_of_an_operation_witness :
  let cl := with_errorlog (Some (logger "err"))
              (with_tracelog (Some (logger "trace")) (Std.client 404 "nope")) in
  log_lines (perform Std.std (OpCreateBot "b1") cl Std.quiet).2
  = [Printf (logger "trace") ("%s" +:+ LF)
       ["PUT http://host/bot/app/b1?user_key=key HTTP/1.1"];
     Printf (logger "err") ("%s" +:+ LF)
       ["HTTP/1.1 404 Not Found" +:+ LF +:+ LF +:+ "nope"];
     Printf (logger "err") "Unexpected status code: 404 (Not Found)" []].
Proof.
  intros cl.
  pose proof (lines_of_an_operation Std.std (OpCreateBot "b1") cl Std.quiet Std.create_b1
                {| StatusCode := 404; Payload := list_byte_of_string "nope" |}) as H.
  destruct (perform Std.std (OpCreateBot "b1") cl Std.quiet) as [err w'] eqn:Hrun.
  assert (requests w' = requests Std.quiet ++ [Std.create_b1]) as Hreqs.
  { vm_compute in Hrun. by injection Hrun as <- <-. }
  cbv zeta in H. simpl. rewrite (H Hreqs eq_refl). reflexivity.
Defined.

(** A script is copied into the writer (X10). *)
Lemma delivery_of_an_operation_witness :
  let wr := {| sink := "out"; room := None |} in
  decodings (perform Std.std (OpGetFile "b1" "rules.aiml" (Some wr))
               (Std.client 200 "<aiml/>") Std.quiet).2
  = [Copy wr (list_byte_of_string "<aiml/>")].
Proof.
  intros wr.
  pose proof (delivery_of_an_operation Std.std (OpGetFile "b1" "rules.aiml" (Some wr))
                (Std.client 200 "<aiml/>") Std.quiet
                {| Method := "GET";
                   RequestURL := "http://host/bot/app/b1/file/rules.aiml?user_key=key";
                   RequestBody := None |}
                {| StatusCode := 200; Payload := list_byte_of_string "<aiml/>" |}) as H.
  destruct (perform Std.std (OpGetFile "b1" "rules.aiml" (Some wr))
              (Std.client 200 "<aiml/>") Std.quiet) as [err w'] eqn:Hrun.
  assert (requests w' = requests Std.quiet
                        ++ [{| Method := "GET";
                               RequestURL := "http://host/bot/app/b1/file/rules.aiml?user_key=key";
                               RequestBody := None |}]) as Hreqs.
  { vm_compute in Hrun. by injection Hrun as <- <-. }
  simpl. exact (H Hreqs eq_refl ltac:(simpl; lia)).
Defined.



(** [List] after a 404 (X13). *)
Lemma listing_results_witness :
  (List Std.std (Std.client 404 "nope") Std.quiet).1
  = ([], Some (errors_New "Unexpected status code: 404 (Not Found)")).
Proof.
  destruct (listing_results Std.std (Std.client 404 "nope") "b1" Std.quiet) as [H _].
  destruct (List Std.std (Std.client 404 "nope") Std.quiet) as [[entries err] w'] eqn:Hrun.
  destruct H as (_ & _ & Hbad & _).
  assert (requests w' = requests Std.quiet
                        ++ [{| Method := "GET"; RequestURL := "http://host/bot/app?user_key=key";
                               RequestBody := None |}]) as Hreqs.
  { vm_compute in Hrun. by injection Hrun as <- <- <-. }
  destruct (Hbad _ {| StatusCode := 404; Payload := list_byte_of_string "nope" |}
              Hreqs eq_refl ltac:(right; simpl; lia)) as [-> ->].
  reflexivity.
Defined.

(** A file name without a dot, in a directory with one (X14). *)
Lemma file_name_without_extension_witness :
  GetFile Std.std (Std.client 200 "") "b1" ("v1.2" +:+ "/" +:+ "README") None Std.quiet
  = (Some (errors_New "Extension is not recognized []"), Std.quiet).
Proof.
  assert (dotless "v1.2/README" = true
          ∨ ∃ dir base, "v1.2" +:+ "/" +:+ "README" = dir +:+ "/" +:+ base
                        ∧ dotless base = true) as Hname.
  { right. exists "v1.2", "README". split; reflexivity. }
  destruct (file_name_without_extension Std.std (Std.client 200 "") "b1"
              ("v1.2" +:+ "/" +:+ "README") Hname) as [_ H].
  apply (H None None Std.quiet).
Defined.


(** A disk that takes two bytes at the path: the download fails with
    the error of the copy, and the file holds the two bytes. *)
Lemma download_stops_short :
  let m := {| net := Std.quiet;
              disk := {| files := {["out.zip" := list_byte_of_string "old"]};
                         sealed := ∅; limits := {["out.zip" := 2%nat]}; handles := [] |} |} in
  let r := DownloadFilesToPath Std.std (Std.client 200 "PKZIP") "b1" "out.zip" m in
  r.1 = Some (pb_error (foreign io_pkg "short write"))
  ∧ files (disk r.2) !! "out.zip" = Some (list_byte_of_string "PK").
Proof. split; reflexivity. Qed.

(** An upload from a path is the upload of the content of the file
    under its last element (X17). *)
Lemma path_variants_delegate_witness :
  let data := list_byte_of_string "<aiml/>" in
  let m := {| net := Std.quiet;
              disk := {| files := {["in/rules.aiml" := data]}; sealed := ∅; limits := ∅;
                         handles := [] |} |} in
  UploadFileFromPath Std.std (Std.client 200 "") "b1" "in/rules.aiml" m
  = (pb_error <$> (UploadFile Std.std (Std.client 200 "") "b1" "rules.aiml" (Some data)
                     Std.quiet).1,
     {| net := (UploadFile Std.std (Std.client 200 "") "b1" "rules.aiml" (Some data)
                  Std.quiet).2;
        disk := disk m |}).
Proof.
  intros data m.
  pose proof (proj1 (path_variants_delegate Std.std (Std.client 200 "") "b1" "in/rules.aiml" m))
    as H.
  change (files (disk m) !! "in/rules.aiml") with (Some data) in H.
  change (GoOs.filepath_Base "in/rules.aiml") with "rules.aiml" in H.
  rewrite H. reflexivity.
Defined.

(** The directory of the local path does not reach the server (X18). *)
Lemma path_names_the_remote_file_witness :
  let m := {| net := Std.quiet;
              disk := {| files := ∅; sealed := ∅; limits := ∅; handles := [] |} |} in
  net (GetFileToPath Std.std (Std.client 200 "<aiml/>") "b1" ("in" +:+ "/" +:+ "rules.aiml") m).2
  = (GetFile Std.std (Std.client 200 "<aiml/>") "b1" "rules.aiml"
       (Some (GoOs.file_writer (disk m) ("in" +:+ "/" +:+ "rules.aiml"))) Std.quiet).2.
Proof.
  intros m.
  destruct (path_names_the_remote_file Std.std (Std.client 200 "<aiml/>") "b1" "in"
              "rules.aiml" m eq_refl ltac:(discriminate)) as [_ H].
  specialize (H ltac:(apply not_elem_of_empty)).
  change (net m) with Std.quiet in H.
  destruct (GetFile Std.std (Std.client 200 "<aiml/>") "b1" "rules.aiml" _ Std.quiet)
    as [err w'].
  destruct (GetFileToPath Std.std (Std.client 200 "<aiml/>") "b1" _ m) as [ferr m'].
  simpl. apply H.
Defined.

(** An upload without a file name is a usage error, and a flag that is
    not defined ends the program before that (X19). *)
Lemma exit_status_witness :
  (Cli.main Cli.std Std.std
     ["-appId"; "app"; "-userKey"; "key"; "-name"; "b1"; "-cmd"; "upload"] [] Cli.fresh).1
  = Cli.Exit 1
  ∧ Cli.main Cli.std Std.std ["-cmd"; "verify"; "-verbose"] [] Cli.fresh
    = (Cli.Exit 2,
       {| Cli.machine := Cli.machine Cli.fresh; Cli.stdout := [];
          Cli.stderr := ["flag provided but not defined: -verbose"] |}).
Proof.
  split.
  - pose proof (exit_status Cli.std Std.std
                  ["-appId"; "app"; "-userKey"; "key"; "-name"; "b1"; "-cmd"; "upload"] []
                  Cli.fresh) as H.
    change (Cli.flag_Parse Cli.std
              ["-appId"; "app"; "-userKey"; "key"; "-name"; "b1"; "-cmd"; "upload"])
      with (inr (A := Z * string) (Cli.flags "upload" "" "")) in H.
    cbv iota beta in H.
    destruct (Cli.main Cli.std Std.std _ [] Cli.fresh) as [e p'].
    destruct H as (_ & Hiff & _). simpl. apply Hiff. reflexivity.
  - exact (exit_status Cli.std Std.std ["-cmd"; "verify"; "-verbose"] [] Cli.fresh).
Defined.

(** The line after EXIT is not sent (X21). *)
Lemma exit_ends_the_talk_witness :
  Cli.run Cli.std (Cli.online 200 Std.reply_json) (Cli.flags "Talk" "" "")
    (["hi" +:+ LF] ++ ("EXIT" +:+ LF) :: ["more" +:+ LF]) Cli.fresh
  = Cli.run Cli.std (Cli.online 200 Std.reply_json) (Cli.flags "Talk" "" "")
      ["hi" +:+ LF] Cli.fresh.
Proof.
  apply (exit_ends_the_talk Cli.std (Cli.online 200 Std.reply_json) (Cli.flags "Talk" "" "")
           ["hi" +:+ LF] ["more" +:+ LF] ("EXIT" +:+ LF) Cli.fresh); reflexivity.
Defined.



(** What that run writes, and what it writes when the standard output
    takes two bytes only: the two bytes, then the line of the error. *)
Lemma download_to_stdout_outputs :
  let go := Cli.online 200 "<aiml/>" in
  let fl := Cli.flags "download" "" "rules.aiml" in
  let narrow :=
    {| Cli.machine :=
         {| net := Std.quiet;
            disk := {| files := ∅; sealed := ∅; limits := {[Cli.stdout_path := 2%nat]};
                       handles := [] |} |};
       Cli.stdout := []; Cli.stderr := [] |} in
  Cli.stdout (Cli.run Cli.std go fl [] Cli.fresh).2
  = [Cli.Raw (list_byte_of_string "<aiml/>")]
  ∧ Cli.stdout (Cli.run Cli.std go fl [] narrow).2
    = [Cli.Raw (list_byte_of_string "<a"); Cli.Text ("short write" +:+ LF)].
Proof. split; reflexivity. Qed.

End MoreExamples.
